(** * pererecos-stats: the analytics engine of [app/services/stats_service.py]

    A shallow embedding of the statistics service and of the parts of the
    router and of the chat bot it depends on, followed by the properties
    of the engine.

    Conventions of the embedding.
    - The MongoDB collection [db.messages] is the list of its documents in
      insertion order.  [find] filters it, [sort] is a stable sort, [limit]
      keeps a prefix, [$group] yields its groups in order of first
      occurrence.  MongoDB leaves the order of groups and of equal sort keys
      open; the model fixes one.
    - A [datetime] is the integer number of microseconds since the epoch
      and a [timedelta] an integer number of microseconds.
    - Python [int] is [Z].  A Python [float], and a double of MongoDB, is
      the rational number [Q] it stands for, in lowest terms; every
      operation rounds its exact result to binary64, to nearest with ties
      to even.  The exponent range is not modelled: overflow and underflow
      need counts beyond [2^500].
    - A [str] is the list of the bytes of its UTF-8 encoding.
    - [datetime.now] and the HTTP client are inputs of the functions that
      use them, in the order of the calls. *)

From Stdlib Require Import ZArith QArith Qround Qabs Qpower Qreduction Lia Lqa.
From Stdlib Require Import Ascii String List.
From stdpp Require Import gmap strings list fin_maps.

Open Scope Z_scope.

(** ** Time *)

Definition datetime := Z.

Definition microseconds (n : Z) : Z := n.
Definition seconds (n : Z) : Z := n * 1000000.
Definition minutes (n : Z) : Z := seconds (n * 60).
Definition hours (n : Z) : Z := seconds (n * 3600).
Definition days (n : Z) : Z := seconds (n * 86400).
Definition weeks (n : Z) : Z := days (n * 7).

(** ** Documents of [db.messages]

    The fields written by [TwitchBot.event_message]. *)

Record doc := Doc {
  user_id : string;
  username : string;
  display_name : string;
  message : string;
  channel : string;
  timestamp : datetime;
  hour : Z
}.

Definition collection := list doc.

(** [str.lower] on the ASCII letters; handles accepted by
    [TWITCH_USERNAME_PATTERN] are ASCII. *)
Definition lower_ascii (c : ascii) : ascii :=
  let n := nat_of_ascii c in
  if ((65 <=? n)%nat && (n <=? 90)%nat)%bool then ascii_of_nat (n + 32) else c.

Fixpoint lower (s : string) : string :=
  match s with
  | EmptyString => EmptyString
  | String c r => String (lower_ascii c) (lower r)
  end.

(** Outcome of a Python call: a value, or a raised exception. *)
Inductive exn := IndexError | KeyError | InvalidArgument | TimeoutException | OtherError.

Inductive outcome (A : Type) :=
| Returns (a : A)
| Raises (e : exn).
Arguments Returns {A} a.
Arguments Raises {A} e.

(** ** [get_date_filter]

    The returned dict is either empty or [{"timestamp": {"$gte": start}}];
    [None] is the empty dict. *)
Definition date_filter := option datetime.

Definition get_date_filter (period : string) (now : datetime) : date_filter :=
  if String.eqb period "day" then Some (now - days 1)
  else if String.eqb period "week" then Some (now - weeks 1)
  else if String.eqb period "month" then Some (now - days 30)
  else None.

(** [{"$match": match_stage}] for a match stage made of a date filter. *)
Definition matches_date (f : date_filter) (d : doc) : bool :=
  match f with
  | Some start => start <=? timestamp d
  | None => true
  end.

Definition bind {A B} (m : outcome A) (k : A -> outcome B) : outcome B :=
  match m with
  | Returns a => k a
  | Raises e => Raises e
  end.

Notation "'let!' x ':=' m 'in' k" := (bind m (fun x => k))
  (at level 10, x name, m at level 100, k at level 200).

(** [range(n)] *)
Definition range (n : nat) : list Z := map Z.of_nat (seq 0 n).

(** [l[i]] for a non-negative index. *)
Definition index {A} (l : list A) (i : Z) : outcome A :=
  match nth_error l (Z.to_nat i) with
  | Some a => Returns a
  | None => Raises IndexError
  end.

(** ** Response models of [app/models/schemas.py] used below *)

Record HourlyActivity := { h_hour : Z; h_count : Z }.

(** ** [get_peak_hours] *)

(** [sum(counts[(start + i) % 24] for i in range(3))] *)
Definition window_sum (counts : list Z) (start : Z) : outcome Z :=
  let! c0 := index counts ((start + 0) mod 24) in
  let! c1 := index counts ((start + 1) mod 24) in
  let! c2 := index counts ((start + 2) mod 24) in
  Returns (0 + c0 + c1 + c2).

(** The body of [for start in range(24)], on the pair
    [(best_sum, best_start)]. *)
Fixpoint peak_loop (counts : list Z) (starts : list Z) (best : Z * Z)
  : outcome (Z * Z) :=
  match starts with
  | [] => Returns best
  | start :: rest =>
      let! w := window_sum counts start in
      if fst best <? w then peak_loop counts rest (w, start)
      else peak_loop counts rest best
  end.

Definition get_peak_hours (hourly_activity : list HourlyActivity)
  : outcome (list Z) :=
  match hourly_activity with
  | [] => Returns []
  | _ =>
      let counts := map h_count hourly_activity in
      let! best := peak_loop counts (range 24) (0, 0) in
      let '(best_sum, best_start) := best in
      if best_sum =? 0 then Returns []
      else Returns (map (fun i => (best_start + i) mod 24) (range 3))
  end.

(** ** Queries on the collection *)

(** [collection.find(query)] *)
Definition find (query : doc -> bool) (c : collection) : list doc :=
  List.filter query c.

(** [cursor.limit(n).to_list(n)], [{"$limit": n}] and the slice [l[:n]],
    for the positive [n] the service and the router pass. *)
Definition limit {A} (n : Z) (l : list A) : list A := firstn (Z.to_nat n) l.

(** Stable insertion sort.  [after x y] says that [x] has to stand behind
    [y]; an element is put in front of the first element it need not stand
    behind, so elements that compare equal keep their order. *)
Fixpoint insert_by {A} (after : A -> A -> bool) (x : A) (l : list A) : list A :=
  match l with
  | [] => [x]
  | y :: r => if after x y then y :: insert_by after x r else x :: y :: r
  end.

Fixpoint sort_by {A} (after : A -> A -> bool) (l : list A) : list A :=
  match l with
  | [] => []
  | x :: r => insert_by after x (sort_by after r)
  end.

(** [{"$sort": {key: -1}}], [cursor.sort(key, -1)] and
    [sorted(..., key=..., reverse=True)] on an integer key. *)
Definition sort_desc {A} (key : A -> Z) : list A -> list A :=
  sort_by (fun x y => key x <? key y).

(** [{"$sort": {key: 1}}] on an integer key. *)
Definition sort_asc {A} (key : A -> Z) : list A -> list A :=
  sort_by (fun x y => key y <? key x).

(** Descending sort on a rational key. *)
Definition Qltb (x y : Q) : bool :=
  match Qcompare x y with Lt => true | _ => false end.

Definition sort_desc_Q {A} (key : A -> Q) : list A -> list A :=
  sort_by (fun x y => Qltb (key x) (key y)).

(** [{"$group": {"_id": key, ...}}]: the documents of each group, in
    order, the groups in order of first occurrence. *)
Fixpoint add_to_group {K A} `{EqDecision K} (k : K) (d : A)
  (groups : list (K * list A)) : list (K * list A) :=
  match groups with
  | [] => [(k, [d])]
  | (k', ds) :: r =>
      if decide (k = k') then (k', ds ++ [d]) :: r
      else (k', ds) :: add_to_group k d r
  end.

Definition group_by {K A} `{EqDecision K} (key : A -> K) (l : list A)
  : list (K * list A) :=
  fold_left (fun groups d => add_to_group (key d) d groups) l [].

(** The accumulators [{"$sum": 1}] and [{"$last": field}]. *)
Definition count_of {A} (ds : list A) : Z := Z.of_nat (length ds).

Definition last_of {A} (field : A -> string) (ds : list A) : string :=
  List.last (map field ds) EmptyString.

Definition sum_Z (l : list Z) : Z := fold_left Z.add l 0.

(** ** Python dicts

    A dict that is only looked up is a [gmap]; a comprehension inserts its
    items from left to right, a later item replacing an earlier one with
    the same key. *)
Definition dict_of {K V} `{Countable K} (items : list (K * V)) : gmap K V :=
  fold_left (fun m kv => <[fst kv := snd kv]> m) items ∅.

(** [d.get(k, default)] *)
Definition dict_get {K V} `{Countable K} (d : gmap K V) (k : K) (default : V) : V :=
  match d !! k with
  | Some v => v
  | None => default
  end.

(** A dict that is iterated is the list of its items in insertion order.
    [odict_get] is [d.get(k)], [odict_set] is [d[k] = v]. *)
Fixpoint odict_get {V} (d : list (string * V)) (k : string) : option V :=
  match d with
  | [] => None
  | (k', v) :: r => if String.eqb k k' then Some v else odict_get r k
  end.

Fixpoint odict_set {V} (d : list (string * V)) (k : string) (v : V)
  : list (string * V) :=
  match d with
  | [] => [(k, v)]
  | (k', v') :: r =>
      if String.eqb k k' then (k', v) :: r else (k', v') :: odict_set r k v
  end.

(** ** Floats

    [round_half_even y] is the integer nearest to [y], a tie going to the
    even one. *)
Definition round_half_even (y : Q) : Z :=
  let f := Qfloor y in
  match Qcompare (y - inject_Z f) (1 # 2) with
  | Lt => f
  | Gt => f + 1
  | Eq => if Z.even f then f else f + 1
  end.

Definition pow2 (e : Z) : Q := (2 ^ e)%Q.

(** The [k] with [2^k <= q < 2^(k+1)], for a positive [q]. *)
Definition floor_log2 (q : Q) : Z :=
  let k := Z.log2 (Qnum q) - Z.log2 (Zpos (Qden q)) in
  if Qle_bool (pow2 k) q then k else k - 1.

(** The multiple of [2^e] nearest to [q]. *)
Definition round_to (e : Z) (q : Q) : Q :=
  Qred (inject_Z (round_half_even (q / pow2 e)) * pow2 e).

(** Rounding to binary64: 53 significant bits. *)
Definition b64 (q : Q) : Q :=
  if Qeq_bool q 0 then 0%Q else round_to (floor_log2 (Qabs q) - 52) q.

(** [float(n)], which is also how an [int] operand of a float operation
    is converted. *)
Definition of_int (n : Z) : Q := b64 (inject_Z n).

(** [a / b] on two [int]s: the quotient, rounded once. *)
Definition true_div (a b : Z) : Q := b64 (inject_Z a / inject_Z b).

(** [x * y] and [x / y] on floats. *)
Definition fmul (x y : Q) : Q := b64 (x * y).
Definition fdiv (x y : Q) : Q := b64 (x / y).

(** [math.sqrt(x)]: the root, rounded once.  [s] is the integer part of
    the root of [t], which has at least 53 bits. *)
Definition fsqrt (x : Q) : Q :=
  if Qle_bool x 0 then 0%Q
  else
    let e := (floor_log2 x - 104) / 2 in
    let t := (x / pow2 (2 * e))%Q in
    let s := Z.sqrt (Qfloor t) in
    let h := (inject_Z s + (1 # 2))%Q in
    let m := match Qcompare t (h * h) with
             | Lt => s
             | Gt => s + 1
             | Eq => if Z.even s then s else s + 1
             end in
    Qred (inject_Z m * pow2 e).

(** [round(x, 1)]: the float nearest to the multiple of one tenth that is
    nearest to the value of [x], a tie going to the even tenth. *)
Definition round1 (x : Q) : Q := b64 (Qmake (round_half_even (x * 10)) 10).

(** ** The capped tables *)

Definition MAX_USERS_QUERY : Z := 1000.
Definition MAX_MESSAGES_QUERY : Z := 10000.

(** A row [{"_id": username, "count": n}]. *)
Record user_count := { uc_id : string; uc_count : Z }.

(** The pipeline [$match, $group by username with count, $sort by count
    descending, $limit MAX_USERS_QUERY], and [to_list(MAX_USERS_QUERY)]. *)
Definition top_users (matching : doc -> bool) (c : collection) : list user_count :=
  limit MAX_USERS_QUERY
    (limit MAX_USERS_QUERY
       (sort_desc uc_count
          (map (fun g => {| uc_id := fst g; uc_count := count_of (snd g) |})
               (group_by username (List.filter matching c))))).

(** ** [get_user_percentile] *)

(** The loop [for user in all_users: if user["_id"] == name: ...; break]. *)
Definition count_for (name : string) (all_users : list user_count) : Z :=
  match List.find (fun u => String.eqb (uc_id u) name) all_users with
  | Some u => uc_count u
  | None => 0
  end.

(** The function once the query has returned [all_users]. *)
Definition percentile_in (all_users : list user_count) (username : string) : Q :=
  match all_users with
  | [] => 0
  | _ =>
      let user_count := count_for (lower username) all_users in
      if user_count =? 0 then 0
      else
        let below_count :=
          count_of (List.filter (fun u => uc_count u <? user_count) all_users) in
        let total_users := count_of all_users in
        if 0 <? total_users
        then fmul (true_div below_count total_users) 100
        else 0
  end%Q.

Definition get_user_percentile (username period : string) (now : datetime)
  (c : collection) : Q :=
  let date_filter := get_date_filter period now in
  percentile_in (top_users (matches_date date_filter) c) username.

(** [enumerate(l)] *)
Definition enumerate {A} (l : list A) : list (Z * A) :=
  combine (range (length l)) l.

(** ** [get_rising_stars] *)

Record RisingStarEntry := {
  rs_rank : Z;
  rs_username : string;
  rs_display_name : string;
  rs_current_count : Z;
  rs_previous_count : Z;
  rs_growth_percent : Q
}.

(** A row of the ["current"] facet. *)
Record current_row := { cur_id : string; cur_display_name : string; cur_count : Z }.

(** An item of [growth_data]. *)
Record growth_row := {
  g_username : string;
  g_display_name : string;
  g_current_count : Z;
  g_previous_count : Z;
  g_growth_percent : Q
}.

Definition in_current_week (now : datetime) (d : doc) : bool :=
  now - days 7 <=? timestamp d.

Definition in_previous_week (now : datetime) (d : doc) : bool :=
  (now - days 14 <=? timestamp d) && (timestamp d <? now - days 7).

Definition current_facet (now : datetime) (c : collection) : list current_row :=
  map (fun g => {| cur_id := fst g;
                   cur_display_name := last_of display_name (snd g);
                   cur_count := count_of (snd g) |})
      (group_by username (List.filter (in_current_week now) c)).

Definition previous_facet (now : datetime) (c : collection) : list user_count :=
  map (fun g => {| uc_id := fst g; uc_count := count_of (snd g) |})
      (group_by username (List.filter (in_previous_week now) c)).

(** [current_map = {u["_id"]: u for u in result["current"]}], iterated
    by [items()]. *)
Definition current_map_of (current : list current_row)
  : list (string * current_row) :=
  fold_left (fun m u => odict_set m (cur_id u) u) current [].

(** The two branches of [growth_percent]. *)
Definition growth_percent (current_count previous_count : Z) : Q :=
  if previous_count =? 0
  then fmul (of_int current_count) 10
  else fmul (true_div (current_count - previous_count) previous_count) 100.

(** The body of [for username, data in current_map.items()]. *)
Definition growth_item (previous_map : gmap string Z)
  (item : string * current_row) : growth_row :=
  let username := fst item in
  let data := snd item in
  let current_count := cur_count data in
  let previous_count := dict_get previous_map username 0 in
  {| g_username := username;
     g_display_name := cur_display_name data;
     g_current_count := current_count;
     g_previous_count := previous_count;
     g_growth_percent := growth_percent current_count previous_count |}.

Definition rising_entry (ie : Z * growth_row) : RisingStarEntry :=
  let i := fst ie in
  let entry := snd ie in
  {| rs_rank := i + 1;
     rs_username := g_username entry;
     rs_display_name := g_display_name entry;
     rs_current_count := g_current_count entry;
     rs_previous_count := g_previous_count entry;
     rs_growth_percent := round1 (g_growth_percent entry) |}.

(** The function once the facets are known. *)
Definition rising_stars_of (lim : Z) (current : list current_row)
  (previous : list user_count) : list RisingStarEntry :=
  let current_map := current_map_of current in
  let previous_map := dict_of (map (fun u => (uc_id u, uc_count u)) previous) in
  let growth_data := map (growth_item previous_map) current_map in
  let growth_data := sort_desc_Q g_growth_percent growth_data in
  let top_growth := limit lim growth_data in
  map rising_entry (enumerate top_growth).

Definition get_rising_stars (lim : Z) (now : datetime) (c : collection)
  : list RisingStarEntry :=
  rising_stars_of lim (current_facet now c) (previous_facet now c).

(** ** [get_hour_leaders] *)

Record HourLeaderEntry := {
  hl_hour : Z;
  hl_username : string;
  hl_display_name : string;
  hl_message_count : Z
}.

(** A row of the first [$group], with [_id = {hour, username}]. *)
Record hour_user_row := {
  hu_hour : Z;
  hu_username : string;
  hu_display_name : string;
  hu_count : Z
}.

Definition hour_user_rows (docs : list doc) : list hour_user_row :=
  map (fun g => {| hu_hour := fst (fst g);
                   hu_username := snd (fst g);
                   hu_display_name := last_of display_name (snd g);
                   hu_count := count_of (snd g) |})
      (group_by (fun d => (hour d, username d)) docs).

(** The [$first] accumulators of the second [$group]. *)
Definition hour_leader (g : Z * list hour_user_row) : HourLeaderEntry :=
  {| hl_hour := fst g;
     hl_username := hd EmptyString (map hu_username (snd g));
     hl_display_name := hd EmptyString (map hu_display_name (snd g));
     hl_message_count := hd 0 (map hu_count (snd g)) |}.

Definition get_hour_leaders (c : collection) : list HourLeaderEntry :=
  limit 24
    (sort_asc hl_hour
       (map hour_leader
            (group_by hu_hour (sort_desc hu_count (hour_user_rows c))))).

(** ** [get_user_rankings] *)

Record UserRankings := {
  top_rank : option Z;
  top_rank_change : option Z;
  rising_rank : option Z;
  writers_rank : option Z;
  hours_dominated : list Z
}.

(** [for i, x in enumerate(l): if p(x): r = i + 1; break], from [r = None]. *)
Fixpoint position_from {A} (i : Z) (p : A -> bool) (l : list A) : option Z :=
  match l with
  | [] => None
  | x :: r => if p x then Some (i + 1) else position_from (i + 1) p r
  end.

Definition position {A} (p : A -> bool) (l : list A) : option Z :=
  position_from 0 p l.

(** [$strLenCP]: the number of code points of a UTF-8 string, which is
    the number of its bytes that are not continuation bytes. *)
Fixpoint strLenCP (s : string) : Z :=
  match s with
  | EmptyString => 0
  | String c r =>
      (if (nat_of_ascii c / 64 =? 2)%nat then 0 else 1) + strLenCP r
  end.

(** A row [{"_id": username, "avg_length": a, "count": n}]. *)
Record writer_row := { wr_id : string; wr_avg_length : Q; wr_count : Z }.

(** [{"$avg": ...}] over a non-empty group: the sum, as a double,
    divided by the count, as a double. *)
Definition avg (l : list Z) : Q := fdiv (of_int (sum_Z l)) (of_int (count_of l)).

Definition writers_table (lim : Z) (c : collection) : list writer_row :=
  limit lim
    (limit lim
       (sort_desc_Q wr_avg_length
          (List.filter (fun w => 10 <=? wr_count w)
             (map (fun g => {| wr_id := fst g;
                               wr_avg_length :=
                                 avg (map (fun d => strLenCP (message d)) (snd g));
                               wr_count := count_of (snd g) |})
                  (group_by username c))))).

(** The clock readings of one call of [get_user_rankings], in the order
    of the calls of [datetime.now]: in [get_date_filter], in the rank-change
    block (read only when [top_rank] is not [None]) and in
    [get_rising_stars]. *)
Record rankings_clock := {
  rk_now_filter : datetime;
  rk_now_change : datetime;
  rk_now_rising : datetime
}.

(** The rank-change block once both tables are known. *)
Definition rank_change (top_rank prev_rank : option Z) : option Z :=
  match top_rank with
  | None => None
  | Some t =>
      match prev_rank with
      | None => None
      | Some p => Some (p - t)
      end
  end.

Definition get_user_rankings (username period : string) (clk : rankings_clock)
  (c : collection) : UserRankings :=
  let date_filter := get_date_filter period (rk_now_filter clk) in
  let username_lower := lower username in
  let is_user := fun u => String.eqb (uc_id u) username_lower in
  let all_users := top_users (matches_date date_filter) c in
  let top_rank := position is_user all_users in
  let prev_users := top_users (in_previous_week (rk_now_change clk)) c in
  let prev_rank := position is_user prev_users in
  let top_rank_change := rank_change top_rank prev_rank in
  let rising_entries := get_rising_stars 100 (rk_now_rising clk) c in
  let rising_rank :=
    option_map rs_rank
      (List.find (fun e => String.eqb (rs_username e) username_lower)
                 rising_entries) in
  let writers := writers_table MAX_USERS_QUERY c in
  let writers_rank :=
    position (fun w => String.eqb (wr_id w) username_lower) writers in
  let hour_leaders := get_hour_leaders c in
  let hours_dominated :=
    map hl_hour
        (List.filter (fun e => String.eqb (hl_username e) username_lower)
                     hour_leaders) in
  {| top_rank := top_rank;
     top_rank_change := top_rank_change;
     rising_rank := rising_rank;
     writers_rank := writers_rank;
     hours_dominated := hours_dominated |}.

(** ** The 7TV emote cache: [get_7tv_emotes] *)

(** The module globals [_7tv_emotes_cache] and [_7tv_cache_time]. *)
Record emote_globals := {
  _7tv_emotes_cache : option (gmap string string);
  _7tv_cache_time : option datetime
}.

(** An element of the ["emotes"] array: an object with a ["name"] and an
    ["id"], or one on which [emote["name"]] or [emote["id"]] raises. *)
Inductive emote_json :=
| Emote (name id : string)
| Malformed.

(** What [await client.get(url)] does: it raises [httpx.TimeoutException]
    or another exception, or it returns a response whose [json()] raises
    ([None]) or gives a document with the array [data.get("emotes", [])]. *)
Inductive http_result :=
| HttpTimeout
| HttpError
| HttpResponse (status_code : Z) (json : option (list emote_json)).

(** [for emote in emotes_json: emotes[emote["name"]] = emote["id"]]; the
    dict keeps what was stored before an exception. *)
Fixpoint store_emotes (entries : list emote_json) (emotes : gmap string string)
  : gmap string string * outcome unit :=
  match entries with
  | [] => (emotes, Returns tt)
  | Emote name id :: r => store_emotes r (<[name := id]> emotes)
  | Malformed :: r => (emotes, Raises KeyError)
  end.

(** One [client.get] followed by its [if resp.status_code == 200] block. *)
Definition fetch_into (resp : http_result) (emotes : gmap string string)
  : gmap string string * outcome unit :=
  match resp with
  | HttpTimeout => (emotes, Raises TimeoutException)
  | HttpError => (emotes, Raises OtherError)
  | HttpResponse status_code json =>
      if status_code =? 200 then
        match json with
        | None => (emotes, Raises OtherError)
        | Some entries => store_emotes entries emotes
        end
      else (emotes, Returns tt)
  end.

(** The [try] block: the channel set, then the global set.  Both [except]
    clauses print and fall through, so only the dict matters afterwards. *)
Definition try_fetch (channel_resp global_resp : http_result)
  : gmap string string * outcome unit :=
  let '(emotes, r) := fetch_into channel_resp ∅ in
  match r with
  | Raises e => (emotes, Raises e)
  | Returns _ => fetch_into global_resp emotes
  end.

Definition cache_fresh (g : emote_globals) (now : datetime) : option (gmap string string) :=
  match _7tv_emotes_cache g, _7tv_cache_time g with
  | Some cache, Some t => if now - t <? seconds 3600 then Some cache else None
  | _, _ => None
  end.

Definition get_7tv_emotes (now : datetime) (channel_resp global_resp : http_result)
  (g : emote_globals) : gmap string string * emote_globals :=
  match cache_fresh g now with
  | Some cache => (cache, g)
  | None =>
      let emotes := fst (try_fetch channel_resp global_resp) in
      (emotes, {| _7tv_emotes_cache := Some emotes; _7tv_cache_time := Some now |})
  end.

(** [True] when the refresh left the [try] block through an [except]
    clause. *)
Definition refresh_failed (channel_resp global_resp : http_result) : bool :=
  match snd (try_fetch channel_resp global_resp) with
  | Raises _ => true
  | Returns _ => false
  end.

(** ** [count_emotes_in_messages] *)

Record EmoteUsage := { emote_name : string; emote_id : string; eu_count : Z }.

(** [str.split()].  White space is what [str.isspace] accepts: U+0009 to
    U+000D, U+001C to U+0020, U+0085, U+00A0, U+1680, U+2000 to U+200A,
    U+2028, U+2029, U+202F, U+205F and U+3000.  [space_width s] is the
    number of bytes of the white-space character at the head of [s], and 0
    when [s] does not start with one. *)
Definition is_space (c : ascii) : bool :=
  let n := nat_of_ascii c in
  (((9 <=? n) && (n <=? 13)) || ((28 <=? n) && (n <=? 32)))%nat.

Definition space_width (s : string) : nat :=
  match s with
  | String c1 (String c2 (String c3 _)) =>
      let b1 := nat_of_ascii c1 in
      let b2 := nat_of_ascii c2 in
      let b3 := nat_of_ascii c3 in
      if is_space c1 then 1
      else if (b1 =? 194) && ((b2 =? 133) || (b2 =? 160)) then 2
      else if (b1 =? 225) && (b2 =? 154) && (b3 =? 128) then 3
      else if (b1 =? 226) && (b2 =? 128)
              && (((128 <=? b3) && (b3 <=? 138)) || (b3 =? 168) || (b3 =? 169)
                  || (b3 =? 175)) then 3
      else if (b1 =? 226) && (b2 =? 129) && (b3 =? 159) then 3
      else if (b1 =? 227) && (b2 =? 128) && (b3 =? 128) then 3
      else 0
  | String c1 (String c2 EmptyString) =>
      let b1 := nat_of_ascii c1 in
      let b2 := nat_of_ascii c2 in
      if is_space c1 then 1
      else if (b1 =? 194) && ((b2 =? 133) || (b2 =? 160)) then 2
      else 0
  | String c1 EmptyString => if is_space c1 then 1 else 0
  | EmptyString => 0
  end%nat.

(** [word] is the word being read; [skip] counts the bytes of a
    white-space character that are still to be passed over. *)
Fixpoint split_from (word : string) (skip : nat) (s : string) : list string :=
  match s with
  | EmptyString =>
      match word with EmptyString => [] | _ => [word] end
  | String c r =>
      match skip with
      | S k => split_from word k r
      | O =>
          match space_width s with
          | O => split_from (word ++ String c EmptyString) 0 r
          | S k =>
              match word with
              | EmptyString => split_from EmptyString k r
              | _ => word :: split_from EmptyString k r
              end
          end
      end
  end.

Definition split (s : string) : list string := split_from EmptyString 0 s.

(** [counts[word] = counts.get(word, 0) + 1] for the words that are keys
    of [emotes]. *)
Definition count_word (emotes : gmap string string)
  (counts : list (string * Z)) (word : string) : list (string * Z) :=
  match emotes !! word with
  | Some _ =>
      odict_set counts word
        (match odict_get counts word with Some n => n | None => 0 end + 1)
  | None => counts
  end.

Definition emote_counts (emotes : gmap string string) (messages : list string)
  : list (string * Z) :=
  fold_left (fun counts message => fold_left (count_word emotes) (split message) counts)
            messages [].

(** The function once [get_7tv_emotes] has returned [emotes]. *)
Definition count_emotes_with (emotes : gmap string string)
  (messages : list string) (lim : Z) : list EmoteUsage :=
  if decide (emotes = ∅) then []
  else
    let sorted_emotes := limit lim (sort_desc snd (emote_counts emotes messages)) in
    map (fun nc => {| emote_name := fst nc;
                      emote_id := dict_get emotes (fst nc) EmptyString;
                      eu_count := snd nc |})
        sorted_emotes.

(** The clock reading and the two HTTP results of one call of
    [get_7tv_emotes]. *)
Record emote_io := {
  io_now : datetime;
  io_channel : http_result;
  io_global : http_result
}.

Definition count_emotes_in_messages (messages : list string) (lim : Z)
  (io : emote_io) (g : emote_globals) : list EmoteUsage * emote_globals :=
  let '(emotes, g') :=
    get_7tv_emotes (io_now io) (io_channel io) (io_global io) g in
  (count_emotes_with emotes messages lim, g').

(** ** [get_user_top_emotes] *)
Definition get_user_top_emotes (uname : string) (lim : Z) (now : datetime)
  (io : emote_io) (g : emote_globals) (c : collection)
  : list EmoteUsage * emote_globals :=
  let thirty_days_ago := now - days 30 in
  let messages :=
    limit MAX_MESSAGES_QUERY
      (limit MAX_MESSAGES_QUERY
         (find (fun d => String.eqb (username d) (lower uname)
                         && (thirty_days_ago <=? timestamp d)) c)) in
  count_emotes_in_messages (map message messages) lim io g.

(** ** [get_rival] *)

Record RivalInfo := {
  rv_username : string;
  rv_display_name : string;
  similarity_score : Q
}.

(** A row of the pool: [{"_id", "display_name", "hours": [{"hour",
    "count"}], "total"}]. *)
Record pattern_row := {
  pr_id : string;
  pr_display_name : string;
  pr_hours : list (Z * Z);
  pr_total : Z
}.

(** A row of the first [$group], with [_id = {username, hour}]. *)
Record user_hour_row := {
  uh_username : string;
  uh_hour : Z;
  uh_display_name : string;
  uh_count : Z
}.

Definition user_hour_rows (docs : list doc) : list user_hour_row :=
  map (fun g => {| uh_username := fst (fst g);
                   uh_hour := snd (fst g);
                   uh_display_name := last_of display_name (snd g);
                   uh_count := count_of (snd g) |})
      (group_by (fun d => (username d, hour d)) docs).

Definition pattern_of (g : string * list user_hour_row) : pattern_row :=
  {| pr_id := fst g;
     pr_display_name := last_of uh_display_name (snd g);
     pr_hours := map (fun r => (uh_hour r, uh_count r)) (snd g);
     pr_total := sum_Z (map uh_count (snd g)) |}.

Definition rival_pool (matching : doc -> bool) (c : collection) : list pattern_row :=
  limit MAX_USERS_QUERY
    (limit MAX_USERS_QUERY
       (sort_desc pr_total
          (map pattern_of
               (group_by uh_username (user_hour_rows (List.filter matching c)))))).

(** [sum(x * x for x in v)] *)
Definition sum_squares (v : list Z) : Z := sum_Z (map (fun x => x * x) v).

(** [math.sqrt(sum(x * x for x in v))] *)
Definition magnitude (v : list Z) : Q := fsqrt (of_int (sum_squares v)).

(** [sum(a * b for a, b in zip(u, v))] *)
Definition dot_product (u v : list Z) : Z :=
  sum_Z (map (fun ab => fst ab * snd ab) (combine u v)).

(** [other_hours = {h["hour"]: h["count"] for h in other_user["hours"]}]
    and [[other_hours.get(i, 0) for i in range(24)]]. *)
Definition other_vector (other_user : pattern_row) : list Z :=
  let other_hours := dict_of (pr_hours other_user) in
  map (fun i => dict_get other_hours i 0) (range 24).

(** [(dot_product / (user_magnitude * other_magnitude)) * 100] *)
Definition similarity (user_vector other_vector : list Z) : Q :=
  fmul (fdiv (of_int (dot_product user_vector other_vector))
             (fmul (magnitude user_vector) (magnitude other_vector)))
       100.

Definition rival_info (other_user : pattern_row) (sim : Q) : RivalInfo :=
  {| rv_username := pr_id other_user;
     rv_display_name := pr_display_name other_user;
     similarity_score := round1 sim |}.

(** The body of [for other_user in all_users], on the pair
    [(best_rival, best_similarity)]. *)
Definition rival_step (username_lower : string) (user_vector : list Z)
  (best : option RivalInfo * Q) (other_user : pattern_row)
  : option RivalInfo * Q :=
  if String.eqb (pr_id other_user) username_lower then best
  else
    let v := other_vector other_user in
    if Qeq_bool (magnitude v) 0 then best
    else
      let sim := similarity user_vector v in
      if Qltb (snd best) sim then (Some (rival_info other_user sim), sim)
      else best.

(** The function once the query has returned [all_users]. *)
Definition rival_in (all_users : list pattern_row) (uname : string)
  (hourly_pattern : list HourlyActivity) : option RivalInfo :=
  match all_users with
  | [] => None
  | _ =>
      let user_vector := map h_count hourly_pattern in
      if Qeq_bool (magnitude user_vector) 0 then None
      else
        fst (fold_left (rival_step (lower uname) user_vector) all_users
                       (None, (-1)%Q))
  end.

Definition get_rival (uname : string) (hourly_pattern : list HourlyActivity)
  (period : string) (now : datetime) (c : collection) : option RivalInfo :=
  let date_filter := get_date_filter period now in
  rival_in (rival_pool (matches_date date_filter) c) uname hourly_pattern.

(** ** [get_top_replies] *)

Record ReplyTarget := {
  rt_username : string;
  rt_display_name : string;
  reply_count : Z
}.

(** The query of the inner [find]: messages of other users in the ten
    seconds before [msg_time]. *)
Definition in_reply_window (username_lower : string) (msg_time : datetime)
  (d : doc) : bool :=
  let window_start := msg_time - seconds 10 in
  negb (String.eqb (username d) username_lower)
  && (window_start <=? timestamp d) && (timestamp d <? msg_time).

Definition previous_messages (username_lower : string) (msg : doc)
  (c : collection) : list doc :=
  limit 50 (limit 50 (find (in_reply_window username_lower (timestamp msg)) c)).

(** The body of [for prev_msg in previous_messages], on [reply_counts];
    a value of the dict is the pair of its ["display_name"] and
    ["count"]. *)
Definition credit (reply_counts : list (string * (string * Z))) (prev_msg : doc)
  : list (string * (string * Z)) :=
  let other_username := username prev_msg in
  let reply_counts :=
    match odict_get reply_counts other_username with
    | Some _ => reply_counts
    | None => odict_set reply_counts other_username (display_name prev_msg, 0)
    end in
  match odict_get reply_counts other_username with
  | Some data => odict_set reply_counts other_username (fst data, snd data + 1)
  | None => reply_counts
  end.

(** The messages of the subject the loop goes through. *)
Definition user_messages_of (uname period : string) (now : datetime)
  (c : collection) : list doc :=
  let date_filter := get_date_filter period now in
  limit MAX_MESSAGES_QUERY
    (limit MAX_MESSAGES_QUERY
       (sort_desc timestamp
          (find (fun d => String.eqb (username d) (lower uname)
                          && matches_date date_filter d) c))).

(** [reply_counts] after the outer loop. *)
Definition reply_counts_of (uname : string) (user_messages : list doc)
  (c : collection) : list (string * (string * Z)) :=
  fold_left
    (fun reply_counts msg =>
       fold_left credit (previous_messages (lower uname) msg c) reply_counts)
    user_messages [].

Definition get_top_replies (uname period : string) (lim : Z) (now : datetime)
  (c : collection) : list ReplyTarget :=
  let user_messages := user_messages_of uname period now c in
  match user_messages with
  | [] => []
  | _ =>
      let reply_counts := reply_counts_of uname user_messages c in
      let sorted_replies :=
        limit lim (sort_desc (fun item => snd (snd item)) reply_counts) in
      map (fun item => {| rt_username := fst item;
                          rt_display_name := fst (snd item);
                          reply_count := snd (snd item) |})
          sorted_replies
  end.

(** ** [get_user_stats] *)

Record RecentMessage := { rm_message : string; rm_timestamp : datetime }.

Record FavoriteHour := { fh_hour : Z; fh_count : Z; fh_percentage : Q }.

Record UserStats := {
  us_username : string;
  us_display_name : string;
  us_period : string;
  total_messages : Z;
  hourly_activity : list HourlyActivity;
  recent_messages : list RecentMessage;
  first_message_date : option datetime;
  last_message_date : option datetime;
  percentile : Q;
  peak_hours : list Z;
  favorite_hour : option FavoriteHour;
  rival : option RivalInfo;
  top_replies : list ReplyTarget;
  rankings : UserRankings;
  top_emotes : list EmoteUsage
}.

(** [{"$group": {"_id": "$hour", "count": {"$sum": 1}}}, {"$sort":
    {"_id": 1}}]: the rows are pairs [(hour, count)]. *)
Definition hourly_rows (docs : list doc) : list (Z * Z) :=
  sort_asc fst (map (fun g => (fst g, count_of (snd g))) (group_by hour docs)).

(** [[X(hour=h, count=hourly_map.get(h, 0)) for h in range(24)]] with
    [hourly_map = {r["_id"]: r["count"] for r in rows}]. *)
Definition histogram (rows : list (Z * Z)) : list HourlyActivity :=
  let hourly_map := dict_of rows in
  map (fun h => {| h_hour := h; h_count := dict_get hourly_map h 0 |}) (range 24).

(** The accumulators [{"$min": "$timestamp"}] and [{"$max": "$timestamp"}]. *)
Definition min_timestamp (docs : list doc) : option datetime :=
  match docs with
  | [] => None
  | d :: r => Some (fold_left Z.min (map timestamp r) (timestamp d))
  end.

Definition max_timestamp (docs : list doc) : option datetime :=
  match docs with
  | [] => None
  | d :: r => Some (fold_left Z.max (map timestamp r) (timestamp d))
  end.

(** [max(hourly_activity, key=lambda h: h.count)]: the first item with
    the largest count. *)
Fixpoint max_by_count (best : HourlyActivity) (l : list HourlyActivity)
  : HourlyActivity :=
  match l with
  | [] => best
  | h :: r =>
      if h_count best <? h_count h then max_by_count h r else max_by_count best r
  end.

Definition favorite_hour_of (total : Z) (hourly : list HourlyActivity)
  : option FavoriteHour :=
  match hourly with
  | [] => None
  | h :: r =>
      if 0 <? total then
        let max_hour := max_by_count h r in
        if 0 <? h_count max_hour then
          Some {| fh_hour := h_hour max_hour;
                  fh_count := h_count max_hour;
                  fh_percentage :=
                    round1 (fmul (true_div (h_count max_hour) total) 100) |}
        else None
      else None
  end.

(** The messages of [uname] in the window of a date filter: the
    [$match] stage of [get_user_stats]. *)
Definition user_in_period (uname : string) (f : date_filter) (d : doc) : bool :=
  String.eqb (username d) (lower uname) && matches_date f d.

(** [recent_docs]: the query has no date filter. *)
Definition recent_docs_of (uname : string) (c : collection) : list doc :=
  limit 10
    (limit 10
       (sort_desc timestamp
          (find (fun d => String.eqb (username d) (lower uname)) c))).

(** The clock readings and HTTP results of one call of [get_user_stats],
    named after the functions that consume them. *)
Record stats_io := {
  st_now_filter : datetime;
  st_now_percentile : datetime;
  st_now_rival : datetime;
  st_now_replies : datetime;
  st_rankings : rankings_clock;
  st_now_emotes : datetime;
  st_emote_io : emote_io
}.

(** The pipeline ends in [$facet], which yields one document;
    [result["total"]] is empty when nothing matches, and [total] is then 0.
    The result is [None] in that case, as it is under [if not results]. *)
Definition get_user_stats (uname period : string) (io : stats_io)
  (g : emote_globals) (c : collection)
  : outcome (option UserStats) * emote_globals :=
  let date_filter := get_date_filter period (st_now_filter io) in
  let matched := List.filter (user_in_period uname date_filter) c in
  let total := count_of matched in
  if total =? 0 then (Returns None, g)
  else
    let hourly_activity := histogram (hourly_rows matched) in
    let recent_messages :=
      map (fun d => {| rm_message := message d; rm_timestamp := timestamp d |})
          (recent_docs_of uname c) in
    let percentile := get_user_percentile uname period (st_now_percentile io) c in
    match get_peak_hours hourly_activity with
    | Raises e => (Raises e, g)
    | Returns peak_hours =>
        let rival := get_rival uname hourly_activity period (st_now_rival io) c in
        let top_replies := get_top_replies uname period 5 (st_now_replies io) c in
        let rankings := get_user_rankings uname period (st_rankings io) c in
        let '(top_emotes, g') :=
          get_user_top_emotes uname 10 (st_now_emotes io) (st_emote_io io) g c in
        (Returns (Some
           {| us_username := lower uname;
              us_display_name := last_of display_name matched;
              us_period := period;
              total_messages := total;
              hourly_activity := hourly_activity;
              recent_messages := recent_messages;
              first_message_date := min_timestamp matched;
              last_message_date := max_timestamp matched;
              percentile := round1 percentile;
              peak_hours := peak_hours;
              favorite_hour := favorite_hour_of total hourly_activity;
              rival := rival;
              top_replies := top_replies;
              rankings := rankings;
              top_emotes := top_emotes |}), g')
    end.

(** ** [get_overall_hourly_activity] *)

(** The loop that finds [(peak_hour, peak_count)]. *)
Definition peak_of (activity : list HourlyActivity) : Z * Z :=
  fold_left (fun best a => if snd best <? h_count a then (h_hour a, h_count a) else best)
            activity (0, 0).

(** [ChatActivityPoint] has the fields of [HourlyActivity]; the result is
    [(activity, total_messages, peak_hour, peak_count)]. *)
Definition get_overall_hourly_activity (c : collection)
  : list HourlyActivity * Z * Z * Z :=
  let results := limit 24 (hourly_rows c) in
  let activity := histogram results in
  let total_messages := sum_Z (map h_count activity) in
  let '(peak_hour, peak_count) := peak_of activity in
  (activity, total_messages, peak_hour, peak_count).

(** ** The route [GET /stats/user/{username}] of [app/routers/stats.py] *)

Definition is_alnum (c : ascii) : bool :=
  let n := nat_of_ascii c in
  (((48 <=? n) && (n <=? 57)) || ((65 <=? n) && (n <=? 90))
   || ((97 <=? n) && (n <=? 122)))%nat.

(** [TWITCH_USERNAME_PATTERN = ^[a-zA-Z0-9][a-zA-Z0-9_]{3,24}$] *)
Definition username_pattern (s : string) : bool :=
  match s with
  | EmptyString => false
  | String c r =>
      is_alnum c
      && forallb (fun x => is_alnum x || Ascii.eqb x "_") (list_ascii_of_string r)
      && (3 <=? String.length r)%nat && (String.length r <=? 24)%nat
  end.

(** [pattern="^(day|week|month|all)$"] *)
Definition period_pattern (s : string) : bool :=
  String.eqb s "day" || String.eqb s "week" || String.eqb s "month"
  || String.eqb s "all".

Inductive http_response (A : Type) :=
| Ok200 (body : A)
| NotFound404
| ValidationError422
| ServerError500.
Arguments Ok200 {A} body.
Arguments NotFound404 {A}.
Arguments ValidationError422 {A}.
Arguments ServerError500 {A}.

(** The handler runs only when both parameters pass their patterns; the
    rate limiter is left out. *)
Definition user_stats (uname period : string) (io : stats_io)
  (g : emote_globals) (c : collection) : http_response UserStats * emote_globals :=
  if username_pattern uname && period_pattern period then
    match get_user_stats uname period io g c with
    | (Returns (Some stats), g') => (Ok200 stats, g')
    | (Returns None, g') => (NotFound404, g')
    | (Raises _, g') => (ServerError500, g')
    end
  else (ValidationError422, g).

(** ** Ingestion: [TwitchBot.event_message] of [app/bot/twitch_bot.py] *)

(** [now.astimezone(BRT).hour] with [BRT = timezone(timedelta(hours=-3))]. *)
Definition brt_hour (now : datetime) : Z := ((now - hours 3) / hours 1) mod 24.

(** The document is appended unless the message is the bot's own echo or
    [insert_one] raises; the display name and the message arrive sanitized. *)
Definition event_message (echo insert_ok : bool)
  (author_id author_name sanitized_display_name sanitized_message channel_name : string)
  (now : datetime) (c : collection) : collection :=
  if echo then c
  else if insert_ok then
    c ++ [ {| user_id := author_id;
              username := lower author_name;
              display_name := sanitized_display_name;
              message := sanitized_message;
              channel := channel_name;
              timestamp := now;
              hour := brt_hour now |} ]
  else c.

(** ** Vocabulary of the statements about floats *)

(** The unit roundoff of binary64, [2^-53]: the largest relative error of
    one rounding. *)
Definition unit_roundoff : Q := 1 # 9007199254740992.

(** ** Vocabulary of the statements about [get_peak_hours] *)

(** The count in bin [h] of a histogram given as the list of its counts. *)
Definition bin (counts : list Z) (h : Z) : Z := nth (Z.to_nat h) counts 0.

(** Sum of the three consecutive bins starting at [s], hour 23 being
    followed by hour 0. *)
Definition circular_sum3 (counts : list Z) (s : Z) : Z :=
  bin counts (s mod 24) + bin counts ((s + 1) mod 24) + bin counts ((s + 2) mod 24).

(** [m] is the smallest start hour whose window sum is maximal. *)
Definition first_max_start (w : Z -> Z) (m : Z) : Prop :=
  0 <= m < 24 /\
  (forall s, 0 <= s < 24 -> w s <= w m) /\
  (forall s, 0 <= s < m -> w s < w m).

(** What the loop of [get_peak_hours] knows after the start hours below
    [a]: no window sum was positive, or [best] is the first of the highest
    window sums so far. *)
Definition peak_inv (w : Z -> Z) (a : Z) (best : Z * Z) : Prop :=
  (fst best = 0 /\ snd best = 0 /\ forall s, 0 <= s < a -> w s <= 0)
  \/ (0 < fst best /\ fst best = w (snd best) /\ 0 <= snd best < a /\
      (forall s, 0 <= s < a -> w s <= w (snd best)) /\
      (forall s, 0 <= s < snd best -> w s < w (snd best))).

(** The loop of [get_peak_hours] once every window sum is known. *)
Fixpoint peak_fold (w : Z -> Z) (starts : list Z) (best : Z * Z) : Z * Z :=
  match starts with
  | [] => best
  | start :: rest =>
      if fst best <? w start then peak_fold w rest (w start, start)
      else peak_fold w rest best
  end.

(** ** Vocabulary of the statements about [get_date_filter] *)

(** The call [get_date_filter(period)] as an outcome.  The function has no
    [raise], and string comparison and [datetime] subtraction do not raise
    on its inputs. *)
Definition period_resolution (period : string) (now : datetime)
  : outcome date_filter :=
  Returns (get_date_filter period now).

(** ** Vocabulary of the statements about [get_7tv_emotes] *)

(** A lookup [name in cache] / [cache[name]] in the cache global. *)
Definition cached_id (g : emote_globals) (name : string) : option string :=
  match _7tv_emotes_cache g with
  | Some cache => cache !! name
  | None => None
  end.

(** ** Vocabulary of the statements about tables *)

(** The elements of a list with a given key, in order. *)
Definition docs_with {K A} `{EqDecision K} (key : A -> K) (k : K) (l : list A)
  : list A :=
  List.filter (fun d => bool_decide (key d = k)) l.

(** The number of matching messages of a user. *)
Definition messages_of (matching : doc -> bool) (c : collection) (name : string) : Z :=
  count_of (docs_with username name (List.filter matching c)).

(** No element of a sorted list has to stand behind a later one. *)
Definition ordered {A} (after : A -> A -> bool) (l : list A) : Prop :=
  forall i j x y, (i < j)%nat -> nth_error l i = Some x -> nth_error l j = Some y ->
                  after x y = false.

(** The distinct authors of a list of documents. *)
Definition authors (docs : list doc) : list string :=
  List.nodup String.string_dec (map username docs).

(** The number of authors of matching documents who wrote fewer than [n]
    of them. *)
Definition authors_below (matching : doc -> bool) (c : collection) (n : Z) : Z :=
  count_of (List.filter (fun a => messages_of matching c a <? n)
                        (authors (List.filter matching c))).

(** [part / total * 100] as binary64 arithmetic gives it: the quotient is
    rounded, then the product. *)
Definition percent_of (part total : Z) : Q :=
  b64 (b64 (inject_Z part / inject_Z total) * 100).

(** ** Sample data *)

(** A message in the channel [pererecos]; the user id is the handle. *)
Definition msg (name text : string) (t : datetime) (h : Z) : doc :=
  {| user_id := name; username := name; display_name := name;
     message := text; channel := "pererecos"; timestamp := t; hour := h |}.

(** A collection with a single author. *)
Definition solo_chat : collection := [msg "alice" "oi" (seconds 100) 9].

(** A collection whose only message is ten days old at day 20. *)
Definition old_chat : collection := [msg "alice" "oi" (days 10) 9].

(** [alice] wrote three messages, [bob] two and [carol] one. *)
Definition three_chat : collection :=
  [msg "alice" "a" (seconds 10) 9; msg "bob" "b" (seconds 20) 9;
   msg "alice" "c" (seconds 30) 9; msg "carol" "d" (seconds 40) 9;
   msg "bob" "e" (seconds 50) 9; msg "alice" "f" (seconds 60) 9].

(** ** Vocabulary of the statements about ranks *)

(** The 1-based rank of a user in a table, if the user is in it. *)
Fixpoint rank_from (k : Z) (name : string) (table : list user_count) : option Z :=
  match table with
  | [] => None
  | u :: rest =>
      if String.eqb (uc_id u) name then Some k else rank_from (k + 1) name rest
  end.

Definition rank_in (name : string) (table : list user_count) : option Z :=
  rank_from 1 name table.

(** A message is of the latest 7 days when it is at most 7 days old, and
    of the 7 days before them when it is at most 14 days and more than 7
    days old; a day has 86400 seconds of 1000000 microseconds. *)
Definition in_latest_7_days (now : datetime) (d : doc) : bool :=
  now - 7 * 86400 * 1000000 <=? timestamp d.

Definition in_days_14_to_7 (now : datetime) (d : doc) : bool :=
  (now - 14 * 86400 * 1000000 <=? timestamp d)
  && (timestamp d <? now - 7 * 86400 * 1000000).

(** The capped table of the latest 7-day window and of the 7 days before
    it. *)
Definition latest_week_table (now : datetime) (c : collection) : list user_count :=
  top_users (in_latest_7_days now) c.

Definition prior_week_table (now : datetime) (c : collection) : list user_count :=
  top_users (in_days_14_to_7 now) c.

(** The rank delta between the 7 days before the latest 7 days and the
    latest 7 days. *)
Definition week_over_week_delta (name : string) (now : datetime) (c : collection)
  : option Z :=
  match rank_in name (latest_week_table now c),
        rank_in name (prior_week_table now c) with
  | Some latest, Some prior => Some (prior - latest)
  | _, _ => None
  end.

(** The capped table of a period. *)
Definition period_table (period : string) (now : datetime) (c : collection)
  : list user_count :=
  top_users (matches_date (get_date_filter period now)) c.

(** At day 20: in the week before [bob] wrote twice and [alice] once, in
    the current week [alice] wrote twice and [bob] once.  The message of
    day 6 is exactly 14 days old, the first message of day 13 exactly 7
    days. *)
Definition swap_chat : collection :=
  [msg "bob" "a" (days 6) 9; msg "bob" "b" (days 9) 9; msg "alice" "c" (days 10) 9;
   msg "alice" "d" (days 13) 9; msg "alice" "e" (days 16) 9; msg "bob" "f" (days 17) 9].

(** At day 20, three messages of the week before and four of the
    current week, all of one user. *)
Definition growth_chat : collection :=
  [msg "alice" "a" (days 8) 9; msg "alice" "b" (days 9) 9;
   msg "alice" "c" (days 10) 9;
   msg "alice" "d" (days 15) 9; msg "alice" "e" (days 16) 9;
   msg "alice" "f" (days 17) 9; msg "alice" "g" (days 18) 9].

(** ** Vocabulary of the statements about growth *)

(** The number of messages of a user in the latest 7 days and in the 7
    days before them. *)
Definition current_week_count (name : string) (now : datetime) (c : collection) : Z :=
  count_of (docs_with username name (List.filter (in_latest_7_days now) c)).

Definition previous_week_count (name : string) (now : datetime) (c : collection) : Z :=
  count_of (docs_with username name (List.filter (in_days_14_to_7 now) c)).


(** ** Vocabulary of the statements about histograms *)

(** Every stored hour is an hour of the day, as [event_message] writes it. *)
Definition valid_hours (c : collection) : Prop :=
  List.Forall (fun d => 0 <= hour d < 24) c.

(** The number of documents of a list written at hour [h]. *)
Definition count_at_hour (h : Z) (docs : list doc) : Z :=
  count_of (docs_with hour h docs).

(** Inputs for a call of [get_user_stats] at day 20 with an empty emote
    cache and a 7TV service that times out. *)
Definition sample_io : stats_io :=
  {| st_now_filter := days 20;
     st_now_percentile := days 20;
     st_now_rival := days 20;
     st_now_replies := days 20;
     st_rankings := {| rk_now_filter := days 20; rk_now_change := days 20;
                       rk_now_rising := days 20 |};
     st_now_emotes := days 20;
     st_emote_io := {| io_now := days 20; io_channel := HttpTimeout;
                       io_global := HttpTimeout |} |}.

Definition no_cache : emote_globals :=
  {| _7tv_emotes_cache := None; _7tv_cache_time := None |}.

(** At day 20, a message of day 2 and a message of the last hour, by one
    user. *)
Definition sparse_chat : collection :=
  [msg "alice" "old" (days 2) 9; msg "alice" "new" (days 20 - hours 1) 8].

(** Fifty-one messages of [bob] in the ten seconds before a message of
    [alice]. *)
Definition busy_chat : collection :=
  repeat (msg "bob" "x" (seconds 95) 9) 51 ++ [msg "alice" "z" (seconds 100) 9].

(** [bob] writes at 80 s and at 95 s, [alice] at 100 s. *)
Definition reply_chat : collection :=
  [msg "bob" "a" (seconds 80) 9; msg "bob" "b" (seconds 95) 9;
   msg "alice" "c" (seconds 100) 9].

(** ** Vocabulary of the statements about reply credits *)




(** ** Vocabulary of the statements about rivals *)

(** A row of the pool can be chosen: it is not the subject's and its
    vector is not all zero. *)
Definition is_candidate (username_lower : string) (row : pattern_row) : bool :=
  negb (String.eqb (pr_id row) username_lower)
  && negb (sum_squares (other_vector row) =? 0).

Definition candidates (username_lower : string) (pool : list pattern_row)
  : list pattern_row :=
  List.filter (is_candidate username_lower) pool.

(** The similarity of a row with the subject's vector, as computed. *)
Definition score (user_vector : list Z) (row : pattern_row) : Q :=
  similarity user_vector (other_vector row).


(** The loop of [get_rival] on rows that can all be chosen. *)
Definition best_step (user_vector : list Z) (best : option RivalInfo * Q)
  (row : pattern_row) : option RivalInfo * Q :=
  let sim := score user_vector row in
  if Qltb (snd best) sim then (Some (rival_info row sim), sim) else best.

(** The histogram of the messages of a user over the hours of the day. *)
Definition hour_vector (name : string) (docs : list doc) : list Z :=
  map (fun h => count_at_hour h (docs_with username name docs)) (range 24).

(** The exact cosine of [u] and [v] against that of [u] and [w], for
    vectors without negative entries of which [v] and [w] are not all zero:
    [dot u v / |v|] against [dot u w / |w|], squared and cleared of
    denominators. *)
Definition cosine_lt (u v w : list Z) : Prop :=
  dot_product u v ^ 2 * sum_squares w < dot_product u w ^ 2 * sum_squares v.

Definition cosine_le (u v w : list Z) : Prop :=
  dot_product u v ^ 2 * sum_squares w <= dot_product u w ^ 2 * sum_squares v.

(** [best] is the first row of [l] with the highest exact cosine. *)
Definition first_highest_cosine (user_vector : list Z) (l : list pattern_row)
  (best : pattern_row) : Prop :=
  exists before after,
    l = before ++ best :: after /\
    (forall x, In x before ->
       cosine_lt user_vector (other_vector x) (other_vector best)) /\
    (forall x, In x after ->
       cosine_le user_vector (other_vector x) (other_vector best)).

(** [alice] writes once at each of the hours 9, 10 and 11, [bob] three
    times and [carol] twice at hour 9. *)
Definition tie_chat : collection :=
  [msg "bob" "a" (seconds 10) 9; msg "bob" "b" (seconds 20) 9;
   msg "bob" "c" (seconds 30) 9; msg "carol" "d" (seconds 40) 9;
   msg "carol" "e" (seconds 50) 9; msg "alice" "f" (seconds 60) 9;
   msg "alice" "g" (seconds 70) 10; msg "alice" "h" (seconds 80) 11].

(** The histogram of [alice] in [tie_chat], as [get_user_stats] hands it
    to [get_rival]. *)
Definition tie_pattern : list HourlyActivity :=
  histogram (hourly_rows (docs_with username "alice" tie_chat)).

Definition bob_row : pattern_row :=
  {| pr_id := "bob"; pr_display_name := "bob"; pr_hours := [(9, 3)];
     pr_total := 3 |}.

Definition carol_row : pattern_row :=
  {| pr_id := "carol"; pr_display_name := "carol"; pr_hours := [(9, 2)];
     pr_total := 2 |}.

(** Two users who both write at hour 9 only. *)
Definition twin_chat : collection :=
  [msg "alice" "a" (seconds 10) 9; msg "bob" "b" (seconds 20) 9;
   msg "alice" "c" (seconds 30) 9; msg "bob" "d" (seconds 40) 9].

(** The histogram of [alice] in [twin_chat]. *)
Definition twin_pattern : list HourlyActivity :=
  map (fun h => {| h_hour := h; h_count := if h =? 9 then 2 else 0 |}) (range 24).

(** * The remaining operations of the service and of the router *)

(** ** [get_leaderboard] *)

Record LeaderboardEntry := {
  lb_rank : Z;
  lb_username : string;
  lb_display_name : string;
  lb_message_count : Z
}.

Record LeaderboardResponse := {
  lr_period : string;
  lr_total_users : Z;
  lr_total_messages : Z;
  lr_leaderboard : list LeaderboardEntry
}.

(** [$group] by username with the last display name and the count: the
    rows have the shape of the rows of the ["current"] facet. *)
Definition user_rows (docs : list doc) : list current_row :=
  map (fun g => {| cur_id := fst g;
                   cur_display_name := last_of display_name (snd g);
                   cur_count := count_of (snd g) |})
      (group_by username docs).

(** [{"$addToSet": "$username"}]: the set, as the list of its elements in
    order of first occurrence. *)
Definition add_to_set (s : list string) (x : string) : list string :=
  if existsb (String.eqb x) s then s else s ++ [x].

Definition set_of (l : list string) : list string := fold_left add_to_set l [].

(** The totals pipeline: [$group] with [_id: None] yields no document on
    an empty input, and [total_info] is then the default with two
    zeros. *)
Definition leaderboard_totals (docs : list doc) : Z * Z :=
  match docs with
  | [] => (0, 0)
  | _ => (count_of docs, count_of (set_of (map username docs)))
  end.

Definition leaderboard_entry (ie : Z * current_row) : LeaderboardEntry :=
  {| lb_rank := fst ie + 1;
     lb_username := cur_id (snd ie);
     lb_display_name := cur_display_name (snd ie);
     lb_message_count := cur_count (snd ie) |}.

Definition get_leaderboard (period : string) (lim : Z) (now : datetime)
  (c : collection) : LeaderboardResponse :=
  let date_filter := get_date_filter period now in
  let matched := List.filter (matches_date date_filter) c in
  let results := limit lim (limit lim (sort_desc cur_count (user_rows matched))) in
  let '(total_messages, total_users) := leaderboard_totals matched in
  {| lr_period := period;
     lr_total_users := total_users;
     lr_total_messages := total_messages;
     lr_leaderboard := map leaderboard_entry (enumerate results) |}.

(** ** [get_top_writers] *)






(** ** [get_active_chatters] *)

(** The schema has no field [rank]: the keyword [rank=...] given to the
    constructor is not kept. *)
Record ActiveChatter := {
  ac_username : string;
  ac_display_name : string;
  ac_message_count : Z
}.

Definition get_active_chatters (min_messages minutes_back : Z) (now : datetime)
  (c : collection) : list ActiveChatter * Z :=
  let since := now - minutes minutes_back in
  let results :=
    sort_desc cur_count
      (List.filter (fun r => min_messages <=? cur_count r)
         (user_rows (List.filter (fun d => since <=? timestamp d) c))) in
  let all_users := top_users (fun _ => true) c in
  let total_users := count_of all_users in
  let chatters :=
    map (fun entry => {| ac_username := cur_id entry;
                         ac_display_name := cur_display_name entry;
                         ac_message_count := cur_count entry |})
        results in
  (chatters, total_users).

(** ** [search_users] *)





(** ** [get_chat_activity_today] and [get_unique_chatters_by_hour] *)

Definition get_chat_activity_today (now : datetime) (c : collection)
  : list HourlyActivity * Z * Z * Z :=
  let last_24h := now - hours 24 in
  let results :=
    limit 24 (hourly_rows (List.filter (fun d => last_24h <=? timestamp d) c)) in
  let activity := histogram results in
  let total_today := sum_Z (map h_count activity) in
  let '(peak_hour, peak_count) := peak_of activity in
  (activity, total_today, peak_hour, peak_count).

(** The first [$group] keeps one row per pair of hour and username, the
    second counts the rows of each hour. *)
Definition unique_rows (docs : list doc) : list (Z * Z) :=
  sort_asc fst
    (map (fun g => (fst g, count_of (snd g)))
         (group_by fst (map fst (group_by (fun d => (hour d, username d)) docs)))).

Definition get_unique_chatters_by_hour (now : datetime) (c : collection)
  : list HourlyActivity * Z * Z * Z :=
  let last_24h := now - hours 24 in
  let results :=
    limit 24 (unique_rows (List.filter (fun d => last_24h <=? timestamp d) c)) in
  let activity := histogram results in
  let total_unique := sum_Z (map h_count activity) in
  let '(peak_hour, peak_count) := peak_of activity in
  (activity, total_unique, peak_hour, peak_count).

(** ** [get_chat_top_emotes] *)
Definition get_chat_top_emotes (lim : Z) (now : datetime) (io : emote_io)
  (g : emote_globals) (c : collection) : (list EmoteUsage * Z) * emote_globals :=
  let thirty_days_ago := now - days 30 in
  let messages :=
    limit MAX_MESSAGES_QUERY
      (limit MAX_MESSAGES_QUERY
         (sort_desc timestamp (find (fun d => thirty_days_ago <=? timestamp d) c))) in
  let '(emotes, g') := count_emotes_in_messages (map message messages) lim io g in
  ((emotes, sum_Z (map eu_count emotes)), g').

(** ** [get_user_comparison] *)

(** The second call starts from the globals the first one left. *)
Definition get_user_comparison (user1 user2 period : string) (io1 io2 : stats_io)
  (g : emote_globals) (c : collection)
  : outcome (option UserStats * option UserStats) * emote_globals :=
  match get_user_stats user1 period io1 g c with
  | (Raises e, g1) => (Raises e, g1)
  | (Returns stats1, g1) =>
      match get_user_stats user2 period io2 g1 c with
      | (Raises e, g2) => (Raises e, g2)
      | (Returns stats2, g2) => (Returns (stats1, stats2), g2)
      end
  end.

(** ** The route [GET /health] *)

Record HealthResponse := {
  hr_status : string;
  bot_connected : bool;
  database_connected : bool
}.

(** [health_check_token] is the configured token, [x_health_token] the
    header if there is one, [ping_ok] whether [db.client.admin.command("ping")]
    returns. *)
Definition health_check (health_check_token : string)
  (x_health_token : option string) (ping_ok : bool) : HealthResponse :=
  let unauthorized :=
    negb (String.eqb health_check_token EmptyString)
    && negb (match x_health_token with
             | Some t => String.eqb t health_check_token
             | None => false
             end) in
  if unauthorized then
    {| hr_status := "ok"; bot_connected := true; database_connected := true |}
  else
    let db_connected := ping_ok in
    {| hr_status := if db_connected then "healthy" else "degraded";
       bot_connected := true;
       database_connected := db_connected |}.

(** ** Vocabulary of the statements about the remaining operations *)

(** The number of messages of a user at an hour of the day, over all
    time. *)
Definition count_user_hour (name : string) (h : Z) (c : collection) : Z :=
  count_of (List.filter (fun d => String.eqb (username d) name && (hour d =? h)) c).




(** The documents of the last 24 hours. *)
Definition last_day (now : datetime) (c : collection) : list doc :=
  List.filter (fun d => now - hours 24 <=? timestamp d) c.

(** The number of distinct authors of a list of documents. *)
Definition distinct_authors (docs : list doc) : Z :=
  count_of (set_of (map username docs)).

(** One user who wrote at hour 9 and at hour 10 of the last day. *)
Definition two_hour_chat : collection :=
  [msg "alice" "a" (seconds 100) 9; msg "alice" "b" (seconds 4000) 10].

(** U+00A0, U+3000 and U+0009 in UTF-8. *)
Definition nbsp : string :=
  String (ascii_of_nat 194) (String (ascii_of_nat 160) EmptyString).

Definition ideographic_space : string :=
  String (ascii_of_nat 227) (String (ascii_of_nat 128)
    (String (ascii_of_nat 128) EmptyString)).

Definition tab : string := String (ascii_of_nat 9) EmptyString.

(** The words of a list of messages, in order. *)
Definition tokens (messages : list string) : list string :=
  concat (map split messages).

(** The number of occurrences of a word in a list of words. *)
Definition occurrences (w : string) (l : list string) : Z :=
  count_of (List.filter (String.eqb w) l).

(** The count a dict of counts holds for a word, 0 without an entry. *)
Definition tally (counts : list (string * Z)) (w : string) : Z :=
  match odict_get counts w with
  | Some n => n
  | None => 0
  end.

Definition is_emote (emotes : gmap string string) (w : string) : bool :=
  match emotes !! w with
  | Some _ => true
  | None => false
  end.

(** The id of the last entry of an ["emotes"] array with a given name. *)
Fixpoint last_id (name : string) (entries : list emote_json) : option string :=
  match entries with
  | [] => None
  | Emote n i :: r =>
      match last_id name r with
      | Some j => Some j
      | None => if String.eqb n name then Some i else None
      end
  | Malformed :: r => last_id name r
  end.

(** The entries of an array before its first malformed one. *)
Fixpoint before_malformed (entries : list emote_json) : list emote_json :=
  match entries with
  | [] => []
  | Emote n i :: r => Emote n i :: before_malformed r
  | Malformed :: _ => []
  end.

Definition well_formed (entries : list emote_json) : Prop :=
  before_malformed entries = entries.

(** The inputs of a call of [get_user_stats] with other answers of the
    7TV service. *)
Definition with_http (io : stats_io) (channel_resp global_resp : http_result)
  : stats_io :=
  {| st_now_filter := st_now_filter io;
     st_now_percentile := st_now_percentile io;
     st_now_rival := st_now_rival io;
     st_now_replies := st_now_replies io;
     st_rankings := st_rankings io;
     st_now_emotes := st_now_emotes io;
     st_emote_io := {| io_now := io_now (st_emote_io io);
                       io_channel := channel_resp;
                       io_global := global_resp |} |}.

(** A cache that knows the emote [Kappa], stored at time 0. *)
Definition kappa_cache : emote_globals :=
  {| _7tv_emotes_cache := Some {[ "Kappa"%string := "60ae"%string ]};
     _7tv_cache_time := Some 0 |}.

(** An emote service that is not reached, asked ten seconds later. *)
Definition offline_io : emote_io :=
  {| io_now := seconds 10; io_channel := HttpTimeout; io_global := HttpTimeout |}.

(** [alice] uses [Kappa] twice, [bob] once. *)
Definition kappa_chat : collection :=
  [msg "alice" "Kappa oi Kappa" (seconds 1) 9; msg "bob" "oi Kappa" (seconds 2) 9].

(** * Properties *)

(** ** Sums *)

Lemma fold_add_shift (l : list Z) (a : Z) :
  fold_left Z.add l a = a + fold_left Z.add l 0.
Proof.
  revert a. induction l as [|x l IH]; intros a; cbn [fold_left].
  - lia.
  - rewrite (IH (a + x)), (IH (0 + x)). lia.
Qed.

Lemma sum_Z_cons (x : Z) (l : list Z) : sum_Z (x :: l) = x + sum_Z l.
Proof. unfold sum_Z. cbn [fold_left]. rewrite fold_add_shift. lia. Qed.

Lemma sum_Z_nil : sum_Z [] = 0.
Proof. reflexivity. Qed.

Lemma sum_Z_app (l1 l2 : list Z) : sum_Z (l1 ++ l2) = sum_Z l1 + sum_Z l2.
Proof.
  induction l1 as [|x l1 IH]; cbn [app].
  - rewrite sum_Z_nil. lia.
  - rewrite !sum_Z_cons, IH. lia.
Qed.

Lemma sum_Z_nonneg (l : list Z) : List.Forall (fun x => 0 <= x) l -> 0 <= sum_Z l.
Proof.
  induction 1 as [|x l Hx _ IH]; [rewrite sum_Z_nil | rewrite sum_Z_cons]; lia.
Qed.

(** ** Sorting *)

Section Sorting.

Context {A : Type} (after : A -> A -> bool).

Lemma insert_by_perm (x : A) (l : list A) :
  Permutation (insert_by after x l) (x :: l).
Proof.
  induction l as [|y l IH]; cbn [insert_by].
  - reflexivity.
  - destruct (after x y).
    + rewrite IH. apply perm_swap.
    + reflexivity.
Qed.

Lemma sort_by_perm (l : list A) : Permutation (sort_by after l) l.
Proof.
  induction l as [|x l IH]; cbn [sort_by].
  - reflexivity.
  - rewrite insert_by_perm. apply perm_skip, IH.
Qed.

Lemma sort_by_length (l : list A) : length (sort_by after l) = length l.
Proof. apply Permutation_length, sort_by_perm. Qed.

Lemma sort_by_In (x : A) (l : list A) : In x (sort_by after l) <-> In x l.
Proof.
  split; apply Permutation_in; [|symmetry]; apply sort_by_perm.
Qed.

Hypothesis after_trans_neg :
  forall x y z, after x y = false -> after y z = false -> after x z = false.
Hypothesis after_asym : forall x y, after x y = true -> after y x = false.

Lemma ordered_cons (x : A) (l : list A) :
  ordered after (x :: l) <-> (forall y, In y l -> after x y = false) /\ ordered after l.
Proof.
  split.
  - intros H. split.
    + intros y Hy. apply In_nth_error in Hy as [j Hj].
      apply (H 0%nat (S j)); [lia | reflexivity | exact Hj].
    + intros i j a b Hij Ha Hb. apply (H (S i) (S j)); [lia | exact Ha | exact Hb].
  - intros [Hx Hl] i j a b Hij Ha Hb.
    destruct j as [|j]; [lia|]. cbn in Hb.
    destruct i as [|i]; cbn in Ha.
    + injection Ha as <-. apply Hx. eapply nth_error_In, Hb.
    + apply (Hl i j); [lia | exact Ha | exact Hb].
Qed.

Lemma insert_by_ordered (x : A) (l : list A) :
  ordered after l -> ordered after (insert_by after x l).
Proof.
  induction l as [|y l IH]; intros Hl; cbn [insert_by].
  - apply ordered_cons. split; [intros ? []|]. intros i j a b _ Ha.
    destruct i; discriminate.
  - apply ordered_cons in Hl as [Hy Hl].
    destruct (after x y) eqn:Hxy.
    + apply ordered_cons. split; [|apply IH, Hl].
      intros z Hz. apply (Permutation_in _ (insert_by_perm x l)) in Hz.
      destruct Hz as [<-|Hz]; [apply after_asym, Hxy | apply Hy, Hz].
    + apply ordered_cons. split.
      * intros z [<-|Hz]; [exact Hxy|].
        apply (after_trans_neg x y z Hxy), Hy, Hz.
      * apply ordered_cons. split; assumption.
Qed.

Lemma sort_by_ordered (l : list A) : ordered after (sort_by after l).
Proof.
  induction l as [|x l IH]; cbn [sort_by].
  - intros i j a b _ Ha. destruct i; discriminate.
  - apply insert_by_ordered, IH.
Qed.

End Sorting.

Lemma sort_desc_ordered {A} (key : A -> Z) (l : list A) (i j : nat) (x y : A) :
  (i < j)%nat ->
  nth_error (sort_desc key l) i = Some x ->
  nth_error (sort_desc key l) j = Some y ->
  key y <= key x.
Proof.
  intros Hij Hx Hy.
  assert (H : (key x <? key y) = false).
  { refine (sort_by_ordered (fun a b => key a <? key b) _ _ l i j x y Hij Hx Hy).
    - intros a b c Hab Hbc. apply Z.ltb_ge in Hab, Hbc. apply Z.ltb_ge. lia.
    - intros a b Hab. apply Z.ltb_lt in Hab. apply Z.ltb_ge. lia. }
  apply Z.ltb_ge in H. exact H.
Qed.

(** ** Grouping *)

Section Grouping.

Context {K A : Type} `{EqDecision K} (key : A -> K).

Lemma group_by_snoc (l : list A) (d : A) :
  group_by key (l ++ [d]) = add_to_group (key d) d (group_by key l).
Proof. unfold group_by. rewrite fold_left_app. reflexivity. Qed.

Lemma docs_with_snoc (k : K) (l : list A) (d : A) :
  docs_with key k (l ++ [d])
  = docs_with key k l ++ (if decide (key d = k) then [d] else []).
Proof.
  unfold docs_with. rewrite List.filter_app. cbn [List.filter].
  destruct (decide (key d = k)) as [Hk|Hk].
  - rewrite bool_decide_true by exact Hk. reflexivity.
  - rewrite bool_decide_false by exact Hk. reflexivity.
Qed.

Lemma add_to_group_keys_old (k : K) (d : A) (groups : list (K * list A)) :
  In k (map fst groups) ->
  map fst (add_to_group k d groups) = map fst groups.
Proof.
  induction groups as [|[k' ds] r IH]; cbn [add_to_group map fst].
  - intros [].
  - intros Hin. destruct (decide (k = k')) as [->|Hne]; cbn [map fst].
    + reflexivity.
    + rewrite IH; [reflexivity|]. destruct Hin as [Heq|Hin]; [congruence | exact Hin].
Qed.

Lemma add_to_group_keys_new (k : K) (d : A) (groups : list (K * list A)) :
  ~ In k (map fst groups) ->
  map fst (add_to_group k d groups) = map fst groups ++ [k].
Proof.
  induction groups as [|[k' ds] r IH]; cbn [add_to_group map fst].
  - reflexivity.
  - intros Hin. destruct (decide (k = k')) as [->|Hne]; cbn [map fst].
    + exfalso. apply Hin. left. reflexivity.
    + rewrite IH; [reflexivity|]. intros H. apply Hin. right. exact H.
Qed.

Lemma In_key_dec (k : K) (keys : list K) : {In k keys} + {~ In k keys}.
Proof. apply List.in_dec. intros x y. exact (decide (x = y)). Qed.

Lemma add_to_group_In (k : K) (d : A) (groups : list (K * list A))
  (k' : K) (ds : list A) :
  List.NoDup (map fst groups) ->
  In (k', ds) (add_to_group k d groups) <->
  (k' <> k /\ In (k', ds) groups)
  \/ (k' = k /\ exists ds0, ds = ds0 ++ [d] /\
                  (In (k, ds0) groups \/ (ds0 = [] /\ ~ In k (map fst groups)))).
Proof.
  induction groups as [|[k0 ds0] r IH]; intros Hnd; cbn [add_to_group].
  - split.
    + intros [Heq|[]]. injection Heq as <- <-. right. split; [reflexivity|].
      exists []. split; [reflexivity|]. right. split; [reflexivity | intros []].
    + intros [[_ []]|(-> & ds1 & -> & [[]|[-> _]])]. left. reflexivity.
  - apply List.NoDup_cons_iff in Hnd as [Hk0 Hnd]. cbn [map fst] in *.
    destruct (decide (k = k0)) as [->|Hne].
    + split.
      * intros [Heq|Hin].
        -- injection Heq as <- <-. right. split; [reflexivity|].
           exists ds0. split; [reflexivity|]. left. left. reflexivity.
        -- left. split; [|right; exact Hin].
           intros ->. apply Hk0. apply (in_map fst) in Hin. exact Hin.
      * intros [[Hne [Heq|Hin]]|(-> & ds1 & -> & [[Heq|Hin]|[_ Hnot]])].
        -- injection Heq as <- <-. contradiction.
        -- right. exact Hin.
        -- injection Heq as <-. left. reflexivity.
        -- exfalso. apply Hk0. apply (in_map fst) in Hin. exact Hin.
        -- exfalso. apply Hnot. left. reflexivity.
    + split.
      * intros [Heq|Hin].
        -- injection Heq as <- <-. left. split; [congruence | left; reflexivity].
        -- apply (IH Hnd) in Hin as [[Hne' Hin]|(-> & ds1 & -> & [Hin|[-> Hnot]])].
           ++ left. split; [exact Hne' | right; exact Hin].
           ++ right. split; [reflexivity|]. exists ds1. split; [reflexivity|].
              left. right. exact Hin.
           ++ right. split; [reflexivity|]. exists []. split; [reflexivity|].
              right. split; [reflexivity|]. intros [Heq|Hin]; [congruence | contradiction].
      * intros [[Hne' [Heq|Hin]]|(-> & ds1 & -> & [[Heq|Hin]|[-> Hnot]])].
        -- left. exact Heq.
        -- right. apply (IH Hnd). left. split; assumption.
        -- injection Heq as Heq _. congruence.
        -- right. apply (IH Hnd). right. split; [reflexivity|].
           exists ds1. split; [reflexivity|]. left. exact Hin.
        -- right. apply (IH Hnd). right. split; [reflexivity|].
           exists []. split; [reflexivity|]. right. split; [reflexivity|].
           intros Hin. apply Hnot. right. exact Hin.
Qed.

Lemma group_by_keys_NoDup (l : list A) : List.NoDup (map fst (group_by key l)).
Proof.
  induction l as [|d l IH] using rev_ind.
  - constructor.
  - rewrite group_by_snoc.
    destruct (In_key_dec (key d) (map fst (group_by key l))) as [Hin|Hin].
    + rewrite add_to_group_keys_old by exact Hin. exact IH.
    + rewrite add_to_group_keys_new by exact Hin.
      apply List.NoDup_app; repeat split.
      * exact IH.
      * constructor; [intros [] | constructor].
      * intros k Hk [<-|[]]. contradiction.
Qed.

(** The groups are the non-empty classes of the key, each in order. *)
Lemma group_by_In (l : list A) (k : K) (ds : list A) :
  In (k, ds) (group_by key l) <-> ds = docs_with key k l /\ ds <> [].
Proof.
  revert k ds. induction l as [|d l IH] using rev_ind; intros k ds.
  - cbn. split; [intros [] | intros [-> H]; congruence].
  - rewrite group_by_snoc, add_to_group_In by apply group_by_keys_NoDup.
    rewrite docs_with_snoc. split.
    + intros [[Hne Hin]|(-> & ds0 & -> & [Hin|[-> Hnot]])].
      * apply IH in Hin as [-> Hnil].
        destruct (decide (key d = k)) as [Heq|_]; [congruence|].
        rewrite app_nil_r. split; [reflexivity | exact Hnil].
      * apply IH in Hin as [-> _].
        destruct (decide (key d = key d)) as [_|Hne]; [|congruence].
        split; [reflexivity | intros H; apply app_eq_nil in H as [_ H]; discriminate].
      * destruct (decide (key d = key d)) as [_|Hne]; [|congruence].
        split; [|discriminate]. cbn [app]. 
        destruct (docs_with key (key d) l) as [|d0 r] eqn:Hd; [reflexivity|].
        exfalso. apply Hnot. apply in_map_iff. exists (key d, d0 :: r).
        split; [reflexivity|]. apply IH. split; [congruence | discriminate].
    + intros [-> Hnil]. destruct (decide (key d = k)) as [<-|Hne].
      * right. split; [reflexivity|]. exists (docs_with key (key d) l).
        split; [reflexivity|].
        destruct (docs_with key (key d) l) as [|d0 r] eqn:Hd.
        -- right. split; [reflexivity|]. intros Hin.
           apply in_map_iff in Hin as ([k0 ds0] & Hk0 & Hin). cbn in Hk0. subst k0.
           apply IH in Hin as [-> H0]. congruence.
        -- left. apply IH. split; [congruence | discriminate].
      * rewrite app_nil_r in *. left. split; [congruence|]. apply IH.
        split; [reflexivity | exact Hnil].
Qed.

End Grouping.

(** ** Limits *)

Lemma limit_In {A} (n : Z) (l : list A) (x : A) : In x (limit n l) -> In x l.
Proof.
  unfold limit. intros H. rewrite <- (firstn_skipn (Z.to_nat n) l).
  apply in_or_app. left. exact H.
Qed.

Lemma limit_NoDup {A B} (f : A -> B) (n : Z) (l : list A) :
  List.NoDup (map f l) -> List.NoDup (map f (limit n l)).
Proof.
  unfold limit. intros H. rewrite <- (firstn_skipn (Z.to_nat n) l), map_app in H.
  apply List.NoDup_app_remove_r in H. exact H.
Qed.

Lemma limit_nth_error {A} (n : Z) (l : list A) (i : nat) (x : A) :
  nth_error (limit n l) i = Some x -> nth_error l i = Some x.
Proof.
  unfold limit. rewrite nth_error_firstn.
  destruct (i <? Z.to_nat n)%nat; [tauto | discriminate].
Qed.

Lemma limit_length {A} (n : Z) (l : list A) :
  (length (limit n l) <= Z.to_nat n)%nat.
Proof. apply firstn_le_length. Qed.

Lemma limit_length_Z {A} (n : Z) (l : list A) :
  0 <= n -> Z.of_nat (length (limit n l)) <= n.
Proof. intros Hn. pose proof (limit_length n l). lia. Qed.

Lemma limit_all {A} (n : Z) (l : list A) :
  Z.of_nat (length l) <= n -> limit n l = l.
Proof. intros H. apply firstn_all2. lia. Qed.

Lemma limit_limit {A} (n : Z) (l : list A) : limit n (limit n l) = limit n l.
Proof. unfold limit. rewrite firstn_firstn, Nat.min_id. reflexivity. Qed.

(** ** The capped table of message counts *)

Section TopUsers.

Variable matching : doc -> bool.
Variable c : collection.

Lemma top_users_In (u : user_count) :
  In u (top_users matching c) ->
  uc_count u = messages_of matching c (uc_id u) /\ 0 < uc_count u.
Proof.
  unfold top_users. intros H. do 2 apply limit_In in H.
  apply sort_by_In in H. apply in_map_iff in H as ([k ds] & <- & Hin).
  apply group_by_In in Hin as [-> Hne]. cbn [uc_id uc_count fst snd].
  split; [reflexivity|]. unfold count_of.
  destruct (docs_with username k (List.filter matching c)); [congruence|].
  cbn [length]. lia.
Qed.

Lemma top_users_NoDup : List.NoDup (map uc_id (top_users matching c)).
Proof.
  unfold top_users. do 2 apply limit_NoDup.
  eapply Permutation_NoDup.
  - apply Permutation_map. symmetry. apply sort_by_perm.
  - rewrite map_map. cbn [uc_id]. apply group_by_keys_NoDup.
Qed.

Lemma top_users_length : (length (top_users matching c) <= 1000)%nat.
Proof. unfold top_users. apply (limit_length MAX_USERS_QUERY). Qed.

Lemma top_users_sorted (i j : nat) (u v : user_count) :
  (i < j)%nat ->
  nth_error (top_users matching c) i = Some u ->
  nth_error (top_users matching c) j = Some v ->
  uc_count v <= uc_count u.
Proof.
  unfold top_users. intros Hij Hu Hv.
  do 2 apply limit_nth_error in Hu. do 2 apply limit_nth_error in Hv.
  exact (sort_desc_ordered uc_count _ i j u v Hij Hu Hv).
Qed.

End TopUsers.

(** ** Dicts *)

Section Dicts.

Context {K V : Type} `{Countable K}.

Lemma dict_of_snoc (items : list (K * V)) (k : K) (v : V) :
  dict_of (items ++ [(k, v)]) = <[k := v]> (dict_of items).
Proof. unfold dict_of. rewrite fold_left_app. reflexivity. Qed.

Lemma dict_of_lookup_None (items : list (K * V)) (k : K) :
  ~ In k (map fst items) -> dict_of items !! k = None.
Proof.
  induction items as [|[k' v'] items IH] using rev_ind; intros Hno.
  - apply lookup_empty.
  - rewrite dict_of_snoc. rewrite map_app, in_app_iff in Hno. cbn in Hno.
    rewrite lookup_insert_ne by (intros ->; tauto). apply IH. tauto.
Qed.

Lemma dict_of_lookup_In (items : list (K * V)) (k : K) (v : V) :
  List.NoDup (map fst items) -> In (k, v) items -> dict_of items !! k = Some v.
Proof.
  induction items as [|[k' v'] items IH] using rev_ind; intros Hnd Hin.
  - destruct Hin.
  - rewrite dict_of_snoc. rewrite map_app in Hnd. cbn in Hnd.
    apply in_app_iff in Hin as [Hin|[Heq|[]]].
    + assert (Hne : k' <> k).
      { intros ->. apply List.NoDup_remove_2 in Hnd. rewrite app_nil_r in Hnd.
        apply Hnd. apply (in_map fst) in Hin. exact Hin. }
      rewrite lookup_insert_ne by exact Hne. apply IH; [|exact Hin].
      apply List.NoDup_app_remove_r in Hnd. exact Hnd.
    + injection Heq as -> ->. apply lookup_insert_eq.
Qed.

Lemma dict_of_perm (items items' : list (K * V)) (k : K) :
  List.NoDup (map fst items) -> Permutation items items' ->
  dict_of items' !! k = dict_of items !! k.
Proof.
  intros Hnd Hp.
  assert (Hnd' : List.NoDup (map fst items'))
    by (eapply Permutation_NoDup; [apply Permutation_map, Hp | exact Hnd]).
  destruct (dict_of items !! k) as [v|] eqn:Hl.
  - apply dict_of_lookup_In; [exact Hnd'|]. apply (Permutation_in _ Hp).
    destruct (In_key_dec k (map fst items)) as [Hin|Hno].
    + apply in_map_iff in Hin as ([k0 v0] & Hk & Hin). cbn in Hk. subst k0.
      rewrite (dict_of_lookup_In items k v0 Hnd Hin) in Hl. congruence.
    + rewrite dict_of_lookup_None in Hl by exact Hno. discriminate.
  - apply dict_of_lookup_None. intros Hin.
    apply in_map_iff in Hin as ([k0 v0] & Hk & Hin). cbn in Hk. subst k0.
    apply (Permutation_in _ (Permutation_sym Hp)) in Hin.
    rewrite (dict_of_lookup_In items k v0 Hnd Hin) in Hl. discriminate.
Qed.

End Dicts.

Lemma odict_set_new {V} (d : list (string * V)) (k : string) (v : V) :
  ~ In k (map fst d) -> odict_set d k v = d ++ [(k, v)].
Proof.
  induction d as [|[k' v'] d IH]; intros Hno; cbn [odict_set app].
  - reflexivity.
  - cbn [map fst] in Hno. destruct (String.eqb_spec k k') as [->|Hne].
    + exfalso. apply Hno. left. reflexivity.
    + rewrite IH; [reflexivity|]. intros Hin. apply Hno. right. exact Hin.
Qed.

(** ** Histograms *)

Lemma brt_hour_range (now : datetime) : 0 <= brt_hour now < 24.
Proof. unfold brt_hour. apply Z.mod_pos_bound. lia. Qed.

Lemma event_message_valid_hours (echo insert_ok : bool)
  (author_id author_name dn text chan : string) (now : datetime) (c : collection) :
  valid_hours c ->
  valid_hours (event_message echo insert_ok author_id author_name dn text chan now c).
Proof.
  intros Hc. unfold event_message. destruct echo; [exact Hc|].
  destruct insert_ok; [|exact Hc].
  apply List.Forall_app. split; [exact Hc|].
  constructor; [|constructor]. cbn [hour]. apply brt_hour_range.
Qed.

Lemma hourly_rows_get (docs : list doc) (h : Z) :
  dict_get (dict_of (hourly_rows docs)) h 0 = count_at_hour h docs.
Proof.
  unfold dict_get, hourly_rows, count_at_hour.
  set (items := map (fun g : Z * list doc => (fst g, count_of (snd g)))
                    (group_by hour docs)).
  assert (Hkeys : map fst items = map fst (group_by hour docs))
    by (unfold items; rewrite map_map; reflexivity).
  assert (Hnd : List.NoDup (map fst items))
    by (rewrite Hkeys; apply group_by_keys_NoDup).
  rewrite (dict_of_perm items) by (try exact Hnd; symmetry; apply sort_by_perm).
  destruct (docs_with hour h docs) as [|d r] eqn:Hd.
  - rewrite dict_of_lookup_None; [reflexivity|].
    rewrite Hkeys. intros Hin. apply in_map_iff in Hin as ([k ds] & Hk & Hin).
    cbn in Hk. subst k. apply group_by_In in Hin as [-> Hne]. congruence.
  - rewrite (dict_of_lookup_In items h (count_of (d :: r)) Hnd); [reflexivity|].
    unfold items. apply in_map_iff. exists (h, d :: r). split; [reflexivity|].
    apply group_by_In. split; [congruence | discriminate].
Qed.

Lemma histogram_hours (rows : list (Z * Z)) :
  map h_hour (histogram rows) = range 24.
Proof. unfold histogram. rewrite map_map. cbn [h_hour]. apply map_id. Qed.

Lemma histogram_length (rows : list (Z * Z)) : length (histogram rows) = 24%nat.
Proof. unfold histogram. rewrite length_map. reflexivity. Qed.

Lemma histogram_counts (docs : list doc) :
  map h_count (histogram (hourly_rows docs))
  = map (fun h => count_at_hour h docs) (range 24).
Proof.
  unfold histogram. rewrite map_map. cbn [h_count].
  apply map_ext. intros h. apply hourly_rows_get.
Qed.

Lemma sum_Z_map_add {A} (f g : A -> Z) (l : list A) :
  sum_Z (map (fun x => f x + g x) l) = sum_Z (map f l) + sum_Z (map g l).
Proof.
  induction l as [|x l IH]; cbn [map].
  - reflexivity.
  - rewrite !sum_Z_cons, IH. lia.
Qed.

Lemma sum_indicator_24 (x : Z) :
  0 <= x < 24 ->
  sum_Z (map (fun h => if bool_decide (x = h) then 1 else 0) (range 24)) = 1.
Proof.
  intros Hx.
  assert (Hcases : x = 0 \/ x = 1 \/ x = 2 \/ x = 3 \/ x = 4 \/ x = 5 \/
            x = 6 \/ x = 7 \/ x = 8 \/ x = 9 \/ x = 10 \/ x = 11 \/
            x = 12 \/ x = 13 \/ x = 14 \/ x = 15 \/ x = 16 \/ x = 17 \/
            x = 18 \/ x = 19 \/ x = 20 \/ x = 21 \/ x = 22 \/ x = 23) by lia.
  repeat (destruct Hcases as [-> | Hcases]; [vm_compute; reflexivity|]).
  subst x. vm_compute. reflexivity.
Qed.

Lemma count_at_hour_cons (h : Z) (d : doc) (docs : list doc) :
  count_at_hour h (d :: docs)
  = (if bool_decide (hour d = h) then 1 else 0) + count_at_hour h docs.
Proof.
  unfold count_at_hour, docs_with, count_of. cbn [List.filter].
  destruct (bool_decide (hour d = h)); cbn [length]; lia.
Qed.

(** The bins of the hours of the day add up to the number of documents. *)
Lemma sum_count_at_hour (docs : list doc) :
  valid_hours docs ->
  sum_Z (map (fun h => count_at_hour h docs) (range 24)) = count_of docs.
Proof.
  induction 1 as [|d docs Hd _ IH].
  - vm_compute. reflexivity.
  - rewrite (map_ext _ _ (fun h => count_at_hour_cons h d docs)).
    rewrite sum_Z_map_add, IH, sum_indicator_24 by exact Hd.
    unfold count_of. cbn [length]. lia.
Qed.

Lemma valid_hours_filter (p : doc -> bool) (c : collection) :
  valid_hours c -> valid_hours (List.filter p c).
Proof.
  unfold valid_hours. rewrite !List.Forall_forall. intros H d Hd.
  apply List.filter_In in Hd as [Hd _]. apply H, Hd.
Qed.

Lemma hourly_rows_length (docs : list doc) :
  valid_hours docs -> (length (hourly_rows docs) <= 24)%nat.
Proof.
  intros Hv. unfold hourly_rows, sort_asc. rewrite sort_by_length, length_map.
  rewrite <- (length_map fst).
  change 24%nat with (length (range 24)).
  apply List.NoDup_incl_length; [apply group_by_keys_NoDup|].
  intros k Hk. apply in_map_iff in Hk as ([k0 ds] & Hk0 & Hin). cbn in Hk0. subst k0.
  apply group_by_In in Hin as [-> Hne].
  destruct (docs_with hour k docs) as [|d r] eqn:Hd; [congruence|].
  assert (Hin : In d (docs_with hour k docs)) by (rewrite Hd; left; reflexivity).
  unfold docs_with in Hin. apply List.filter_In in Hin as [Hin Hk].
  apply bool_decide_eq_true in Hk. subst k.
  unfold valid_hours in Hv. rewrite List.Forall_forall in Hv. specialize (Hv d Hin).
  unfold range. apply in_map_iff. exists (Z.to_nat (hour d)). split; [lia|].
  apply in_seq. lia.
Qed.

Lemma NoDup_nth_error_neq {A B} (f : A -> B) (l : list A) (i j : nat) (x y : A) :
  List.NoDup (map f l) -> i <> j ->
  nth_error l i = Some x -> nth_error l j = Some y -> f x <> f y.
Proof.
  intros Hnd Hij Hx Hy Heq.
  apply Hij. apply (proj1 (List.NoDup_nth_error (map f l)) Hnd).
  - rewrite length_map. apply nth_error_Some. congruence.
  - rewrite !nth_error_map, Hx, Hy. cbn. congruence.
Qed.


Section GroupSizes.

Context {K A : Type} `{EqDecision K} (key : A -> K).

Lemma add_to_group_sizes (k : K) (d : A) (groups : list (K * list A)) :
  sum_Z (map (fun g => count_of (snd g)) (add_to_group k d groups))
  = sum_Z (map (fun g => count_of (snd g)) groups) + 1.
Proof.
  induction groups as [|[k' ds] r IH]; cbn [add_to_group map snd].
  - rewrite sum_Z_cons, !sum_Z_nil. reflexivity.
  - destruct (decide (k = k')); cbn [map snd]; rewrite !sum_Z_cons.
    + unfold count_of. rewrite length_app. cbn [length]. lia.
    + rewrite IH. lia.
Qed.

(** The sizes of the groups add up to the size of the list. *)
Lemma group_by_sizes (l : list A) :
  sum_Z (map (fun g => count_of (snd g)) (group_by key l)) = count_of l.
Proof.
  induction l as [|d l IH] using rev_ind.
  - reflexivity.
  - rewrite group_by_snoc, add_to_group_sizes, IH.
    unfold count_of. rewrite length_app. cbn [length]. lia.
Qed.

(** The keys of the groups are the keys of the elements. *)
Lemma group_by_key_In (l : list A) (k : K) :
  In k (map fst (group_by key l)) <-> exists d, In d l /\ key d = k.
Proof.
  split.
  - intros Hin. apply in_map_iff in Hin as ([k0 ds] & Hk & Hin). cbn in Hk. subst k0.
    apply group_by_In in Hin as [-> Hne].
    destruct (docs_with key k l) as [|d r] eqn:Hd; [congruence|].
    exists d. assert (Hin : In d (docs_with key k l)) by (rewrite Hd; left; reflexivity).
    unfold docs_with in Hin. apply List.filter_In in Hin as [Hin Hk].
    apply bool_decide_eq_true in Hk. split; assumption.
  - intros (d & Hd & <-). apply in_map_iff. exists (key d, docs_with key (key d) l).
    split; [reflexivity|]. apply group_by_In. split; [reflexivity|].
    intros Hnil. assert (Hin : In d (docs_with key (key d) l)).
    { unfold docs_with. apply List.filter_In. split; [exact Hd|].
      apply bool_decide_eq_true. reflexivity. }
    rewrite Hnil in Hin. destruct Hin.
Qed.

End GroupSizes.

(** ** Authors *)

Lemma authors_In (docs : list doc) (a : string) :
  In a (authors docs) <-> exists d, In d docs /\ username d = a.
Proof.
  unfold authors. rewrite List.nodup_In, in_map_iff. split.
  - intros (d & Hd & Hin). exists d. tauto.
  - intros (d & Hin & Hd). exists d. tauto.
Qed.

Lemma authors_NoDup (docs : list doc) : List.NoDup (authors docs).
Proof. apply List.NoDup_nodup. Qed.

Lemma authors_group_keys (docs : list doc) :
  Permutation (map fst (group_by username docs)) (authors docs).
Proof.
  apply Permutation.NoDup_Permutation.
  - apply group_by_keys_NoDup.
  - apply authors_NoDup.
  - intros a. rewrite group_by_key_In, authors_In. reflexivity.
Qed.

Lemma filter_map_In {A B} (f : A -> B) (p : A -> bool) (q : B -> bool) (l : list A) :
  (forall x, In x l -> p x = q (f x)) ->
  map f (List.filter p l) = List.filter q (map f l).
Proof.
  induction l as [|x l IH]; intros H; [reflexivity|]. cbn [List.filter map].
  rewrite <- (H x) by (left; reflexivity).
  rewrite <- IH by (intros y Hy; apply H; right; exact Hy).
  destruct (p x); reflexivity.
Qed.

Lemma filter_perm_length {A} (p : A -> bool) (l l' : list A) :
  Permutation l l' -> length (List.filter p l) = length (List.filter p l').
Proof.
  induction 1 as [|x l l' _ IH|x y l|l l' l'' _ IH1 _ IH2]; cbn [List.filter].
  - reflexivity.
  - destruct (p x); cbn [length]; congruence.
  - destruct (p x), (p y); reflexivity.
  - congruence.
Qed.

Section TopUsersAll.

Variable matching : doc -> bool.
Variable c : collection.

Let docs := List.filter matching c.
Let rows := map (fun g : string * list doc =>
                   {| uc_id := fst g; uc_count := count_of (snd g) |})
                (group_by username docs).

Lemma top_users_prefix :
  top_users matching c = firstn 1000 (sort_desc uc_count rows).
Proof.
  unfold top_users, limit, MAX_USERS_QUERY. fold docs. fold rows.
  change (Z.to_nat 1000) with 1000%nat. rewrite firstn_firstn. reflexivity.
Qed.

Lemma top_users_rows_names : Permutation (map uc_id rows) (authors docs).
Proof.
  unfold rows. rewrite map_map. cbn [uc_id]. apply authors_group_keys.
Qed.

(** An author left out by the cap has no more messages than any row
    that was kept. *)
Lemma top_users_top_set (a : string) (u : user_count) :
  In a (authors docs) -> ~ In a (map uc_id (top_users matching c)) ->
  In u (top_users matching c) ->
  messages_of matching c a <= uc_count u.
Proof.
  intros Ha Hout Hu. rewrite top_users_prefix in Hout, Hu.
  set (sorted := sort_desc uc_count rows) in *.
  assert (Hperm : Permutation sorted rows) by apply sort_by_perm.
  assert (Hrow : exists r, In r sorted /\ uc_id r = a).
  { apply (Permutation_in _ (Permutation_sym top_users_rows_names)) in Ha.
    apply in_map_iff in Ha as (r & Hr & Hin). exists r. split; [|exact Hr].
    apply (Permutation_in _ (Permutation_sym Hperm)), Hin. }
  destruct Hrow as (r & Hr & Hid).
  assert (Hcount : uc_count r = messages_of matching c a).
  { apply (Permutation_in _ Hperm) in Hr. unfold rows in Hr.
    apply in_map_iff in Hr as ([k ds] & <- & Hin). cbn in Hid. subst k.
    apply group_by_In in Hin as [-> _]. reflexivity. }
  rewrite <- Hcount. apply In_nth_error in Hr as [j Hj]. apply In_nth_error in Hu as [i Hi].
  assert (Hi' : nth_error sorted i = Some u).
  { rewrite <- (firstn_skipn 1000 sorted). rewrite nth_error_app1; [exact Hi|].
    apply nth_error_Some. congruence. }
  assert (Hlt : (i < 1000)%nat).
  { assert (H : (i < length (firstn 1000 sorted))%nat) by (apply nth_error_Some; congruence).
    rewrite length_firstn in H. lia. }
  assert (Hge : (1000 <= j)%nat).
  { destruct (le_lt_dec 1000 j) as [H|H]; [exact H|]. exfalso. apply Hout.
    apply in_map_iff. exists r. split; [exact Hid|].
    apply (nth_error_In _ j). rewrite nth_error_firstn.
    destruct (Nat.ltb_spec j 1000); [exact Hj | lia]. }
  apply (sort_desc_ordered uc_count rows i j u r); [lia | exact Hi' | exact Hj].
Qed.

Hypothesis few : count_of (authors docs) <= 1000.

Lemma top_users_all : Permutation (top_users matching c) rows.
Proof.
  rewrite top_users_prefix. rewrite firstn_all2; [apply sort_by_perm|].
  unfold sort_desc. rewrite sort_by_length, <- (length_map uc_id).
  rewrite (Permutation_length top_users_rows_names). unfold count_of in few. lia.
Qed.

Lemma top_users_names_all : Permutation (map uc_id (top_users matching c)) (authors docs).
Proof.
  etransitivity; [apply Permutation_map, top_users_all | apply top_users_rows_names].
Qed.

Lemma top_users_below (n : Z) :
  count_of (List.filter (fun u => uc_count u <? n) (top_users matching c))
  = authors_below matching c n.
Proof.
  unfold authors_below, count_of. fold docs. f_equal.
  rewrite <- (length_map uc_id).
  rewrite (filter_map_In uc_id _ (fun a => messages_of matching c a <? n)).
  - apply filter_perm_length, top_users_names_all.
  - intros u Hu. destruct (top_users_In matching c u Hu) as [-> _]. reflexivity.
Qed.

End TopUsersAll.

(** * Binary64 arithmetic *)

(** ** Powers of two *)

Lemma pow2_pos (e : Z) : (0 < pow2 e)%Q.
Proof. apply Qpower_0_lt. reflexivity. Qed.

Lemma pow2_add (a b : Z) : (pow2 (a + b) == pow2 a * pow2 b)%Q.
Proof. apply Qpower_plus. discriminate. Qed.

Lemma pow2_succ (a : Z) : (pow2 (a + 1) == 2 * pow2 a)%Q.
Proof. rewrite pow2_add. unfold pow2 at 2. rewrite Qpower_1_r. ring. Qed.

Lemma pow2_le (a b : Z) : a <= b -> (pow2 a <= pow2 b)%Q.
Proof. intros H. apply Qpower_le_compat_l; [exact H | discriminate]. Qed.

Lemma pow2_Z (n : Z) : 0 <= n -> (inject_Z (2 ^ n) == pow2 n)%Q.
Proof. intros H. apply Zpower_Qpower, H. Qed.

(** ** The binary exponent of a positive rational *)

Lemma floor_log2_spec (q : Q) :
  (0 < q)%Q -> (pow2 (floor_log2 q) <= q /\ q < pow2 (floor_log2 q + 1))%Q.
Proof.
  intros Hq. destruct q as [n d].
  assert (Hn : 0 < n) by (unfold Qlt in Hq; cbn in Hq; lia).
  unfold floor_log2. cbn [Qnum Qden].
  set (a := Z.log2 n). set (b := Z.log2 (Z.pos d)).
  assert (Ha : 0 <= a) by apply Z.log2_nonneg.
  assert (Hb : 0 <= b) by apply Z.log2_nonneg.
  destruct (Z.log2_spec n Hn) as [Ha1 Ha2]. fold a in Ha1, Ha2.
  destruct (Z.log2_spec (Z.pos d) (Pos2Z.is_pos d)) as [Hb1 Hb2]. fold b in Hb1, Hb2.
  assert (Hqn : ((n # d) * inject_Z (Z.pos d) == inject_Z n)%Q).
  { unfold Qeq, Qmult, inject_Z. cbn. lia. }
  assert (Hd : (0 < inject_Z (Z.pos d))%Q) by (unfold Qlt, inject_Z; cbn; lia).
  assert (HA1 : (pow2 a <= inject_Z n)%Q).
  { rewrite <- pow2_Z by lia. rewrite <- Zle_Qle. exact Ha1. }
  assert (HA2 : (inject_Z n < pow2 (a + 1))%Q).
  { rewrite <- pow2_Z by lia. rewrite <- Zlt_Qlt. exact Ha2. }
  assert (HB1 : (pow2 b <= inject_Z (Z.pos d))%Q).
  { rewrite <- pow2_Z by lia. rewrite <- Zle_Qle. exact Hb1. }
  assert (HB2 : (inject_Z (Z.pos d) < pow2 (b + 1))%Q).
  { rewrite <- pow2_Z by lia. rewrite <- Zlt_Qlt. exact Hb2. }
  pose proof (pow2_pos (a - b)) as Hk. pose proof (pow2_pos b) as Hpb.
  assert (Hab : (pow2 a == pow2 (a - b) * pow2 b)%Q).
  { rewrite <- pow2_add. replace (a - b + b) with a by lia. reflexivity. }
  rewrite pow2_succ in HA2, HB2.
  set (q := (n # d)%Q) in *. set (D := inject_Z (Z.pos d)) in *.
  set (N := inject_Z n) in *. set (K := pow2 (a - b)) in *.
  set (A := pow2 a) in *. set (B := pow2 b) in *.
  assert (Hlow : (K < 2 * q)%Q) by nra.
  assert (Hhigh : (q < 2 * K)%Q) by nra.
  destruct (Qle_bool K q) eqn:Hle.
  - apply Qle_bool_iff in Hle. split; [exact Hle|]. rewrite pow2_succ. exact Hhigh.
  - assert (Hlt : (q < K)%Q).
    { apply Qnot_le_lt. intros H. apply Qle_bool_iff in H. congruence. }
    replace (a - b - 1 + 1) with (a - b) by lia. split; [|exact Hlt].
    assert (Hs : (pow2 (a - b) == 2 * pow2 (a - b - 1))%Q).
    { rewrite <- pow2_succ. replace (a - b - 1 + 1) with (a - b) by lia. reflexivity. }
    fold K in Hs. lra.
Qed.

(** ** Rounding to the nearest integer, ties to even *)

Lemma round_half_even_comp (x y : Q) :
  (x == y)%Q -> round_half_even x = round_half_even y.
Proof.
  intros H. unfold round_half_even.
  rewrite (Qfloor_comp x y H).
  assert (Hc : ((x - inject_Z (Qfloor y)) ?= (1 # 2))%Q
               = ((y - inject_Z (Qfloor y)) ?= (1 # 2))%Q).
  { apply Qcompare_comp; [rewrite H; reflexivity | reflexivity]. }
  rewrite Hc. reflexivity.
Qed.

Lemma round_half_even_near (y : Q) :
  (inject_Z (round_half_even y) - (1 # 2) <= y
   /\ y <= inject_Z (round_half_even y) + (1 # 2))%Q.
Proof.
  unfold round_half_even.
  pose proof (Qfloor_le y) as Hlo. pose proof (Qlt_floor y) as Hhi.
  rewrite inject_Z_plus in Hhi. change (inject_Z 1) with 1%Q in Hhi.
  destruct (Qcompare_spec (y - inject_Z (Qfloor y)) (1 # 2)) as [He|Hl|Hg].
  - destruct (Z.even (Qfloor y));
      [|rewrite inject_Z_plus; change (inject_Z 1) with 1%Q]; lra.
  - lra.
  - rewrite inject_Z_plus. change (inject_Z 1) with 1%Q. lra.
Qed.

Lemma round_half_even_unique (y : Q) (n : Z) :
  (inject_Z n - (1 # 2) < y /\ y < inject_Z n + (1 # 2))%Q ->
  round_half_even y = n.
Proof.
  intros [Hlo Hhi]. destruct (round_half_even_near y) as [Hr1 Hr2].
  set (r := round_half_even y) in *.
  assert (H1 : (inject_Z r < inject_Z n + 1)%Q) by lra.
  assert (H2 : (inject_Z n < inject_Z r + 1)%Q) by lra.
  change 1%Q with (inject_Z 1) in H1, H2.
  rewrite <- inject_Z_plus, <- Zlt_Qlt in H1, H2. lia.
Qed.

Lemma round_half_even_Z (n : Z) : round_half_even (inject_Z n) = n.
Proof. apply round_half_even_unique. lra. Qed.

Lemma round_half_even_mono (x y : Q) :
  (x <= y)%Q -> round_half_even x <= round_half_even y.
Proof.
  intros Hxy. destruct (Qeq_dec x y) as [He|Hne].
  - rewrite (round_half_even_comp x y He). lia.
  - assert (Hlt : (x < y)%Q).
    { destruct (Qlt_le_dec x y) as [H|H]; [exact H|]. exfalso. apply Hne. apply Qle_antisym; assumption. }
    destruct (round_half_even_near x) as [Hx _]. destruct (round_half_even_near y) as [_ Hy].
    assert (H : (inject_Z (round_half_even x) < inject_Z (round_half_even y) + 1)%Q) by lra.
    change 1%Q with (inject_Z 1) in H.
    rewrite <- inject_Z_plus, <- Zlt_Qlt in H. lia.
Qed.

Lemma Qfloor_unique (y : Q) (n : Z) :
  (inject_Z n <= y /\ y < inject_Z n + 1)%Q -> Qfloor y = n.
Proof.
  intros [Hlo Hhi]. pose proof (Qfloor_le y) as Hf1. pose proof (Qlt_floor y) as Hf2.
  rewrite inject_Z_plus in Hf2. change (inject_Z 1) with 1%Q in Hf2.
  assert (H1 : (inject_Z (Qfloor y) < inject_Z n + 1)%Q) by lra.
  assert (H2 : (inject_Z n < inject_Z (Qfloor y) + 1)%Q) by lra.
  change 1%Q with (inject_Z 1) in H1, H2.
  rewrite <- inject_Z_plus, <- Zlt_Qlt in H1, H2. lia.
Qed.

(** A tie is rounded to an even integer. *)
Lemma round_half_even_tie (y : Q) :
  (y == inject_Z (round_half_even y) + (1 # 2)
   \/ y == inject_Z (round_half_even y) - (1 # 2))%Q ->
  Z.even (round_half_even y) = true.
Proof.
  intros Htie. remember (round_half_even y) as r eqn:Hr.
  unfold round_half_even in Hr.
  destruct Htie as [Hup|Hdown].
  - assert (Hf : Qfloor y = r) by (apply Qfloor_unique; lra).
    rewrite Hf in Hr.
    destruct (Qcompare_spec (y - inject_Z r) (1 # 2)) as [He|Hl|Hg]; [| lra | lra].
    destruct (Z.even r) eqn:Hev; [reflexivity | lia].
  - assert (Hi : (inject_Z (r - 1) == inject_Z r - 1)%Q).
    { unfold Z.sub. rewrite inject_Z_plus, inject_Z_opp. reflexivity. }
    assert (Hf : Qfloor y = r - 1) by (apply Qfloor_unique; lra).
    rewrite Hf in Hr.
    destruct (Qcompare_spec (y - inject_Z (r - 1)) (1 # 2)) as [He|Hl|Hg]; [| lra | lra].
    destruct (Z.even (r - 1)) eqn:Hev; [lia|].
    replace r with (Z.succ (r - 1)) by lia. rewrite Z.even_succ.
    rewrite <- Z.negb_even, Hev. reflexivity.
Qed.

Lemma round_half_even_opp (y : Q) :
  round_half_even (- y) = - round_half_even y.
Proof.
  destruct (round_half_even_near y) as [H1 H2].
  destruct (round_half_even_near (- y)) as [H3 H4].
  pose proof (round_half_even_tie y) as Ht. pose proof (round_half_even_tie (- y)) as Ht'.
  set (r := round_half_even y) in *. set (r' := round_half_even (- y)) in *.
  assert (Hs1 : (inject_Z (r + r') <= 1)%Q) by (rewrite inject_Z_plus; lra).
  assert (Hs2 : (-(1) <= inject_Z (r + r'))%Q) by (rewrite inject_Z_plus; lra).
  change 1%Q with (inject_Z 1) in Hs1. change (-(1))%Q with (inject_Z (-1)) in Hs2.
  rewrite <- Zle_Qle in Hs1, Hs2.
  assert (Hcases : r + r' = 1 \/ r + r' = 0 \/ r + r' = -1) by lia.
  destruct Hcases as [Hc|[Hc|Hc]]; [| lia |].
  - assert (Hq : (inject_Z r + inject_Z r' == 1)%Q).
    { rewrite <- inject_Z_plus, Hc. reflexivity. }
    assert (He : Z.even r = true) by (apply Ht; right; apply Qle_antisym; lra).
    assert (He' : Z.even r' = true) by (apply Ht'; right; apply Qle_antisym; lra).
    apply Z.even_spec in He, He'. destruct He as [a Ha], He' as [b Hb]. lia.
  - assert (Hq : (inject_Z r + inject_Z r' == -(1))%Q).
    { rewrite <- inject_Z_plus, Hc. reflexivity. }
    assert (He : Z.even r = true) by (apply Ht; left; apply Qle_antisym; lra).
    assert (He' : Z.even r' = true) by (apply Ht'; left; apply Qle_antisym; lra).
    apply Z.even_spec in He, He'. destruct He as [a Ha], He' as [b Hb]. lia.
Qed.

(** ** Rounding to binary64 *)

Lemma round_to_value (e : Z) (q : Q) :
  (round_to e q == inject_Z (round_half_even (q / pow2 e)) * pow2 e)%Q.
Proof. unfold round_to. apply Qred_correct. Qed.

Lemma b64_0 : b64 0 = 0%Q.
Proof. reflexivity. Qed.

Lemma floor_log2_unique (q : Q) (k : Z) :
  (pow2 k <= q /\ q < pow2 (k + 1))%Q -> floor_log2 q = k.
Proof.
  intros [Hlo Hhi].
  assert (Hq : (0 < q)%Q) by (pose proof (pow2_pos k); lra).
  destruct (floor_log2_spec q Hq) as [Hlo' Hhi'].
  set (f := floor_log2 q) in *.
  assert (H1 : (pow2 k < pow2 (f + 1))%Q) by lra.
  assert (H2 : (pow2 f < pow2 (k + 1))%Q) by lra.
  apply Qpower_lt_compat_l_inv in H1; [|reflexivity].
  apply Qpower_lt_compat_l_inv in H2; [|reflexivity]. lia.
Qed.

Lemma floor_log2_comp (x y : Q) :
  (0 < x)%Q -> (x == y)%Q -> floor_log2 x = floor_log2 y.
Proof.
  intros Hx H. symmetry. apply floor_log2_unique.
  destruct (floor_log2_spec x Hx) as [Hlo Hhi]. rewrite <- H. split; assumption.
Qed.

Lemma Qabs_nonzero (x : Q) : ~ (x == 0)%Q -> (0 < Qabs x)%Q.
Proof.
  intros Hne. apply Qabs_case; intros H.
  - destruct (Qlt_le_dec 0 x); [assumption|]. exfalso. apply Hne, Qle_antisym; assumption.
  - destruct (Qlt_le_dec 0 (- x)) as [Hl|Hl]; [assumption|].
    exfalso. apply Hne, Qle_antisym; lra.
Qed.

Lemma b64_comp (x y : Q) : (x == y)%Q -> b64 x = b64 y.
Proof.
  intros H. unfold b64. rewrite (Qeqb_comp x y H 0%Q 0%Q (Qeq_refl 0%Q)).
  destruct (Qeq_bool y 0) eqn:Hz; [reflexivity|].
  apply Qeq_bool_neq in Hz.
  assert (Ha : (Qabs x == Qabs y)%Q) by (rewrite H; reflexivity).
  assert (Hpos : (0 < Qabs x)%Q) by (apply Qabs_nonzero; rewrite H; exact Hz).
  rewrite (floor_log2_comp _ _ Hpos Ha). unfold round_to. apply Qred_complete.
  rewrite (round_half_even_comp (x / pow2 (floor_log2 (Qabs y) - 52))
                                (y / pow2 (floor_log2 (Qabs y) - 52))).
  - reflexivity.
  - rewrite H. reflexivity.
Qed.

Lemma b64_nonzero (q : Q) :
  ~ (q == 0)%Q -> b64 q = round_to (floor_log2 (Qabs q) - 52) q.
Proof.
  intros Hne. unfold b64. destruct (Qeq_bool q 0) eqn:Hz; [|reflexivity].
  apply Qeq_bool_eq in Hz. contradiction.
Qed.

Lemma round_half_even_pow2 (n : Z) : 0 <= n -> round_half_even (pow2 n) = 2 ^ n.
Proof.
  intros Hn. rewrite <- (round_half_even_comp _ _ (pow2_Z n Hn)).
  apply round_half_even_Z.
Qed.

(** A positive number and its binary64 value lie in the same binade, at
    most half a unit in the last place apart. *)
Lemma b64_pos_spec (q : Q) :
  (0 < q)%Q ->
  let e := floor_log2 q - 52 in
  (pow2 (e + 52) <= q /\ q < pow2 (e + 53) /\
   pow2 (e + 52) <= b64 q /\ b64 q <= pow2 (e + 53) /\
   b64 q - q <= pow2 e * (1 # 2) /\ q - b64 q <= pow2 e * (1 # 2))%Q.
Proof.
  intros Hq e.
  assert (Habs : (Qabs q == q)%Q) by (apply Qabs_pos; lra).
  assert (Hab0 : (0 < Qabs q)%Q) by lra.
  assert (He : floor_log2 (Qabs q) - 52 = e).
  { unfold e. rewrite (floor_log2_comp _ _ Hab0 Habs). reflexivity. }
  destruct (floor_log2_spec q Hq) as [Hlo Hhi].
  replace (floor_log2 q) with (e + 52) in Hlo by (unfold e; lia).
  replace (floor_log2 q + 1) with (e + 53) in Hhi by (unfold e; lia).
  rewrite b64_nonzero by lra. rewrite He, round_to_value.
  pose proof (pow2_pos e) as Hpe.
  set (y := (q / pow2 e)%Q).
  assert (Hy : (y * pow2 e == q)%Q) by (unfold y; field; lra).
  assert (H52 : (pow2 (e + 52) == pow2 e * pow2 52)%Q) by apply pow2_add.
  assert (H53 : (pow2 (e + 53) == pow2 e * pow2 53)%Q) by apply pow2_add.
  assert (Hy1 : (pow2 52 <= y)%Q) by nra.
  assert (Hy2 : (y <= pow2 53)%Q) by nra.
  apply round_half_even_mono in Hy1, Hy2.
  rewrite round_half_even_pow2 in Hy1, Hy2 by lia.
  destruct (round_half_even_near y) as [Hn1 Hn2].
  set (r := round_half_even y) in *.
  assert (Hr1 : (pow2 52 <= inject_Z r)%Q).
  { rewrite <- pow2_Z by lia. rewrite <- Zle_Qle. exact Hy1. }
  assert (Hr2 : (inject_Z r <= pow2 53)%Q).
  { rewrite <- pow2_Z by lia. rewrite <- Zle_Qle. exact Hy2. }
  repeat split; try assumption; nra.
Qed.

Lemma b64_opp (q : Q) : b64 (- q) = (- b64 q)%Q.
Proof.
  destruct (Qeq_dec q 0) as [Hz|Hnz].
  - rewrite (b64_comp (- q) 0), (b64_comp q 0); [reflexivity | exact Hz |].
    rewrite Hz. reflexivity.
  - assert (Hnz' : ~ (- q == 0)%Q) by (intros H; apply Hnz; lra).
    rewrite !b64_nonzero by assumption.
    assert (Ha : (Qabs (- q) == Qabs q)%Q) by apply Qabs_opp.
    rewrite (floor_log2_comp _ _ (Qabs_nonzero _ Hnz') Ha).
    set (e := floor_log2 (Qabs q) - 52). unfold round_to.
    rewrite <- Qred_opp. apply Qred_complete.
    assert (Hy : (- q / pow2 e == - (q / pow2 e))%Q).
    { field. pose proof (pow2_pos e). lra. }
    rewrite (round_half_even_comp _ _ Hy), round_half_even_opp, inject_Z_opp. ring.
Qed.

Lemma unit_roundoff_pow2 : (unit_roundoff * pow2 53 == 1)%Q.
Proof. reflexivity. Qed.

Lemma b64_error_pos (q : Q) :
  (0 < q)%Q ->
  (q * (1 - unit_roundoff) <= b64 q /\ b64 q <= q * (1 + unit_roundoff))%Q.
Proof.
  intros Hq. destruct (b64_pos_spec q Hq) as (Hlo & _ & _ & _ & Hup & Hdown).
  set (e := floor_log2 q - 52) in *.
  assert (H52 : (pow2 (e + 52) == pow2 e * pow2 52)%Q) by apply pow2_add.
  assert (Hc : (pow2 52 == 4503599627370496)%Q) by reflexivity.
  pose proof (pow2_pos e) as Hpe. unfold unit_roundoff.
  rewrite H52, Hc in Hlo. split; lra.
Qed.

Lemma b64_pos (q : Q) : (0 < q)%Q -> (0 < b64 q)%Q.
Proof.
  intros Hq. destruct (b64_pos_spec q Hq) as (_ & _ & Hlo & _).
  pose proof (pow2_pos (floor_log2 q - 52 + 52)). lra.
Qed.

Lemma b64_nonneg (q : Q) : (0 <= q)%Q -> (0 <= b64 q)%Q.
Proof.
  intros Hq. destruct (Qeq_dec q 0) as [Hz|Hnz].
  - rewrite (b64_comp q 0 Hz). apply Qle_refl.
  - apply Qlt_le_weak, b64_pos.
    destruct (Qlt_le_dec 0 q); [assumption|]. exfalso. apply Hnz, Qle_antisym; assumption.
Qed.

Lemma b64_error_nonneg (q : Q) :
  (0 <= q)%Q ->
  (q * (1 - unit_roundoff) <= b64 q /\ b64 q <= q * (1 + unit_roundoff))%Q.
Proof.
  intros Hq. destruct (Qeq_dec q 0) as [Hz|Hnz].
  - rewrite (b64_comp q 0 Hz), b64_0, Hz. split; lra.
  - apply b64_error_pos.
    destruct (Qlt_le_dec 0 q); [assumption|]. exfalso. apply Hnz, Qle_antisym; assumption.
Qed.

Lemma b64_mono_pos (x y : Q) : (0 < x)%Q -> (x <= y)%Q -> (b64 x <= b64 y)%Q.
Proof.
  intros Hx Hxy. assert (Hy : (0 < y)%Q) by lra.
  destruct (b64_pos_spec x Hx) as (Hx1 & Hx2 & _ & Hx4 & _).
  destruct (b64_pos_spec y Hy) as (Hy1 & Hy2 & Hy3 & _).
  set (ex := floor_log2 x - 52) in *. set (ey := floor_log2 y - 52) in *.
  assert (Hle : ex <= ey).
  { assert (H : (pow2 (ex + 52) < pow2 (ey + 53))%Q) by lra.
    apply Qpower_lt_compat_l_inv in H; [lia | reflexivity]. }
  destruct (Z.eq_dec ex ey) as [Heq|Hne].
  - rewrite !b64_nonzero by lra.
    assert (Hax : floor_log2 (Qabs x) - 52 = ex).
    { unfold ex. rewrite (floor_log2_comp (Qabs x) x); [reflexivity | |];
        rewrite Qabs_pos; lra. }
    assert (Hay : floor_log2 (Qabs y) - 52 = ex).
    { rewrite Heq. unfold ey. rewrite (floor_log2_comp (Qabs y) y); [reflexivity | |];
        rewrite Qabs_pos; lra. }
    rewrite Hax, Hay, !round_to_value.
    pose proof (pow2_pos ex) as Hp.
    assert (Hq : (x / pow2 ex <= y / pow2 ex)%Q).
    { apply Qmult_le_compat_r; [exact Hxy|]. apply Qlt_le_weak, Qinv_lt_0_compat, Hp. }
    apply round_half_even_mono in Hq. rewrite Zle_Qle in Hq.
    apply Qmult_le_compat_r; [exact Hq | lra].
  - assert (H : (pow2 (ex + 53) <= pow2 (ey + 52))%Q) by (apply pow2_le; lia). lra.
Qed.

Lemma b64_mono (x y : Q) : (x <= y)%Q -> (b64 x <= b64 y)%Q.
Proof.
  intros Hxy. destruct (Qlt_le_dec 0 x) as [Hx|Hx].
  - apply b64_mono_pos; assumption.
  - destruct (Qlt_le_dec y 0) as [Hy|Hy].
    + assert (H : (b64 (- y) <= b64 (- x))%Q) by (apply b64_mono_pos; lra).
      rewrite !b64_opp in H. lra.
    + assert (H1 : (0 <= b64 (- x))%Q) by (apply b64_nonneg; lra).
      rewrite b64_opp in H1. pose proof (b64_nonneg y Hy). lra.
Qed.

Lemma b64_error (q : Q) :
  (Qabs (b64 q - q) <= unit_roundoff * Qabs q)%Q.
Proof.
  assert (Hu : (0 < unit_roundoff)%Q) by reflexivity.
  destruct (Qlt_le_dec q 0) as [Hneg|Hpos].
  - assert (Hq : (0 <= - q)%Q) by lra.
    destruct (b64_error_nonneg (- q) Hq) as [H1 H2]. rewrite b64_opp in H1, H2.
    rewrite (Qabs_neg q) by lra. apply Qabs_Qle_condition. split; lra.
  - destruct (b64_error_nonneg q Hpos) as [H1 H2].
    rewrite (Qabs_pos q) by lra. apply Qabs_Qle_condition. split; lra.
Qed.

(** Integers below [2^53] in absolute value are binary64 numbers. *)
Lemma b64_int (n : Z) :
  Z.abs n < 2 ^ 53 -> (b64 (inject_Z n) == inject_Z n)%Q.
Proof.
  assert (Hposcase : forall m, 0 < m < 2 ^ 53 -> (b64 (inject_Z m) == inject_Z m)%Q).
  { intros m Hm.
    assert (Hq : (0 < inject_Z m)%Q) by (change 0%Q with (inject_Z 0); rewrite <- Zlt_Qlt; lia).
    destruct (b64_pos_spec _ Hq) as (Hlo & _).
    assert (Habs : (Qabs (inject_Z m) == inject_Z m)%Q) by (apply Qabs_pos; lra).
    assert (Hnz : ~ (inject_Z m == 0)%Q) by (intros H; lra).
    rewrite b64_nonzero by exact Hnz.
    rewrite (floor_log2_comp _ _ (Qabs_nonzero _ Hnz) Habs).
    set (e := floor_log2 (inject_Z m) - 52) in *.
    assert (He : e <= 0).
    { assert (H : (pow2 (e + 52) < pow2 53)%Q).
      { eapply Qle_lt_trans; [exact Hlo|]. rewrite <- pow2_Z by lia.
        rewrite <- Zlt_Qlt. lia. }
      apply Qpower_lt_compat_l_inv in H; [lia | reflexivity]. }
    rewrite round_to_value.
    assert (Hp : (pow2 e * pow2 (- e) == 1)%Q).
    { rewrite <- pow2_add. replace (e + - e) with 0 by lia. reflexivity. }
    pose proof (pow2_pos e) as Hpe.
    assert (Hy : (inject_Z m / pow2 e == inject_Z (m * 2 ^ (- e)))%Q).
    { rewrite inject_Z_mult, pow2_Z by lia.
      apply (Qmult_inj_r _ _ (pow2 e)); [lra|].
      transitivity (inject_Z m); [field; lra|].
      rewrite <- Qmult_assoc, (Qmult_comm (pow2 (- e))), Hp. ring. }
    rewrite (round_half_even_comp _ _ Hy), round_half_even_Z.
    rewrite inject_Z_mult, pow2_Z by lia.
    rewrite <- Qmult_assoc, (Qmult_comm (pow2 (- e))), Hp. ring. }
  intros Hn. destruct (Z.lt_trichotomy n 0) as [Hneg|[->|Hpos]].
  - assert (H : (b64 (inject_Z (- n)) == inject_Z (- n))%Q) by (apply Hposcase; lia).
    rewrite inject_Z_opp, b64_opp in H. lra.
  - reflexivity.
  - apply Hposcase. lia.
Qed.

(** ** The square root *)

Lemma fsqrt_nonpos (x : Q) : (x <= 0)%Q -> fsqrt x = 0%Q.
Proof.
  intros Hx. unfold fsqrt. apply Qle_bool_iff in Hx. rewrite Hx. reflexivity.
Qed.

(** The root of a positive number is positive, and its relative error is
    at most the unit roundoff. *)
Lemma fsqrt_spec (x : Q) :
  (0 < x)%Q ->
  (0 < fsqrt x /\
   fsqrt x * fsqrt x * ((1 - unit_roundoff) * (1 - unit_roundoff)) <= x /\
   x <= fsqrt x * fsqrt x * ((1 + unit_roundoff) * (1 + unit_roundoff)))%Q.
Proof.
  intros Hx. unfold fsqrt.
  destruct (Qle_bool x 0) eqn:Hle; [apply Qle_bool_iff in Hle; lra|]. clear Hle.
  destruct (floor_log2_spec x Hx) as [Hlo _].
  set (L := floor_log2 x) in *. set (e := (L - 104) / 2).
  assert (He : 2 * e <= L - 104) by (unfold e; apply Z.mul_div_le; lia).
  set (t := (x / pow2 (2 * e))%Q).
  pose proof (pow2_pos (2 * e)) as Hp2. pose proof (pow2_pos e) as Hpe.
  assert (Hee : (pow2 (2 * e) == pow2 e * pow2 e)%Q).
  { rewrite <- pow2_add. replace (e + e) with (2 * e) by lia. reflexivity. }
  assert (Ht : (t * pow2 (2 * e) == x)%Q) by (unfold t; field; lra).
  assert (Ht104 : (pow2 104 <= t)%Q).
  { assert (H : (pow2 (2 * e + 104) <= pow2 L)%Q) by (apply pow2_le; lia).
    rewrite pow2_add in H. nra. }
  set (n := Qfloor t).
  assert (Hn : 2 ^ 104 <= n).
  { unfold n. rewrite <- (Qfloor_Z (2 ^ 104)). apply Qfloor_resp_le.
    rewrite pow2_Z by lia. exact Ht104. }
  destruct (Z.sqrt_spec n ltac:(lia)) as [Hs1 Hs2].
  assert (Hs52 : 2 ^ 52 <= Z.sqrt n).
  { change (2 ^ 52) with (Z.sqrt (2 ^ 104)). apply Z.sqrt_le_mono. exact Hn. }
  set (s := Z.sqrt n) in *.
  pose proof (Qfloor_le t) as Hf1. pose proof (Qlt_floor t) as Hf2. fold n in Hf1, Hf2.
  assert (Ht1 : (inject_Z s * inject_Z s <= t)%Q).
  { rewrite <- inject_Z_mult. eapply Qle_trans; [|exact Hf1].
    rewrite <- Zle_Qle. exact Hs1. }
  assert (Ht2 : (t < (inject_Z s + 1) * (inject_Z s + 1))%Q).
  { change 1%Q with (inject_Z 1). rewrite <- inject_Z_plus, <- inject_Z_mult.
    eapply Qlt_le_trans; [exact Hf2|]. rewrite <- Zle_Qle.
    unfold Z.succ in Hs2. lia. }
  assert (HS : (4503599627370496 <= inject_Z s)%Q).
  { change 4503599627370496%Q with (inject_Z (2 ^ 52)). rewrite <- Zle_Qle. exact Hs52. }
  set (S := inject_Z s) in *.
  set (m := match (t ?= (S + (1 # 2)) * (S + (1 # 2)))%Q with
            | Lt => s
            | Gt => s + 1
            | Eq => if Z.even s then s else s + 1
            end).
  assert (Hm : (4503599627370496 <= inject_Z m /\
                (inject_Z m - (1 # 2)) * (inject_Z m - (1 # 2)) <= t /\
                t <= (inject_Z m + (1 # 2)) * (inject_Z m + (1 # 2)))%Q).
  { assert (Hcase_s : (t <= (S + (1 # 2)) * (S + (1 # 2)) ->
                       4503599627370496 <= S /\
                       (S - (1 # 2)) * (S - (1 # 2)) <= t /\
                       t <= (S + (1 # 2)) * (S + (1 # 2)))%Q) by (intros; nra).
    assert (Hcase_s1 : ((S + (1 # 2)) * (S + (1 # 2)) <= t ->
                        4503599627370496 <= inject_Z (s + 1) /\
                        (inject_Z (s + 1) - (1 # 2)) * (inject_Z (s + 1) - (1 # 2)) <= t /\
                        t <= (inject_Z (s + 1) + (1 # 2)) * (inject_Z (s + 1) + (1 # 2)))%Q).
    { intros H. rewrite inject_Z_plus. change (inject_Z 1) with 1%Q. fold S. nra. }
    unfold m. destruct (Qcompare_spec t ((S + (1 # 2)) * (S + (1 # 2)))) as [Hc|Hc|Hc].
    - destruct (Z.even s); [apply Hcase_s | apply Hcase_s1]; lra.
    - apply Hcase_s. lra.
    - apply Hcase_s1. lra. }
  clearbody m. destruct Hm as (Hm1 & Hm2 & Hm3).
  rewrite Qred_correct. set (M := inject_Z m) in *.
  set (P := pow2 e) in *. set (P2 := pow2 (2 * e)) in *.
  assert (Hu : (unit_roundoff * 9007199254740992 == 1)%Q) by reflexivity.
  set (u := unit_roundoff) in *.
  assert (Hu0 : (0 < u)%Q) by reflexivity.
  assert (Hhalf : ((1 # 2) <= M * u)%Q) by nra.
  assert (Hu1 : (u < 1)%Q) by reflexivity.
  split; [nra|].
  assert (Hx1 : (x == t * (P * P))%Q) by (rewrite <- Ht, Hee; reflexivity).
  assert (HA : (M * M * ((1 - u) * (1 - u)) <= t)%Q).
  { assert (H1 : (0 <= M * (1 - u))%Q) by nra.
    assert (H2 : (M * (1 - u) <= M - (1 # 2))%Q) by nra.
    assert (H3 : ((M * (1 - u)) * (M * (1 - u)) <= (M - (1 # 2)) * (M - (1 # 2)))%Q)
      by nra.
    nra. }
  assert (HB : (t <= M * M * ((1 + u) * (1 + u)))%Q).
  { assert (H2 : (M + (1 # 2) <= M * (1 + u))%Q) by nra.
    assert (H3 : ((M + (1 # 2)) * (M + (1 # 2)) <= (M * (1 + u)) * (M * (1 + u)))%Q)
      by nra.
    nra. }
  assert (HPP : (0 < P * P)%Q) by nra.
  pose proof (Qmult_le_compat_r _ _ (P * P) HA (Qlt_le_weak _ _ HPP)) as HA'.
  pose proof (Qmult_le_compat_r _ _ (P * P) HB (Qlt_le_weak _ _ HPP)) as HB'.
  rewrite Hx1. split; lra.
Qed.

(** ** Rounding to one decimal *)

Lemma round1_range (x : Q) :
  (0 <= x)%Q -> (x < 100 + (1 # 20))%Q -> (0 <= round1 x /\ round1 x <= 100)%Q.
Proof.
  intros H0 H1. unfold round1.
  destruct (round_half_even_near (x * 10)) as [Hn1 Hn2].
  assert (Hk0 : 0 <= round_half_even (x * 10)).
  { rewrite <- (round_half_even_Z 0). apply round_half_even_mono.
    change (inject_Z 0) with 0%Q. lra. }
  assert (Hk1 : round_half_even (x * 10) <= 1000).
  { assert (H : (inject_Z (round_half_even (x * 10)) < inject_Z 1000 + 1)%Q).
    { change (inject_Z 1000) with 1000%Q. lra. }
    change 1%Q with (inject_Z 1) in H. rewrite <- inject_Z_plus, <- Zlt_Qlt in H. lia. }
  set (k := round_half_even (x * 10)) in *.
  assert (Hq0 : (0 <= k # 10)%Q) by (unfold Qle; cbn; lia).
  assert (Hq1 : (k # 10 <= 100)%Q) by (unfold Qle; cbn; lia).
  split.
  - apply b64_nonneg, Hq0.
  - apply b64_mono in Hq1. exact Hq1.
Qed.



(** ** Percentages *)

Lemma percent_of_error (part total : Z) :
  0 <= part -> 0 < total ->
  let x := (inject_Z part / inject_Z total * 100)%Q in
  (x * (1 - 3 * unit_roundoff) <= percent_of part total
   /\ percent_of part total <= x * (1 + 3 * unit_roundoff))%Q.
Proof.
  intros Hp Ht x. unfold percent_of.
  assert (Hp' : (0 <= inject_Z part)%Q)
    by (change 0%Q with (inject_Z 0); rewrite <- Zle_Qle; exact Hp).
  assert (Ht' : (0 < inject_Z total)%Q)
    by (change 0%Q with (inject_Z 0); rewrite <- Zlt_Qlt; exact Ht).
  assert (Hy : (0 <= inject_Z part / inject_Z total)%Q).
  { apply Qle_shift_div_l; [exact Ht' | lra]. }
  destruct (b64_error_nonneg _ Hy) as [Hy1 Hy2]. pose proof (b64_nonneg _ Hy) as Hy0.
  set (y := (inject_Z part / inject_Z total)%Q) in *. set (fy := b64 y) in *.
  assert (Hz : (0 <= fy * 100)%Q) by lra.
  destruct (b64_error_nonneg _ Hz) as [Hz1 Hz2].
  assert (Hu : (0 < unit_roundoff)%Q) by reflexivity.
  assert (Hu1 : (unit_roundoff < 1)%Q) by reflexivity.
  unfold x. fold y. set (u := unit_roundoff) in *. split; nra.
Qed.

Lemma percent_of_range (part total : Z) :
  0 <= part < total -> total <= 1000 ->
  (0 <= percent_of part total /\ percent_of part total < 100)%Q.
Proof.
  intros Hp Ht. unfold percent_of.
  assert (Hp' : (0 <= inject_Z part)%Q)
    by (change 0%Q with (inject_Z 0); rewrite <- Zle_Qle; lia).
  assert (Ht' : (0 < inject_Z total)%Q)
    by (change 0%Q with (inject_Z 0); rewrite <- Zlt_Qlt; lia).
  assert (Hy : (0 <= inject_Z part / inject_Z total)%Q).
  { apply Qle_shift_div_l; [exact Ht' | lra]. }
  assert (Hy1 : (inject_Z part / inject_Z total <= 999 # 1000)%Q).
  { apply Qle_shift_div_r; [exact Ht'|].
    assert (H : 1000 * part <= 999 * total) by lia.
    rewrite Zle_Qle, !inject_Z_mult in H.
    change (inject_Z 1000) with 1000%Q in H. change (inject_Z 999) with 999%Q in H. lra. }
  pose proof (b64_nonneg _ Hy) as Hf0. apply b64_mono in Hy1.
  set (fy := b64 (inject_Z part / inject_Z total)) in *.
  assert (Hz : (fy * 100 <= b64 (999 # 1000) * 100)%Q) by lra.
  apply b64_mono in Hz. split.
  - apply b64_nonneg. lra.
  - eapply Qle_lt_trans; [exact Hz|]. vm_compute. reflexivity.
Qed.

(** ** Vectors *)

Lemma sum_squares_cons (x : Z) (v : list Z) :
  sum_squares (x :: v) = x * x + sum_squares v.
Proof. unfold sum_squares. cbn [map]. apply sum_Z_cons. Qed.

Lemma sum_squares_nonneg (v : list Z) : 0 <= sum_squares v.
Proof.
  induction v as [|x v IH]; [reflexivity|]. rewrite sum_squares_cons. nia.
Qed.







Lemma percent_of_bounds (part total : Z) :
  0 <= part <= total -> 0 < total ->
  (0 <= percent_of part total /\ percent_of part total <= 100)%Q.
Proof.
  intros Hp Ht. unfold percent_of.
  assert (Hp' : (0 <= inject_Z part)%Q)
    by (change 0%Q with (inject_Z 0); rewrite <- Zle_Qle; lia).
  assert (Hpt : (inject_Z part <= inject_Z total)%Q) by (rewrite <- Zle_Qle; lia).
  assert (Ht' : (0 < inject_Z total)%Q)
    by (change 0%Q with (inject_Z 0); rewrite <- Zlt_Qlt; exact Ht).
  assert (Hy0 : (0 <= inject_Z part / inject_Z total)%Q).
  { apply Qle_shift_div_l; [exact Ht' | lra]. }
  assert (Hy1 : (inject_Z part / inject_Z total <= 1)%Q).
  { apply Qle_shift_div_r; [exact Ht' | lra]. }
  pose proof (b64_nonneg _ Hy0) as Hb0. apply b64_mono in Hy1.
  assert (E1 : b64 1 = 1%Q) by (vm_compute; reflexivity). rewrite E1 in Hy1.
  set (y := b64 (inject_Z part / inject_Z total)) in *.
  assert (Hz0 : (0 <= y * 100)%Q) by lra.
  assert (Hz1 : (y * 100 <= 100)%Q) by lra.
  split; [apply b64_nonneg, Hz0|]. apply b64_mono in Hz1.
  assert (E2 : b64 100 = 100%Q) by (vm_compute; reflexivity). rewrite E2 in Hz1.
  exact Hz1.
Qed.

(** ** Magnitude and similarity in binary64 *)

Lemma of_int_pos (n : Z) : 0 < n -> (0 < of_int n)%Q.
Proof.
  intros Hn. apply b64_pos. change 0%Q with (inject_Z 0). rewrite <- Zlt_Qlt. exact Hn.
Qed.


Lemma magnitude_zero (v : list Z) :
  Qeq_bool (magnitude v) 0 = true <-> sum_squares v = 0.
Proof.
  unfold magnitude. pose proof (sum_squares_nonneg v) as Hn. split.
  - intros Hz. apply Qeq_bool_eq in Hz.
    destruct (Z.eq_dec (sum_squares v) 0) as [H0|Hne]; [exact H0|].
    exfalso. destruct (fsqrt_spec (of_int (sum_squares v))) as [Hpos _].
    + apply of_int_pos. lia.
    + lra.
  - intros ->. reflexivity.
Qed.


Section CosineBounds.

Local Open Scope Q_scope.






End CosineBounds.




(** ** The loop of the rival finder *)





Lemma rival_step_candidate (username_lower : string) (u : list Z)
  (best : option RivalInfo * Q) (row : pattern_row) :
  rival_step username_lower u best row
  = if is_candidate username_lower row then best_step u best row else best.
Proof.
  unfold rival_step, is_candidate, best_step, score.
  destruct (String.eqb (pr_id row) username_lower); [reflexivity|]. cbn [negb andb].
  destruct (Qeq_bool (magnitude (other_vector row)) 0) eqn:Hz.
  - apply magnitude_zero in Hz. rewrite Hz. reflexivity.
  - destruct (Z.eqb_spec (sum_squares (other_vector row)) 0) as [H0|_]; [|reflexivity].
    apply magnitude_zero in H0. congruence.
Qed.

Lemma fold_rival_step (username_lower : string) (u : list Z)
  (pool : list pattern_row) (st : option RivalInfo * Q) :
  fold_left (rival_step username_lower u) pool st
  = fold_left (best_step u) (candidates username_lower pool) st.
Proof.
  revert st. induction pool as [|row pool IH]; intros st; [reflexivity|].
  cbn [fold_left candidates List.filter]. rewrite rival_step_candidate.
  destruct (is_candidate username_lower row); cbn [fold_left]; apply IH.
Qed.






(** ** The pool of the rival finder *)




Section GroupSums.

Context {K A : Type} `{EqDecision K} (key : A -> K) (p : K -> bool).



End GroupSums.

Section RivalPool.

Variable matching : doc -> bool.
Variable c : collection.

Let docs := List.filter matching c.
Let rows := map pattern_of (group_by uh_username (user_hour_rows docs)).










End RivalPool.


(** ** Peak hours *)

Section PeakHours.

Variable counts : list Z.
Hypothesis counts_24 : length counts = 24%nat.

Lemma index_bin (h : Z) :
  0 <= h < 24 -> index counts h = Returns (bin counts h).
Proof.
  intros Hh. unfold index, bin.
  rewrite (nth_error_nth' counts 0); [reflexivity | lia].
Qed.

Lemma window_sum_circular (s : Z) :
  0 <= s < 24 -> window_sum counts s = Returns (circular_sum3 counts s).
Proof.
  intros Hs. unfold window_sum, circular_sum3.
  rewrite !index_bin by (apply Z.mod_pos_bound; lia).
  cbn [bind]. rewrite Z.add_0_r. reflexivity.
Qed.

Lemma peak_loop_fold (starts : list Z) (best : Z * Z) :
  Forall (fun s => 0 <= s < 24) starts ->
  peak_loop counts starts best
  = Returns (peak_fold (circular_sum3 counts) starts best).
Proof.
  intros Hst. revert best.
  induction Hst as [|s rest Hs _ IH]; intros best; cbn [peak_loop peak_fold].
  - reflexivity.
  - rewrite window_sum_circular by exact Hs. cbn [bind].
    destruct (fst best <? circular_sum3 counts s); apply IH.
Qed.

End PeakHours.

Lemma peak_fold_inv (w : Z -> Z) (n a : nat) (best : Z * Z) :
  peak_inv w (Z.of_nat a) best ->
  peak_inv w (Z.of_nat (a + n)) (peak_fold w (map Z.of_nat (seq a n)) best).
Proof.
  revert a best. induction n as [|n IH]; intros a best Hinv.
  - rewrite Nat.add_0_r. exact Hinv.
  - cbn [seq map peak_fold].
    replace (a + S n)%nat with (S a + n)%nat by lia.
    destruct (Z.ltb_spec (fst best) (w (Z.of_nat a))) as [Hlt|Hge]; apply IH.
    + right. cbn [fst snd].
      destruct Hinv as [(Hb & _ & Hall)|(Hpos & Hb & Hr & Hmax & Hfirst)].
      * repeat split; try lia.
        -- intros s Hs. destruct (Z.eq_dec s (Z.of_nat a)) as [->|]; [lia|].
           specialize (Hall s). lia.
        -- intros s Hs. specialize (Hall s). lia.
      * repeat split; try lia.
        -- intros s Hs. destruct (Z.eq_dec s (Z.of_nat a)) as [->|]; [lia|].
           specialize (Hmax s). lia.
        -- intros s Hs. specialize (Hmax s). lia.
    + destruct Hinv as [(Hb & Hs0 & Hall)|(Hpos & Hb & Hr & Hmax & Hfirst)].
      * left. repeat split; try assumption.
        intros s Hs. destruct (Z.eq_dec s (Z.of_nat a)) as [->|]; [lia|].
        apply Hall. lia.
      * right. repeat split; try lia.
        -- intros s Hs. destruct (Z.eq_dec s (Z.of_nat a)) as [->|]; [lia|].
           apply Hmax. lia.
        -- exact Hfirst.
Qed.

Lemma first_max_start_unique (w : Z -> Z) (m m' : Z) :
  first_max_start w m -> first_max_start w m' -> m = m'.
Proof.
  intros (Hm & Hmax & Hfirst) (Hm' & Hmax' & Hfirst').
  destruct (Z.lt_trichotomy m m') as [Hlt|[Heq|Hgt]]; [|exact Heq|].
  - specialize (Hfirst' m). specialize (Hmax m'). lia.
  - specialize (Hfirst m'). specialize (Hmax' m). lia.
Qed.

Lemma first_max_below (w : Z -> Z) (n : nat) :
  exists m, 0 <= m < Z.of_nat (S n) /\
            (forall s, 0 <= s < Z.of_nat (S n) -> w s <= w m) /\
            (forall s, 0 <= s < m -> w s < w m).
Proof.
  induction n as [|n (m & Hm & Hmax & Hfirst)].
  - exists 0. repeat split; try lia.
    intros s Hs. replace s with 0 by lia. lia.
  - destruct (Z_lt_le_dec (w m) (w (Z.of_nat (S n)))) as [Hlt|Hle].
    + exists (Z.of_nat (S n)). repeat split; try lia.
      * intros s Hs.
        destruct (Z.eq_dec s (Z.of_nat (S n))) as [->|]; [lia|].
        specialize (Hmax s). lia.
      * intros s Hs. specialize (Hmax s). lia.
    + exists m. repeat split; try lia.
      * intros s Hs.
        destruct (Z.eq_dec s (Z.of_nat (S n))) as [->|]; [lia|].
        apply Hmax. lia.
      * exact Hfirst.
Qed.

(** C4. On a 24-bin histogram [get_peak_hours] returns; there is a
    smallest start hour [m] whose circular 3-hour window sum is maximal; the
    result is [[m, m+1, m+2]] modulo 24 when that sum is positive and the
    empty list when it is 0; counts of 10 at hours 23, 0 and 1 and 0
    elsewhere give [[23, 0, 1]]. *)
Theorem peak_hours_first_max_window (hourly_activity : list HourlyActivity) :
  length hourly_activity = 24%nat ->
  let w := circular_sum3 (map h_count hourly_activity) in
  (exists m, first_max_start w m) /\
  (forall m, first_max_start w m ->
     (0 < w m ->
      get_peak_hours hourly_activity
      = Returns [m; (m + 1) mod 24; (m + 2) mod 24]) /\
     (w m = 0 -> get_peak_hours hourly_activity = Returns [])) /\
  get_peak_hours
    (map (fun h => {| h_hour := h;
                      h_count := if (h =? 23) || (h <? 2) then 10 else 0 |})
         (range 24))
  = Returns [23; 0; 1].
Proof.
  intros Hlen w.
  assert (Hex : exists m, first_max_start w m).
  { destruct (first_max_below w 23) as (m & Hm & Hmax & Hfirst).
    exists m. repeat split; try lia; assumption. }
  split; [exact Hex|]. split; [|vm_compute; reflexivity].
  intros m Hm.
  assert (Hc : length (map h_count hourly_activity) = 24%nat)
    by (rewrite length_map; exact Hlen).
  assert (Hrun : get_peak_hours hourly_activity
                 = let best := peak_fold w (range 24) (0, 0) in
                   if fst best =? 0 then Returns []
                   else Returns (map (fun i => (snd best + i) mod 24) (range 3))).
  { unfold get_peak_hours. destruct hourly_activity as [|h0 rest]; [discriminate|].
    rewrite (peak_loop_fold _ Hc).
    - cbn [bind]. fold w. destruct (peak_fold w (range 24) (0, 0)); reflexivity.
    - unfold range. apply List.Forall_forall. intros s Hs.
      apply in_map_iff in Hs as (k & <- & Hk). apply in_seq in Hk. lia. }
  assert (Hinv : peak_inv w 24 (peak_fold w (range 24) (0, 0))).
  { apply (peak_fold_inv w 24 0 (0, 0)). left. cbn. repeat split; lia. }
  rewrite Hrun. cbv zeta.
  destruct Hinv as [(Hb & _ & Hall)|(Hpos & Hb & Hr & Hmax & Hfirst)].
  - rewrite Hb. cbn [Z.eqb]. destruct Hm as (Hm & _).
    specialize (Hall m). split; [lia | reflexivity].
  - assert (Hbm : snd (peak_fold w (range 24) (0, 0)) = m).
    { apply (first_max_start_unique w); [|exact Hm].
      repeat split; try lia; assumption. }
    destruct (Z.eqb_spec (fst (peak_fold w (range 24) (0, 0))) 0) as [H0|_]; [lia|].
    rewrite Hbm in *. split; [|lia].
    intros _. cbn [range seq map Z.of_nat]. rewrite Z.add_0_r.
    rewrite (Z.mod_small m 24) by (destruct Hm; lia). reflexivity.
Qed.

(** The theorem at a histogram with a single busy window. *)
Lemma peak_hours_first_max_window_witness :
  get_peak_hours
    (map (fun h => {| h_hour := h; h_count := if h =? 5 then 3 else 0 |})
         (range 24))
  = Returns [3; 4; 5].
Proof.
  pose (ha := map (fun h => {| h_hour := h; h_count := if h =? 5 then 3 else 0 |})
                  (range 24)).
  assert (Hlen : length ha = 24%nat) by reflexivity.
  destruct (peak_hours_first_max_window ha Hlen) as (_ & H & _).
  refine (proj1 (H 3 _) _).
  - repeat split; try lia.
    + intros s Hs.
      assert (Hcases : s = 0 \/ s = 1 \/ s = 2 \/ s = 3 \/ s = 4 \/ s = 5 \/
                s = 6 \/ s = 7 \/ s = 8 \/ s = 9 \/ s = 10 \/ s = 11 \/
                s = 12 \/ s = 13 \/ s = 14 \/ s = 15 \/ s = 16 \/ s = 17 \/
                s = 18 \/ s = 19 \/ s = 20 \/ s = 21 \/ s = 22 \/ s = 23) by lia.
      repeat (destruct Hcases as [->|Hcases]; [vm_compute; discriminate|]).
      subst s. vm_compute; discriminate.
    + intros s Hs.
      assert (Hcases : s = 0 \/ s = 1 \/ s = 2) by lia.
      destruct Hcases as [-> | [-> | ->]]; vm_compute; reflexivity.
  - vm_compute. reflexivity.
Defined.

(** ** Period resolution *)

(** C2, as stated, fails: the tag [year] is not one of the four canonical
    tags, yet its resolution returns the unbounded window instead of
    raising [InvalidArgument]. *)
Lemma unknown_period_not_rejected :
  period_pattern "year" = false /\
  period_resolution "year" 0 = Returns None /\
  ~ (forall period now,
       period_pattern period = false ->
       period_resolution period now = Raises InvalidArgument).
Proof.
  split; [reflexivity|]. split; [reflexivity|].
  intros H. specialize (H "year"%string 0 eq_refl). discriminate H.
Qed.

(** C2, amended.  [get_date_filter] never fails: it maps [day], [week] and
    [month] to the lower bounds now-1d, now-7d and now-30d and every other
    tag, [all] included, to no bound.  Tags other than the four canonical
    ones are turned away by the route's query pattern, which answers 422
    without calling the service or touching its state. *)
Theorem period_resolution_total (period : string) (now : datetime) :
  period_resolution period now = Returns (get_date_filter period now) /\
  get_date_filter "day" now = Some (now - 86400 * 1000000) /\
  get_date_filter "week" now = Some (now - 7 * 86400 * 1000000) /\
  get_date_filter "month" now = Some (now - 30 * 86400 * 1000000) /\
  get_date_filter "all" now = None /\
  (period <> "day"%string -> period <> "week"%string ->
   period <> "month"%string -> get_date_filter period now = None) /\
  (period_pattern period = false ->
   forall uname io g c, user_stats uname period io g c = (ValidationError422, g)).
Proof.
  split; [reflexivity|].
  split; [unfold get_date_filter; cbn; f_equal; lia|].
  split; [unfold get_date_filter; cbn; f_equal; lia|].
  split; [unfold get_date_filter; cbn; f_equal; lia|].
  split; [reflexivity|]. split.
  - intros Hd Hw Hm. unfold get_date_filter.
    apply String.eqb_neq in Hd, Hw, Hm. rewrite Hd, Hw, Hm. reflexivity.
  - intros Hp uname io g c. unfold user_stats. rewrite Hp, andb_false_r.
    reflexivity.
Qed.

(** The theorem at the tag [year]. *)
Lemma period_resolution_total_witness :
  get_date_filter "year" 0 = None /\
  user_stats "alice" "year" sample_io no_cache solo_chat
  = (ValidationError422, no_cache).
Proof.
  destruct (period_resolution_total "year" 0) as (_ & _ & _ & _ & _ & Hn & Hr).
  split.
  - apply Hn; discriminate.
  - apply Hr. reflexivity.
Defined.

(** ** The emote cache *)

(** C1, as stated, fails: a cache that knows [Kappa] and is one hour old
    is refreshed; the fetch times out; afterwards [Kappa] is not found. *)
Lemma failed_refresh_clears_cache :
  let g := {| _7tv_emotes_cache := Some {[ "Kappa"%string := "60ae"%string ]};
              _7tv_cache_time := Some 0 |} in
  let now := seconds 3600 in
  cache_fresh g now = None /\
  refresh_failed HttpTimeout HttpTimeout = true /\
  cached_id g "Kappa" = Some "60ae"%string /\
  cached_id (snd (get_7tv_emotes now HttpTimeout HttpTimeout g)) "Kappa" = None.
Proof. cbv zeta. repeat split; vm_compute; reflexivity. Qed.

Lemma cache_fresh_after_refresh (emotes : gmap string string) (now now' : datetime) :
  now <= now' < now + seconds 3600 ->
  cache_fresh {| _7tv_emotes_cache := Some emotes; _7tv_cache_time := Some now |} now'
  = Some emotes.
Proof.
  intros Hn. unfold cache_fresh. cbn [_7tv_emotes_cache _7tv_cache_time].
  destruct (Z.ltb_spec (now' - now) (seconds 3600)); [reflexivity | lia].
Qed.

(** C1, amended.  A cache younger than one hour is returned as it is,
    without a fetch.  Otherwise the refresh, failed or not, returns and
    stores the mapping built inside the [try] block and stamps it with the
    current time: nothing of the previous cache is kept.  When the first
    request times out or errors that mapping is empty, and for the next
    hour every call returns this stored mapping whatever the network
    does. *)
Theorem failed_refresh_stores_partial_result
  (now : datetime) (channel_resp global_resp : http_result) (g : emote_globals) :
  (forall cache, cache_fresh g now = Some cache ->
     get_7tv_emotes now channel_resp global_resp g = (cache, g)) /\
  (cache_fresh g now = None ->
     let emotes := fst (try_fetch channel_resp global_resp) in
     let g' := {| _7tv_emotes_cache := Some emotes; _7tv_cache_time := Some now |} in
     get_7tv_emotes now channel_resp global_resp g = (emotes, g') /\
     (channel_resp = HttpTimeout \/ channel_resp = HttpError ->
        refresh_failed channel_resp global_resp = true /\ emotes = ∅) /\
     (forall now' channel_resp' global_resp',
        now <= now' < now + seconds 3600 ->
        get_7tv_emotes now' channel_resp' global_resp' g' = (emotes, g'))).
Proof.
  split.
  - intros cache Hf. unfold get_7tv_emotes. rewrite Hf. reflexivity.
  - intros Hf. cbv zeta. split; [|split].
    + unfold get_7tv_emotes. rewrite Hf. reflexivity.
    + intros [-> | ->]; split; reflexivity.
    + intros now' ch' gl' Hn. unfold get_7tv_emotes.
      rewrite cache_fresh_after_refresh by exact Hn. reflexivity.
Qed.

(** The theorem at a stale cache whose refresh times out. *)
Lemma failed_refresh_stores_partial_result_witness :
  let g := {| _7tv_emotes_cache := Some {[ "Kappa"%string := "60ae"%string ]};
              _7tv_cache_time := Some 0 |} in
  get_7tv_emotes (seconds 3600) HttpTimeout HttpTimeout g
  = (∅, {| _7tv_emotes_cache := Some ∅; _7tv_cache_time := Some (seconds 3600) |}).
Proof.
  cbv zeta.
  refine (proj1 (proj2 (failed_refresh_stores_partial_result
                          (seconds 3600) HttpTimeout HttpTimeout _) _)).
  vm_compute. reflexivity.
Defined.

(** ** Percentile *)

Lemma count_for_absent (name : string) (all_users : list user_count) :
  ~ In name (map uc_id all_users) -> count_for name all_users = 0.
Proof.
  unfold count_for. intros Hno.
  destruct (List.find _ all_users) as [u|] eqn:Hf; [|reflexivity].
  apply List.find_some in Hf as [Hin Heq]. apply String.eqb_eq in Heq.
  exfalso. apply Hno. rewrite <- Heq. apply in_map, Hin.
Qed.

Lemma count_for_In (u : user_count) (all_users : list user_count) :
  List.NoDup (map uc_id all_users) -> In u all_users ->
  count_for (uc_id u) all_users = uc_count u.
Proof.
  unfold count_for. induction all_users as [|v l IH]; intros Hnd Hin; [destruct Hin|].
  cbn [map] in Hnd. apply List.NoDup_cons_iff in Hnd as [Hv Hnd].
  cbn [List.find]. destruct (String.eqb_spec (uc_id v) (uc_id u)) as [Heq|Hne].
  - destruct Hin as [->|Hin]; [reflexivity|].
    exfalso. apply Hv. rewrite Heq. apply in_map, Hin.
  - destruct Hin as [->|Hin]; [congruence|]. apply IH; assumption.
Qed.

Lemma percentile_in_formula (all_users : list user_count) (uname : string) :
  count_for (lower uname) all_users <> 0 ->
  percentile_in all_users uname
  = percent_of (count_of (List.filter
                  (fun v => uc_count v <? count_for (lower uname) all_users) all_users))
               (count_of all_users).
Proof.
  intros Hc. unfold percentile_in. destruct all_users as [|u l]; [contradiction|].
  destruct (Z.eqb_spec (count_for (lower uname) (u :: l)) 0) as [H0|_]; [contradiction|].
  unfold count_of at 2. cbn [length].
  destruct (Z.ltb_spec 0 (Z.of_nat (S (length l)))); [reflexivity | lia].
Qed.

Lemma percentile_in_zero (all_users : list user_count) (uname : string) :
  count_for (lower uname) all_users = 0 -> percentile_in all_users uname = 0%Q.
Proof.
  intros Hc. unfold percentile_in. destruct all_users; [reflexivity|].
  rewrite Hc. reflexivity.
Qed.

(** C6.  [get_user_percentile] works on the table of the message counts
    per user of the period, sorted by count and capped at 1000 rows: the
    rows carry the true counts, no user twice, and an author the cap left
    out has no more messages than any row.  When the period has at most
    1000 authors every author has a row, and for a user with a message in
    the period the result is the number of authors with strictly fewer
    messages, divided by the number of authors, times 100, in binary64:
    within three unit roundoffs of the exact value.  In general the count
    and the division are over the rows of the table.  The result is 0 when
    the user is not in the table, which is the case of a user without
    messages, and 0 for a user who wrote every message of the period.
    With 3, 2 and 1 messages the user with 3 gets 2/3 * 100, reported
    as 66.7. *)
Theorem percentile_counts_users_below
  (uname period : string) (now : datetime) (c : collection) :
  let matching := matches_date (get_date_filter period now) in
  let docs := List.filter matching c in
  let all_users := top_users matching c in
  let name := lower uname in
  let n := messages_of matching c name in
  let p := get_user_percentile uname period now c in
  ((length all_users <= 1000)%nat /\ List.NoDup (map uc_id all_users) /\
   (forall u, In u all_users ->
      uc_count u = messages_of matching c (uc_id u) /\ 0 < uc_count u) /\
   (forall a u, In a (authors docs) -> ~ In a (map uc_id all_users) ->
      In u all_users -> messages_of matching c a <= uc_count u)) /\
  (count_of (authors docs) <= 1000 ->
   (forall a, In a (map uc_id all_users) <-> In a (authors docs)) /\
   count_of all_users = count_of (authors docs) /\
   (0 < n -> p = percent_of (authors_below matching c n) (count_of (authors docs)))) /\
  (In name (map uc_id all_users) ->
   p = percent_of (count_of (List.filter (fun v => uc_count v <? n) all_users))
                  (count_of all_users)) /\
  (~ In name (map uc_id all_users) -> p = 0%Q) /\
  (n = 0 -> p = 0%Q) /\
  ((forall d, In d c -> matching d = true -> username d = name) -> p = 0%Q) /\
  (forall part total, 0 <= part -> 0 < total ->
     let exact := (inject_Z part / inject_Z total * 100)%Q in
     (exact * (1 - 3 * unit_roundoff) <= percent_of part total
      /\ percent_of part total <= exact * (1 + 3 * unit_roundoff))%Q) /\
  (get_user_percentile "alice" "all" 0 three_chat = percent_of 2 3 /\
   round1 (percent_of 2 3) = b64 (667 # 10) /\
   get_user_percentile "carol" "all" 0 three_chat = 0%Q).
Proof.
  intros matching docs all_users name n p.
  assert (Hin_formula : In name (map uc_id all_users) ->
            p = percent_of (count_of (List.filter (fun v => uc_count v <? n) all_users))
                           (count_of all_users)).
  { intros Hin. apply in_map_iff in Hin as (u & Hid & Hu).
    destruct (top_users_In matching c u Hu) as [Hcnt Hpos].
    assert (Hc : count_for name all_users = n).
    { rewrite <- Hid. rewrite count_for_In; [|apply top_users_NoDup | exact Hu].
      rewrite Hcnt, Hid. reflexivity. }
    unfold p, get_user_percentile. fold matching. fold all_users.
    rewrite percentile_in_formula; fold name; rewrite Hc; [reflexivity|].
    unfold n. rewrite <- Hid, <- Hcnt. lia. }
  assert (Habsent : ~ In name (map uc_id all_users) -> p = 0%Q).
  { intros Hno. apply percentile_in_zero, count_for_absent, Hno. }
  split; [|split; [|split; [|split; [|split; [|split; [|split]]]]]].
  - split; [apply top_users_length|]. split; [apply top_users_NoDup|].
    split; [intros u Hu; apply (top_users_In matching c u Hu)|].
    intros a u. apply top_users_top_set.
  - intros Hfew.
    pose proof (top_users_names_all matching c Hfew) as Hperm.
    assert (Hlen : count_of all_users = count_of (authors docs)).
    { pose proof (Permutation_length Hperm) as H. rewrite length_map in H.
      exact (f_equal Z.of_nat H). }
    split; [|split].
    + intros a. split; intros H.
      * apply (Permutation_in _ Hperm), H.
      * apply (Permutation_in _ (Permutation_sym Hperm)), H.
    + exact Hlen.
    + intros Hn.
      assert (Hin : In name (map uc_id all_users)).
      { apply (Permutation_in _ (Permutation_sym Hperm)). apply authors_In.
        unfold n, messages_of in Hn.
        destruct (docs_with username name (List.filter matching c)) as [|d r] eqn:Hd;
          [unfold count_of in Hn; cbn in Hn; lia|].
        assert (Hd' : In d (docs_with username name (List.filter matching c)))
          by (rewrite Hd; left; reflexivity).
        unfold docs_with in Hd'. apply List.filter_In in Hd' as [Hd' Hk].
        apply bool_decide_eq_true in Hk. exists d. split; assumption. }
      rewrite (Hin_formula Hin).
      exact (f_equal2 percent_of (top_users_below matching c Hfew n) Hlen).
  - exact Hin_formula.
  - exact Habsent.
  - intros Hn. apply Habsent. intros Hin. apply in_map_iff in Hin as (u & Hid & Hu).
    destruct (top_users_In matching c u Hu) as [Hcnt Hpos].
    rewrite Hid in Hcnt. fold name in Hcnt. fold n in Hcnt. lia.
  - intros Hsole.
    assert (Hids : forall u, In u all_users -> uc_id u = name).
    { intros u Hu. destruct (top_users_In matching c u Hu) as [Hcnt Hpos].
      unfold messages_of in Hcnt.
      destruct (docs_with username (uc_id u) (List.filter matching c)) as [|d r] eqn:Hd.
      - rewrite Hcnt in Hpos. unfold count_of in Hpos. cbn in Hpos. lia.
      - assert (Hin : In d (docs_with username (uc_id u) (List.filter matching c)))
          by (rewrite Hd; left; reflexivity).
        unfold docs_with in Hin. apply List.filter_In in Hin as [Hin Hk].
        apply bool_decide_eq_true in Hk. apply List.filter_In in Hin as [Hin Hm].
        rewrite <- Hk. apply Hsole; assumption. }
    pose proof (top_users_NoDup matching c) as Hnd. fold all_users in Hnd.
    unfold p, get_user_percentile. fold matching. fold all_users.
    destruct all_users as [|u [|v l]].
    + reflexivity.
    + unfold percentile_in, count_for. cbn [List.find].
      rewrite (Hids u) by (left; reflexivity). fold name. rewrite String.eqb_refl.
      destruct (uc_count u =? 0); [reflexivity|].
      cbn [List.filter]. rewrite Z.ltb_irrefl. reflexivity.
    + exfalso. cbn [map] in Hnd. apply List.NoDup_cons_iff in Hnd as [Hu _].
      apply Hu. left. rewrite (Hids u), (Hids v); [reflexivity | |]; cbn; tauto.
  - intros part total. apply percent_of_error.
  - repeat split; vm_compute; reflexivity.
Qed.

(** The theorem at three users with 3, 2 and 1 messages. *)
Lemma percentile_counts_users_below_witness :
  get_user_percentile "bob" "all" 0 three_chat = percent_of 1 3 /\
  round1 (percent_of 1 3) = b64 (333 # 10).
Proof.
  split; [|vm_compute; reflexivity].
  destruct (percentile_counts_users_below "bob" "all" 0 three_chat)
    as (_ & Hfew & _).
  destruct Hfew as (_ & _ & Hp); [vm_compute; discriminate|].
  rewrite Hp by (vm_compute; reflexivity). vm_compute. reflexivity.
Defined.

(** ** Rank delta *)

Lemma position_from_Some {A} (p : A -> bool) (l : list A) (i r : Z) :
  position_from i p l = Some r ->
  exists k x, nth_error l k = Some x /\ p x = true /\ r = i + Z.of_nat k + 1 /\
              forall j y, (j < k)%nat -> nth_error l j = Some y -> p y = false.
Proof.
  revert i. induction l as [|a l IH]; intros i H; cbn [position_from] in H.
  - discriminate.
  - destruct (p a) eqn:Hpa.
    + injection H as <-. exists 0%nat, a. repeat split; [exact Hpa | lia |].
      intros j y Hj. lia.
    + apply IH in H as (k & x & Hk & Hx & Hr & Hbefore).
      exists (S k), x. repeat split; [exact Hk | exact Hx | lia |].
      intros [|j] y Hj Hy; cbn in Hy.
      * injection Hy as <-. exact Hpa.
      * apply (Hbefore j); [lia | exact Hy].
Qed.

Lemma position_from_None {A} (p : A -> bool) (l : list A) (i : Z) :
  position_from i p l = None <-> forall x, In x l -> p x = false.
Proof.
  revert i. induction l as [|a l IH]; intros i; cbn [position_from].
  - split; [intros _ x [] | reflexivity].
  - destruct (p a) eqn:Hpa.
    + split; [discriminate|]. intros H. specialize (H a (or_introl eq_refl)). congruence.
    + rewrite IH. split.
      * intros H x [<-|Hx]; [exact Hpa | apply H, Hx].
      * intros H x Hx. apply H. right. exact Hx.
Qed.

Lemma rank_from_position (name : string) (table : list user_count) (i : Z) :
  position_from i (fun u => String.eqb (uc_id u) name) table
  = rank_from (i + 1) name table.
Proof.
  revert i. induction table as [|u rest IH]; intros i; cbn [position_from rank_from].
  - reflexivity.
  - destruct (String.eqb (uc_id u) name); [reflexivity | apply IH].
Qed.

Lemma rank_in_position (name : string) (table : list user_count) :
  position (fun u => String.eqb (uc_id u) name) table = rank_in name table.
Proof. apply rank_from_position. Qed.

Lemma in_previous_week_window (now : datetime) (c : collection) :
  List.filter (in_previous_week now) c = List.filter (in_days_14_to_7 now) c.
Proof.
  apply List.filter_ext. intros d.
  unfold in_previous_week, in_days_14_to_7, days, seconds.
  replace (14 * 86400 * 1000000) with (14 * 86400 * 1000000 + 0) by lia.
  f_equal; f_equal; lia.
Qed.

Lemma in_current_week_window (now : datetime) (c : collection) :
  List.filter (in_current_week now) c = List.filter (in_latest_7_days now) c.
Proof.
  apply List.filter_ext. intros d.
  unfold in_current_week, in_latest_7_days, days, seconds. f_equal; try lia.
Qed.

Lemma top_users_ext (p q : doc -> bool) (c : collection) :
  List.filter p c = List.filter q c -> top_users p c = top_users q c.
Proof. intros H. unfold top_users. rewrite H. reflexivity. Qed.

(** C3, as stated, fails: at day 20 a user whose only message is ten days
    old is in no row of the latest 7-day table, yet for the period [all]
    the rank delta is present, and equal to 0. *)
Lemma rank_delta_uses_period_table :
  let clk := {| rk_now_filter := days 20; rk_now_change := days 20;
                rk_now_rising := days 20 |} in
  rank_in "alice" (latest_week_table (days 20) old_chat) = None /\
  rank_in "alice" (prior_week_table (days 20) old_chat) = Some 1 /\
  week_over_week_delta "alice" (days 20) old_chat = None /\
  top_rank_change (get_user_rankings "alice" "all" clk old_chat) = Some 0.
Proof. cbv zeta. repeat split; vm_compute; reflexivity. Qed.

(** C3, amended.  The rank delta is the rank in the capped table of the
    window from 14 days to 7 days before now, the older bound included and
    the newer one not, minus [top_rank], the rank in the capped table of
    the requested period; that table is the one of the latest 7 days when
    the period is [week].  A rank is the 1-based place of the user's row.  A
    positive delta means the rank number went down.  The delta is absent
    exactly when the user is missing from one of these two tables.  At day
    20, a user second in the week before and first in the current week gets
    +1 for the period [week], and the other user -1. *)
Theorem rank_delta_prior_week_minus_period_rank
  (uname period : string) (clk : rankings_clock) (c : collection) :
  let r := get_user_rankings uname period clk c in
  let name := lower uname in
  let now_rank := rank_in name (period_table period (rk_now_filter clk) c) in
  let prior_rank := rank_in name (prior_week_table (rk_now_change clk) c) in
  top_rank r = now_rank /\
  (forall t p, now_rank = Some t -> prior_rank = Some p ->
     top_rank_change r = Some (p - t) /\ (0 < p - t <-> t < p)) /\
  (top_rank_change r = None <-> now_rank = None \/ prior_rank = None) /\
  (now_rank = None <->
     ~ In name (map uc_id (period_table period (rk_now_filter clk) c))) /\
  (prior_rank = None <->
     ~ In name (map uc_id (prior_week_table (rk_now_change clk) c))) /\
  (forall now, period_table "week" now c = latest_week_table now c) /\
  (forall table t, rank_in name table = Some t ->
     1 <= t /\
     (exists u, nth_error table (Z.to_nat (t - 1)) = Some u /\ uc_id u = name) /\
     (forall j v, (j < Z.to_nat (t - 1))%nat -> nth_error table j = Some v ->
                  uc_id v <> name)) /\
  (let clk20 := {| rk_now_filter := days 20; rk_now_change := days 20;
                   rk_now_rising := days 20 |} in
   map uc_id (prior_week_table (days 20) swap_chat) = ["bob"; "alice"]%string /\
   map uc_id (latest_week_table (days 20) swap_chat) = ["alice"; "bob"]%string /\
   top_rank_change (get_user_rankings "alice" "week" clk20 swap_chat) = Some 1 /\
   top_rank_change (get_user_rankings "bob" "week" clk20 swap_chat) = Some (-1)).
Proof.
  intros r name now_rank prior_rank.
  assert (Habsent : forall table,
            rank_in name table = None <-> ~ In name (map uc_id table)).
  { intros table. rewrite <- rank_in_position. unfold position.
    rewrite position_from_None. split.
    - intros H Hin. apply in_map_iff in Hin as (u & Hu & Hin).
      specialize (H u Hin). apply String.eqb_neq in H. contradiction.
    - intros H u Hu. apply String.eqb_neq. intros Heq. apply H.
      rewrite <- Heq. apply in_map, Hu. }
  assert (Htop : top_rank r = now_rank).
  { unfold r, get_user_rankings, now_rank, period_table. cbn [top_rank].
    apply rank_in_position. }
  assert (Hchange : top_rank_change r = rank_change now_rank prior_rank).
  { unfold r, get_user_rankings, now_rank, prior_rank, period_table, prior_week_table.
    cbn [top_rank_change]. fold name. rewrite !rank_in_position.
    rewrite (top_users_ext _ _ c (in_previous_week_window (rk_now_change clk) c)).
    reflexivity. }
  split; [exact Htop|]. split; [|split; [|split; [|split; [|split; [|split]]]]].
  - intros t p Ht Hp. split; [|lia]. rewrite Hchange, Ht, Hp. reflexivity.
  - rewrite Hchange.
    destruct now_rank, prior_rank; cbn [rank_change]; split; intros H;
      try discriminate; try reflexivity; try tauto;
      destruct H; discriminate.
  - apply Habsent.
  - apply Habsent.
  - intros now. unfold period_table, latest_week_table. apply top_users_ext.
    apply List.filter_ext. intros d.
    unfold get_date_filter, matches_date, in_latest_7_days, weeks, days, seconds.
    cbn [String.eqb Ascii.eqb Bool.eqb]. f_equal; try lia.
  - intros table t Ht. rewrite <- rank_in_position in Ht. unfold position in Ht.
    apply position_from_Some in Ht as (k & x & Hk & Hx & -> & Hbefore).
    apply String.eqb_eq in Hx.
    replace (Z.to_nat (0 + Z.of_nat k + 1 - 1)) with k by lia.
    split; [lia|]. split; [exists x; split; assumption|].
    intros j v Hj Hv. apply String.eqb_neq. apply (Hbefore j v Hj Hv).
  - cbv zeta. repeat split; vm_compute; reflexivity.
Qed.

(** The theorem at two users who swap ranks. *)
Lemma rank_delta_prior_week_minus_period_rank_witness :
  let clk := {| rk_now_filter := days 20; rk_now_change := days 20;
                rk_now_rising := days 20 |} in
  top_rank_change (get_user_rankings "alice" "week" clk swap_chat) = Some (2 - 1).
Proof.
  cbv zeta.
  refine (proj1 (proj1 (proj2 (rank_delta_prior_week_minus_period_rank
            "alice" "week" _ swap_chat)) 1 2 _ _)); vm_compute; reflexivity.
Defined.

(** ** Growth *)


Lemma current_map_of_acc (current : list current_row)
  (acc : list (string * current_row)) :
  List.NoDup (map fst acc ++ map cur_id current) ->
  fold_left (fun m u => odict_set m (cur_id u) u) current acc
  = acc ++ map (fun u => (cur_id u, u)) current.
Proof.
  revert acc. induction current as [|u l IH]; intros acc Hnd; cbn [fold_left map].
  - rewrite app_nil_r. reflexivity.
  - cbn [map] in Hnd. rewrite odict_set_new.
    + rewrite IH.
      * rewrite <- app_assoc. reflexivity.
      * rewrite map_app. cbn [map fst]. rewrite <- app_assoc. exact Hnd.
    + apply List.NoDup_remove_2 in Hnd. intros Hin. apply Hnd.
      apply in_or_app. left. exact Hin.
Qed.

Lemma current_map_of_rows (current : list current_row) :
  List.NoDup (map cur_id current) ->
  current_map_of current = map (fun u => (cur_id u, u)) current.
Proof. intros Hnd. unfold current_map_of. rewrite current_map_of_acc; [reflexivity | exact Hnd]. Qed.

Lemma current_facet_NoDup (now : datetime) (c : collection) :
  List.NoDup (map cur_id (current_facet now c)).
Proof.
  unfold current_facet. rewrite map_map. cbn [cur_id]. apply group_by_keys_NoDup.
Qed.

Lemma current_facet_count (now : datetime) (c : collection) (row : current_row) :
  In row (current_facet now c) ->
  cur_count row = current_week_count (cur_id row) now c.
Proof.
  unfold current_facet, current_week_count. rewrite in_current_week_window.
  intros Hin. apply in_map_iff in Hin as ([k ds] & <- & Hin).
  apply group_by_In in Hin as [-> _]. reflexivity.
Qed.

Lemma previous_map_get (now : datetime) (c : collection) (name : string) :
  dict_get (dict_of (map (fun u => (uc_id u, uc_count u)) (previous_facet now c)))
           name 0
  = previous_week_count name now c.
Proof.
  unfold dict_get, previous_week_count, previous_facet. rewrite map_map. cbn [uc_id uc_count].
  rewrite in_previous_week_window.
  set (groups := group_by username (List.filter (in_days_14_to_7 now) c)).
  set (items := map (fun g : string * list doc => (fst g, count_of (snd g))) groups).
  assert (Hkeys : map fst items = map fst groups)
    by (unfold items; rewrite map_map; reflexivity).
  destruct (docs_with username name (List.filter (in_days_14_to_7 now) c))
    as [|d r] eqn:Hd.
  - rewrite dict_of_lookup_None; [reflexivity|].
    rewrite Hkeys. intros Hin. apply in_map_iff in Hin as ([k ds] & Hk & Hin).
    cbn in Hk. subst k. apply group_by_In in Hin as [-> Hne]. congruence.
  - rewrite (dict_of_lookup_In items name (count_of (d :: r))); [reflexivity | |].
    + rewrite Hkeys. apply group_by_keys_NoDup.
    + unfold items. apply in_map_iff. exists (name, d :: r). split; [reflexivity|].
      apply group_by_In. split; [congruence | discriminate].
Qed.




(** ** Histograms *)

Lemma get_peak_hours_returns (ha : list HourlyActivity) :
  length ha = 24%nat -> exists l, get_peak_hours ha = Returns l.
Proof.
  intros Hlen. unfold get_peak_hours. destruct ha as [|h0 rest]; [discriminate|].
  rewrite (peak_loop_fold (map h_count (h0 :: rest))).
  - cbn [bind]. destruct (peak_fold _ _ _) as [bs bst].
    destruct (bs =? 0); eexists; reflexivity.
  - rewrite length_map. exact Hlen.
  - unfold range. apply List.Forall_forall. intros s Hs.
    apply in_map_iff in Hs as (k & <- & Hk). apply in_seq in Hk. lia.
Qed.

Lemma get_user_stats_fields
  (uname period : string) (io : stats_io) (g : emote_globals) (c : collection) :
  let matched :=
    List.filter (user_in_period uname (get_date_filter period (st_now_filter io))) c in
  matched <> [] ->
  exists stats g',
    get_user_stats uname period io g c = (Returns (Some stats), g') /\
    hourly_activity stats = histogram (hourly_rows matched) /\
    total_messages stats = count_of matched /\
    recent_messages stats
    = map (fun d => {| rm_message := message d; rm_timestamp := timestamp d |})
          (recent_docs_of uname c).
Proof.
  intros matched Hm. unfold get_user_stats. fold matched.
  destruct (Z.eqb_spec (count_of matched) 0) as [H0|_].
  { destruct matched; [congruence|]. unfold count_of in H0. cbn in H0. lia. }
  destruct (get_peak_hours_returns (histogram (hourly_rows matched))
              (histogram_length _)) as [peak ->].
  destruct (get_user_top_emotes uname 10 (st_now_emotes io) (st_emote_io io) g c)
    as [emotes g'].
  eexists. exists g'. split; [reflexivity|].
  cbn [hourly_activity total_messages recent_messages]. repeat split.
Qed.

(** C8, as stated, fails: for a user without messages [get_user_stats]
    builds no histogram at all, it returns [None]. *)
Lemma no_histogram_without_messages :
  get_user_stats "alice" "all" sample_io no_cache [] = (Returns None, no_cache) /\
  ~ (forall uname period io g c,
       exists stats, fst (get_user_stats uname period io g c) = Returns (Some stats)
                     /\ length (hourly_activity stats) = 24%nat).
Proof.
  split; [reflexivity|].
  intros H. destruct (H "alice"%string "all"%string sample_io no_cache [])
    as (stats & Hs & _).
  discriminate Hs.
Qed.

(** C8, amended.  On a collection whose hours are hours of the day:
    [get_user_stats] returns [None] when no message of the user lies in the
    period, and otherwise a result whose histogram has the 24 bins of the
    hours 0 to 23 in order, bin [h] counting the matching messages written
    at hour [h], the bins adding up to [total_messages], the number of
    matching messages; [get_overall_hourly_activity] returns such 24 bins
    for every collection, the empty one included, and their sum, which it
    reports as the total, is the number of documents. *)
Theorem histogram_24_bins_sum_to_total
  (uname period : string) (io : stats_io) (g : emote_globals) (c : collection) :
  valid_hours c ->
  let matched :=
    List.filter (user_in_period uname (get_date_filter period (st_now_filter io))) c in
  (matched = [] -> get_user_stats uname period io g c = (Returns None, g)) /\
  (matched <> [] ->
   exists stats g',
     get_user_stats uname period io g c = (Returns (Some stats), g') /\
     map h_hour (hourly_activity stats) = range 24 /\
     map h_count (hourly_activity stats)
     = map (fun h => count_at_hour h matched) (range 24) /\
     sum_Z (map h_count (hourly_activity stats)) = total_messages stats /\
     total_messages stats = count_of matched) /\
  (let '(activity, total, _, _) := get_overall_hourly_activity c in
   map h_hour activity = range 24 /\
   map h_count activity = map (fun h => count_at_hour h c) (range 24) /\
   total = sum_Z (map h_count activity) /\
   total = count_of c) /\
  fst (fst (fst (get_overall_hourly_activity []))) 
  = map (fun h => {| h_hour := h; h_count := 0 |}) (range 24).
Proof.
  intros Hv matched. split; [|split; [|split]].
  - intros Hm. unfold get_user_stats. fold matched. rewrite Hm. reflexivity.
  - intros Hm.
    destruct (get_user_stats_fields uname period io g c Hm)
      as (stats & g' & Hrun & Hh & Ht & _).
    exists stats, g'. split; [exact Hrun|]. rewrite Hh, Ht.
    split; [apply histogram_hours|]. split; [apply histogram_counts|].
    split; [|reflexivity].
    rewrite histogram_counts. apply sum_count_at_hour, valid_hours_filter, Hv.
  - unfold get_overall_hourly_activity.
    rewrite (limit_all 24) by (pose proof (hourly_rows_length c Hv); lia).
    destruct (peak_of (histogram (hourly_rows c))) as [peak_hour peak_count].
    split; [apply histogram_hours|]. split; [apply histogram_counts|].
    split; [reflexivity|].
    rewrite histogram_counts. apply sum_count_at_hour, Hv.
  - vm_compute. reflexivity.
Qed.

(** The theorem at a chat with a single message. *)
Lemma histogram_24_bins_sum_to_total_witness :
  exists stats g',
    get_user_stats "alice" "all" sample_io no_cache solo_chat
    = (Returns (Some stats), g') /\
    sum_Z (map h_count (hourly_activity stats)) = 1.
Proof.
  assert (Hv : valid_hours solo_chat).
  { constructor; [cbn; lia | constructor]. }
  destruct (proj1 (proj2 (histogram_24_bins_sum_to_total
              "alice" "all" sample_io no_cache solo_chat Hv)))
    as (stats & g' & Hrun & _ & _ & Hsum & Htotal).
  - discriminate.
  - exists stats, g'. split; [exact Hrun|]. rewrite Hsum, Htotal. reflexivity.
Defined.

(** ** Recent messages *)

(** C10.  Whenever [get_user_stats] has a result, for any period, its
    recent_messages are the first ten of all messages of the user, whatever
    their age, sorted by timestamp with the newest first; so with the
    period [day] an entry can be older than the window, as the message of
    day 2 is at day 20. *)
Theorem recent_messages_ignore_period
  (uname period : string) (io : stats_io) (g : emote_globals) (c : collection) :
  List.filter (user_in_period uname (get_date_filter period (st_now_filter io))) c
  <> [] ->
  exists stats g' newest_first,
    get_user_stats uname period io g c = (Returns (Some stats), g') /\
    Permutation newest_first
      (List.filter (fun d => String.eqb (username d) (lower uname)) c) /\
    (forall i j x y, (i < j)%nat ->
       nth_error newest_first i = Some x -> nth_error newest_first j = Some y ->
       timestamp y <= timestamp x) /\
    recent_messages stats
    = map (fun d => {| rm_message := message d; rm_timestamp := timestamp d |})
          (firstn 10 newest_first) /\
    (length (recent_messages stats) <= 10)%nat.
Proof.
  intros Hm.
  destruct (get_user_stats_fields uname period io g c Hm)
    as (stats & g' & Hrun & _ & _ & Hrecent).
  exists stats, g',
    (sort_desc timestamp (find (fun d => String.eqb (username d) (lower uname)) c)).
  split; [exact Hrun|]. split; [apply sort_by_perm|]. split.
  - intros i j x y. apply sort_desc_ordered.
  - rewrite Hrecent. unfold recent_docs_of. rewrite limit_limit.
    split; [reflexivity|]. rewrite length_map. apply (limit_length 10).
Qed.

(** The theorem at day 20 with the period [day]: the message of day 2 is
    listed although the window starts at day 19. *)
Lemma recent_messages_ignore_period_witness :
  exists stats g',
    get_user_stats "alice" "day" sample_io no_cache sparse_chat
    = (Returns (Some stats), g') /\
    get_date_filter "day" (st_now_filter sample_io) = Some (days 19) /\
    In {| rm_message := "old"; rm_timestamp := days 2 |} (recent_messages stats).
Proof.
  destruct (recent_messages_ignore_period "alice" "day" sample_io no_cache sparse_chat)
    as (stats & g' & l & Hrun & Hperm & Hsorted & Hrecent & _).
  - vm_compute. discriminate.
  - exists stats, g'. split; [exact Hrun|]. split; [reflexivity|].
    rewrite Hrecent.
    assert (Hlen : length l = 2%nat) by (apply Permutation_length in Hperm; exact Hperm).
    rewrite firstn_all2 by lia.
    apply (in_map (fun d => {| rm_message := message d; rm_timestamp := timestamp d |})
                  l (msg "alice" "old" (days 2) 9)).
    apply (Permutation_in _ (Permutation_sym Hperm)). left. reflexivity.
Defined.

(** ** Reply credits *)


Lemma odict_get_set {V} (d : list (string * V)) (k k' : string) (v : V) :
  odict_get (odict_set d k v) k'
  = if String.eqb k' k then Some v else odict_get d k'.
Proof.
  induction d as [|[k0 v0] d IH]; cbn [odict_set odict_get].
  - destruct (String.eqb k' k); reflexivity.
  - destruct (String.eqb_spec k k0) as [->|Hne]; cbn [odict_get].
    + destruct (String.eqb k' k0); reflexivity.
    + rewrite IH. destruct (String.eqb_spec k' k0) as [->|Hne'].
      * destruct (String.eqb_spec k0 k); [congruence | reflexivity].
      * reflexivity.
Qed.





Lemma odict_set_NoDup {V} (d : list (string * V)) (k : string) (v : V) :
  List.NoDup (map fst d) -> List.NoDup (map fst (odict_set d k v)).
Proof.
  intros Hnd. destruct (In_key_dec k (map fst d)) as [Hin|Hno].
  - assert (Hkeys : map fst (odict_set d k v) = map fst d); [|rewrite Hkeys; exact Hnd].
    clear Hnd. induction d as [|[k0 v0] d IH]; [destruct Hin|].
    cbn [odict_set]. destruct (String.eqb_spec k k0) as [->|Hne]; [reflexivity|].
    cbn [map fst]. rewrite IH; [reflexivity|].
    destruct Hin as [Heq|Hin]; [cbn in Heq; congruence | exact Hin].
  - rewrite odict_set_new by exact Hno. rewrite map_app.
    apply List.NoDup_app; repeat split.
    + exact Hnd.
    + constructor; [intros [] | constructor].
    + intros k' Hk' [<-|[]]. contradiction.
Qed.

Lemma odict_get_In {V} (d : list (string * V)) (k : string) (v : V) :
  List.NoDup (map fst d) -> In (k, v) d -> odict_get d k = Some v.
Proof.
  induction d as [|[k0 v0] d IH]; intros Hnd Hin; [destruct Hin|].
  cbn [map fst] in Hnd. apply List.NoDup_cons_iff in Hnd as [Hk0 Hnd].
  cbn [odict_get]. destruct (String.eqb_spec k k0) as [->|Hne].
  - destruct Hin as [Heq|Hin]; [congruence|].
    exfalso. apply Hk0. apply (in_map fst) in Hin. exact Hin.
  - destruct Hin as [Heq|Hin]; [congruence|]. apply IH; assumption.
Qed.

Lemma credit_NoDup (rc : list (string * (string * Z))) (prev : doc) :
  List.NoDup (map fst rc) -> List.NoDup (map fst (credit rc prev)).
Proof.
  intros Hnd. unfold credit.
  destruct (odict_get rc (username prev)) as [data|] eqn:Hget.
  - rewrite Hget. apply odict_set_NoDup, Hnd.
  - rewrite odict_get_set, String.eqb_refl. do 2 apply odict_set_NoDup. exact Hnd.
Qed.

Lemma reply_counts_NoDup (uname : string) (msgs : list doc) (c : collection) :
  List.NoDup (map fst (reply_counts_of uname msgs c)).
Proof.
  unfold reply_counts_of.
  assert (Hgen : forall rc, List.NoDup (map fst rc) ->
            List.NoDup (map fst (fold_left
              (fun rc m => fold_left credit (previous_messages (lower uname) m c) rc)
              msgs rc))).
  { induction msgs as [|m msgs IH]; intros rc Hnd; cbn [fold_left]; [exact Hnd|].
    apply IH. generalize (previous_messages (lower uname) m c). intros prevs.
    revert rc Hnd. induction prevs as [|p prevs IHp]; intros rc Hnd; cbn [fold_left].
    - exact Hnd.
    - apply IHp, credit_NoDup, Hnd. }
  apply Hgen. constructor.
Qed.





(** ** Rival *)

Lemma rival_in_zero (pool : list pattern_row) (uname : string)
  (hourly_pattern : list HourlyActivity) :
  sum_squares (map h_count hourly_pattern) = 0 ->
  rival_in pool uname hourly_pattern = None.
Proof.
  intros Hz. unfold rival_in. destruct pool; [reflexivity|].
  apply magnitude_zero in Hz. rewrite Hz. reflexivity.
Qed.

Lemma rival_in_fold (pool : list pattern_row) (uname : string)
  (hourly_pattern : list HourlyActivity) :
  sum_squares (map h_count hourly_pattern) <> 0 ->
  rival_in pool uname hourly_pattern
  = fst (fold_left (best_step (map h_count hourly_pattern))
                   (candidates (lower uname) pool) (None, (-1)%Q)).
Proof.
  intros Hnz. unfold rival_in. destruct pool as [|row pool]; [reflexivity|].
  destruct (Qeq_bool (magnitude (map h_count hourly_pattern)) 0) eqn:Hz.
  - apply magnitude_zero in Hz. contradiction.
  - rewrite fold_rival_step. reflexivity.
Qed.

Lemma candidates_In (username_lower : string) (pool : list pattern_row)
  (x : pattern_row) :
  In x (candidates username_lower pool) <->
  In x pool /\ pr_id x <> username_lower /\ sum_squares (other_vector x) <> 0.
Proof.
  unfold candidates, is_candidate. rewrite List.filter_In, andb_true_iff.
  rewrite !negb_true_iff, String.eqb_neq, Z.eqb_neq. tauto.
Qed.

(** C7, as stated, fails on ties.  In [tie_chat] the rows of [bob] and
    [carol] have the same cosine with the histogram of [alice], 1 / sqrt 3,
    and [bob] comes first in the pool; in binary64 the similarity of [bob] is
    57.735026918962575 and that of [carol] 57.73502691896258, so the rival
    is [carol]. *)
Lemma rival_tie_broken_by_rounding :
  let u := map h_count tie_pattern in
  let pool := rival_pool (matches_date (get_date_filter "all" (seconds 100)))
                         tie_chat in
  let cands := candidates "alice" pool in
  u = hour_vector "alice" tie_chat /\
  map pr_id pool = ["bob"; "alice"; "carol"]%string /\
  cands = [bob_row; carol_row] /\
  first_highest_cosine u cands bob_row /\
  score u bob_row = (2031370669675511 # 35184372088832)%Q /\
  score u carol_row = (8125482678702045 # 140737488355328)%Q /\
  (score u bob_row < score u carol_row)%Q /\
  get_rival "alice" tie_pattern "all" (seconds 100) tie_chat
  = Some {| rv_username := "carol"; rv_display_name := "carol";
            similarity_score := b64 (577 # 10) |}.
Proof.
  cbv zeta. split; [vm_compute; reflexivity|]. split; [vm_compute; reflexivity|].
  split; [vm_compute; reflexivity|]. split.
  - exists [], [carol_row]. split; [vm_compute; reflexivity|]. split.
    + intros x [].
    + intros x [<-|[]]. vm_compute. discriminate.
  - split; [vm_compute; reflexivity|]. split; [vm_compute; reflexivity|].
    split; vm_compute; reflexivity.
Qed.



(** * Properties of the remaining operations *)

(** ** Ranked lists *)

Lemma combine_seq_nth_error {A} (l : list A) (a i : nat) :
  nth_error (combine (map Z.of_nat (seq a (length l))) l) i
  = option_map (fun x => (Z.of_nat (a + i), x)) (nth_error l i).
Proof.
  revert a i. induction l as [|x l IH]; intros a i; cbn [length seq map combine].
  - destruct i; reflexivity.
  - destruct i as [|i]; cbn [nth_error option_map].
    + rewrite Nat.add_0_r. reflexivity.
    + rewrite IH. replace (S a + i)%nat with (a + S i)%nat by lia. reflexivity.
Qed.

Lemma enumerate_nth_error {A} (l : list A) (i : nat) :
  nth_error (enumerate l) i = option_map (fun x => (Z.of_nat i, x)) (nth_error l i).
Proof. unfold enumerate, range. apply (combine_seq_nth_error l 0 i). Qed.

Lemma enumerate_length {A} (l : list A) : length (enumerate l) = length l.
Proof.
  unfold enumerate, range. rewrite length_combine, length_map, length_seq.
  apply Nat.min_id.
Qed.

Lemma enumerate_snd {A} (l : list A) : map snd (enumerate l) = l.
Proof.
  unfold enumerate, range. generalize 0%nat.
  induction l as [|x l IH]; intros a; cbn [length seq map combine snd].
  - reflexivity.
  - rewrite IH. reflexivity.
Qed.

(** An entry of a list built as [[f(i, x) for i, x in enumerate(l)]]. *)
Lemma ranked_nth_error {A B} (f : Z * A -> B) (l : list A) (i : nat) (e : B) :
  nth_error (map f (enumerate l)) i = Some e ->
  exists x, nth_error l i = Some x /\ e = f (Z.of_nat i, x).
Proof.
  rewrite nth_error_map, enumerate_nth_error.
  destruct (nth_error l i) as [x|]; cbn [option_map]; [|discriminate].
  intros H. injection H as <-. exists x. split; reflexivity.
Qed.

Lemma sum_Z_perm (l l' : list Z) : Permutation l l' -> sum_Z l = sum_Z l'.
Proof.
  induction 1 as [|x l l' _ IH|x y l|l l' l'' _ IH1 _ IH2].
  - reflexivity.
  - rewrite !sum_Z_cons, IH. reflexivity.
  - rewrite !sum_Z_cons. lia.
  - congruence.
Qed.

Lemma sum_Z_firstn_le (n : nat) (l : list Z) :
  List.Forall (fun x => 0 <= x) l -> sum_Z (firstn n l) <= sum_Z l.
Proof.
  intros Hl. rewrite <- (firstn_skipn n l) at 2. rewrite sum_Z_app.
  assert (0 <= sum_Z (skipn n l)); [|lia].
  apply sum_Z_nonneg. apply List.Forall_forall. intros x Hx.
  rewrite List.Forall_forall in Hl. apply Hl.
  rewrite <- (firstn_skipn n l). apply in_or_app. right. exact Hx.
Qed.

(** ** Groups *)


Lemma add_to_set_spec (s : list string) (x : string) :
  add_to_set s x = if In_key_dec x s then s else s ++ [x].
Proof.
  unfold add_to_set. destruct (existsb (String.eqb x) s) eqn:He.
  - apply existsb_exists in He as (y & Hy & Heq). apply String.eqb_eq in Heq. subst y.
    destruct (In_key_dec x s); [reflexivity | contradiction].
  - destruct (In_key_dec x s) as [Hin|_]; [|reflexivity].
    assert (Ht : existsb (String.eqb x) s = true); [|congruence].
    apply existsb_exists. exists x. split; [exact Hin | apply String.eqb_refl].
Qed.

(** [$addToSet] collects the keys of the groups of [$group]. *)
Lemma set_of_group_keys {A} (key : A -> string) (l : list A) :
  set_of (map key l) = map fst (group_by key l).
Proof.
  induction l as [|d l IH] using rev_ind.
  - reflexivity.
  - rewrite map_app, group_by_snoc. unfold set_of in *. rewrite fold_left_app.
    cbn [map fold_left]. rewrite IH, add_to_set_spec.
    destruct (In_key_dec (key d) (map fst (group_by key l))) as [Hin|Hno].
    + rewrite add_to_group_keys_old by exact Hin. reflexivity.
    + rewrite add_to_group_keys_new by exact Hno. reflexivity.
Qed.

(** ** The rows of [$group] by username *)

Lemma user_rows_NoDup (docs : list doc) : List.NoDup (map cur_id (user_rows docs)).
Proof.
  unfold user_rows. rewrite map_map. cbn [cur_id]. apply group_by_keys_NoDup.
Qed.

Lemma user_rows_In (docs : list doc) (row : current_row) :
  In row (user_rows docs) ->
  cur_count row = count_of (docs_with username (cur_id row) docs) /\
  0 < cur_count row.
Proof.
  unfold user_rows. intros Hin. apply in_map_iff in Hin as ([k ds] & <- & Hin).
  apply group_by_In in Hin as [-> Hne]. cbn [cur_id cur_count fst snd].
  split; [reflexivity|]. unfold count_of.
  destruct (docs_with username k docs); [congruence | cbn [length]; lia].
Qed.

Lemma user_rows_names (docs : list doc) (name : string) :
  In name (map cur_id (user_rows docs)) <-> exists d, In d docs /\ username d = name.
Proof.
  unfold user_rows. rewrite map_map. cbn [cur_id]. apply group_by_key_In.
Qed.

Lemma user_rows_counts (docs : list doc) :
  sum_Z (map cur_count (user_rows docs)) = count_of docs.
Proof.
  unfold user_rows. rewrite map_map. cbn [cur_count]. apply group_by_sizes.
Qed.

(** ** Leaderboard *)

(** X1.  The leaderboard has at most [lim] entries, numbered 1, 2, ... in
    order; each carries the number of messages of its user in the period,
    which is positive; the counts never increase down the list and no user
    appears twice.  [total_messages] is the number of messages of the
    period and [total_users] the number of users who wrote them, also when
    more users exist than entries are shown; the listed counts add up to at
    most [total_messages], and to exactly that when every user is
    listed. *)
Theorem leaderboard_ranks_and_totals
  (period : string) (lim : Z) (now : datetime) (c : collection) :
  0 <= lim ->
  let r := get_leaderboard period lim now c in
  let matching := matches_date (get_date_filter period now) in
  Z.of_nat (length (lr_leaderboard r)) <= lim /\
  (forall i e, nth_error (lr_leaderboard r) i = Some e ->
     lb_rank e = Z.of_nat i + 1 /\
     lb_message_count e = messages_of matching c (lb_username e) /\
     0 < lb_message_count e) /\
  (forall i j e e', (i < j)%nat ->
     nth_error (lr_leaderboard r) i = Some e ->
     nth_error (lr_leaderboard r) j = Some e' ->
     lb_message_count e' <= lb_message_count e /\ lb_username e <> lb_username e') /\
  lr_total_messages r = count_of (List.filter matching c) /\
  (exists names, List.NoDup names /\
     (forall n, In n names <-> exists d, In d c /\ matching d = true /\ username d = n) /\
     lr_total_users r = count_of names) /\
  sum_Z (map lb_message_count (lr_leaderboard r)) <= lr_total_messages r /\
  (lr_total_users r <= lim ->
   sum_Z (map lb_message_count (lr_leaderboard r)) = lr_total_messages r).
Proof.
  intros Hlim r matching.
  set (matched := List.filter matching c).
  set (sorted := sort_desc cur_count (user_rows matched)).
  set (results := limit lim (limit lim sorted)).
  assert (Hr : lr_leaderboard r = map leaderboard_entry (enumerate results)).
  { unfold r, get_leaderboard. fold matching. fold matched.
    destruct (leaderboard_totals matched). reflexivity. }
  assert (Htot : lr_total_messages r = count_of matched /\
                 lr_total_users r = count_of (map fst (group_by username matched))).
  { unfold r, get_leaderboard. fold matching. fold matched.
    unfold leaderboard_totals. rewrite set_of_group_keys.
    destruct matched; split; reflexivity. }
  destruct Htot as [Htm Htu].
  assert (Hperm : Permutation sorted (user_rows matched)) by apply sort_by_perm.
  assert (Hres : forall i row, nth_error results i = Some row ->
                   nth_error sorted i = Some row).
  { intros i row H. do 2 apply limit_nth_error in H. exact H. }
  assert (Hin : forall i row, nth_error results i = Some row -> In row (user_rows matched)).
  { intros i row H. apply Hres in H. apply nth_error_In in H.
    apply (Permutation_in _ Hperm), H. }
  assert (Hsum : sum_Z (map lb_message_count (lr_leaderboard r))
                 = sum_Z (map cur_count results)).
  { rewrite Hr, map_map.
    change (fun x => lb_message_count (leaderboard_entry x))
      with (fun ie : Z * current_row => cur_count (snd ie)).
    rewrite <- (map_map snd cur_count), enumerate_snd. reflexivity. }
  assert (Hall : sum_Z (map cur_count sorted) = count_of matched).
  { rewrite (sum_Z_perm _ _ (Permutation_map cur_count Hperm)). apply user_rows_counts. }
  split; [|split; [|split; [|split; [|split; [|split]]]]].
  - rewrite Hr, length_map, enumerate_length. apply limit_length_Z, Hlim.
  - intros i e He. rewrite Hr in He. apply ranked_nth_error in He as (row & Hrow & ->).
    cbn [leaderboard_entry lb_rank lb_message_count lb_username fst snd].
    split; [reflexivity|]. apply (user_rows_In matched), (Hin i), Hrow.
  - intros i j e e' Hij He He'. rewrite Hr in He, He'.
    apply ranked_nth_error in He as (row & Hrow & ->).
    apply ranked_nth_error in He' as (row' & Hrow' & ->).
    cbn [leaderboard_entry lb_message_count lb_username fst snd]. split.
    + exact (sort_desc_ordered cur_count _ i j row row' Hij (Hres _ _ Hrow) (Hres _ _ Hrow')).
    + apply (NoDup_nth_error_neq cur_id sorted i j); [| lia | apply Hres, Hrow | apply Hres, Hrow'].
      eapply Permutation_NoDup; [apply Permutation_map; symmetry; exact Hperm|].
      apply user_rows_NoDup.
  - exact Htm.
  - exists (map fst (group_by username matched)). split; [apply group_by_keys_NoDup|].
    split; [|exact Htu].
    intros n. rewrite group_by_key_In. split.
    + intros (d & Hd & Hn). apply List.filter_In in Hd as [Hd Hm]. exists d. tauto.
    + intros (d & Hd & Hm & Hn). exists d. split; [|exact Hn].
      apply List.filter_In. tauto.
  - rewrite Hsum, Htm, <- Hall. unfold results. rewrite limit_limit. unfold limit.
    rewrite <- firstn_map. apply sum_Z_firstn_le.
    apply List.Forall_forall. intros x Hx. apply in_map_iff in Hx as (row & <- & Hrow).
    apply (Permutation_in _ Hperm) in Hrow. apply user_rows_In in Hrow. lia.
  - intros Hfew. rewrite Hsum, Htm, <- Hall. f_equal. f_equal.
    unfold results. rewrite limit_limit. apply limit_all.
    unfold sorted, sort_desc. rewrite sort_by_length.
    unfold user_rows. rewrite length_map. rewrite Htu in Hfew.
    unfold count_of in Hfew. rewrite length_map in Hfew. exact Hfew.
Qed.

(** The theorem at a three-message chat with a limit of one. *)
Lemma leaderboard_ranks_and_totals_witness :
  map (fun e => (lb_rank e, lb_username e, lb_message_count e))
      (lr_leaderboard (get_leaderboard "all" 1 (seconds 100) reply_chat))
  = [(1, "bob"%string, 2)] /\
  lr_total_messages (get_leaderboard "all" 1 (seconds 100) reply_chat) = 3.
Proof.
  pose proof (leaderboard_ranks_and_totals "all" 1 (seconds 100) reply_chat
                ltac:(lia)) as (_ & _ & _ & Htotal & _).
  split; [vm_compute; reflexivity|]. rewrite Htotal. reflexivity.
Defined.

(** ** Percentile bounds *)

Lemma filter_length_lt {A} (p : A -> bool) (l : list A) (x : A) :
  In x l -> p x = false -> (length (List.filter p l) < length l)%nat.
Proof.
  induction l as [|y l IH]; intros Hin Hp; [destruct Hin|].
  cbn [List.filter length]. pose proof (List.filter_length_le p l).
  destruct Hin as [->|Hin].
  - rewrite Hp. lia.
  - specialize (IH Hin Hp). destruct (p y); cbn [length]; lia.
Qed.

(** X2.  The percentile is at least 0 and strictly below 100, for every
    user, period and collection: the user's own row is never counted among
    the rows below it, so not even the top chatter reaches 100. *)
Theorem percentile_below_100
  (uname period : string) (now : datetime) (c : collection) :
  (0 <= get_user_percentile uname period now c)%Q /\
  (get_user_percentile uname period now c < 100)%Q.
Proof.
  unfold get_user_percentile.
  set (all_users := top_users (matches_date (get_date_filter period now)) c).
  destruct (Z.eq_dec (count_for (lower uname) all_users) 0) as [Hz|Hnz].
  - rewrite percentile_in_zero by exact Hz. split; [apply Qle_refl | reflexivity].
  - rewrite percentile_in_formula by exact Hnz.
    apply percent_of_range.
    + unfold count_of. split; [lia|].
      apply inj_lt. unfold count_for in *.
      destruct (List.find _ all_users) as [u|] eqn:Hf; [|congruence].
      apply List.find_some in Hf as [Hin _].
      apply (filter_length_lt _ _ u Hin). apply Z.ltb_irrefl.
    + pose proof (top_users_length (matches_date (get_date_filter period now)) c).
      unfold count_of. fold all_users in H. lia.
Qed.

(** ** Order of ranks *)

(** X3.  In the capped table of a period a user with strictly more
    messages stands strictly ahead: when [get_user_rankings] gives both of
    two users a [top_rank], the one with more messages in the period has
    the smaller rank number; every rank lies between 1 and 1000. *)
Theorem more_messages_better_rank
  (user1 user2 period : string) (clk : rankings_clock) (c : collection) (r1 r2 : Z) :
  let matching := matches_date (get_date_filter period (rk_now_filter clk)) in
  top_rank (get_user_rankings user1 period clk c) = Some r1 ->
  top_rank (get_user_rankings user2 period clk c) = Some r2 ->
  1 <= r1 <= 1000 /\
  (messages_of matching c (lower user1) < messages_of matching c (lower user2) ->
   r2 < r1).
Proof.
  intros matching H1 H2. cbn [get_user_rankings top_rank] in H1, H2.
  fold matching in H1, H2. unfold position in H1, H2.
  apply position_from_Some in H1 as (k1 & x1 & Hk1 & Hx1 & -> & _).
  apply position_from_Some in H2 as (k2 & x2 & Hk2 & Hx2 & -> & _).
  apply String.eqb_eq in Hx1, Hx2.
  pose proof (top_users_length matching c) as Hlen.
  assert (Hlt1 : (k1 < length (top_users matching c))%nat)
    by (apply nth_error_Some; congruence).
  split; [lia|]. intros Hmore.
  destruct (top_users_In matching c x1 (nth_error_In _ _ Hk1)) as [Hc1 _].
  destruct (top_users_In matching c x2 (nth_error_In _ _ Hk2)) as [Hc2 _].
  rewrite Hx1 in Hc1. rewrite Hx2 in Hc2.
  destruct (Nat.lt_trichotomy k1 k2) as [Hlt|[Heq|Hgt]]; [| |lia].
  - pose proof (top_users_sorted matching c k1 k2 x1 x2 Hlt Hk1 Hk2). lia.
  - subst k2. assert (x1 = x2) by congruence. subst x2. lia.
Qed.

(** The theorem at a chat where [bob] wrote twice and [alice] once. *)
Lemma more_messages_better_rank_witness :
  let clk := {| rk_now_filter := seconds 200; rk_now_change := seconds 200;
                rk_now_rising := seconds 200 |} in
  top_rank (get_user_rankings "alice" "all" clk reply_chat) = Some 2 /\
  top_rank (get_user_rankings "bob" "all" clk reply_chat) = Some 1 /\
  1 < 2.
Proof.
  cbv zeta.
  assert (H1 : top_rank (get_user_rankings "alice" "all"
                 {| rk_now_filter := seconds 200; rk_now_change := seconds 200;
                    rk_now_rising := seconds 200 |} reply_chat) = Some 2)
    by (vm_compute; reflexivity).
  assert (H2 : top_rank (get_user_rankings "bob" "all"
                 {| rk_now_filter := seconds 200; rk_now_change := seconds 200;
                    rk_now_rising := seconds 200 |} reply_chat) = Some 1)
    by (vm_compute; reflexivity).
  split; [exact H1|]. split; [exact H2|].
  apply (proj2 (more_messages_better_rank "alice" "bob" "all" _ reply_chat 2 1 H1 H2)).
  vm_compute. reflexivity.
Defined.

(** ** Nested periods *)

Lemma filter_length_mono {A} (p q : A -> bool) (l : list A) :
  (forall x, p x = true -> q x = true) ->
  (length (List.filter p l) <= length (List.filter q l))%nat.
Proof.
  intros Hpq. induction l as [|x l IH]; cbn [List.filter]; [lia|].
  destruct (p x) eqn:Hp.
  - rewrite (Hpq x Hp). cbn [length]. lia.
  - destruct (q x); cbn [length]; lia.
Qed.

Lemma get_user_stats_none
  (uname period : string) (io : stats_io) (g : emote_globals) (c : collection) :
  List.filter (user_in_period uname (get_date_filter period (st_now_filter io))) c = [] ->
  get_user_stats uname period io g c = (Returns None, g).
Proof. intros Hm. unfold get_user_stats. rewrite Hm. reflexivity. Qed.

(** X4.  With one clock reading the windows of the periods are nested:
    a message of the [day] window is in the [week] window, one of the
    [week] window in the [month] window, and [all] holds every message.  So
    a user with a result for [day] has one for every wider period, with at
    least as many messages. *)
Theorem wider_period_more_messages
  (uname : string) (io : stats_io) (g : emote_globals) (c : collection) :
  let total := fun period =>
    count_of (List.filter
      (user_in_period uname (get_date_filter period (st_now_filter io))) c) in
  total "day" <= total "week" /\ total "week" <= total "month" /\
  total "month" <= total "all" /\
  (forall narrow wide stats g',
     (narrow, wide) = ("day", "week")%string \/
     (narrow, wide) = ("week", "month")%string \/
     (narrow, wide) = ("month", "all")%string ->
     get_user_stats uname narrow io g c = (Returns (Some stats), g') ->
     exists stats' g'',
       get_user_stats uname wide io g c = (Returns (Some stats'), g'') /\
       total_messages stats <= total_messages stats').
Proof.
  intros total.
  assert (Hmono : forall p q,
            (forall d, matches_date (get_date_filter p (st_now_filter io)) d = true ->
                       matches_date (get_date_filter q (st_now_filter io)) d = true) ->
            total p <= total q).
  { intros p q H. unfold total, count_of. apply inj_le, filter_length_mono.
    intros d Hd. unfold user_in_period in *. apply andb_true_iff in Hd as [Hu Hd].
    rewrite Hu, (H d Hd). reflexivity. }
  assert (Hdw : total "day" <= total "week").
  { apply Hmono. intros d. cbn. unfold days, weeks, days, seconds. lia. }
  assert (Hwm : total "week" <= total "month").
  { apply Hmono. intros d. cbn. unfold days, weeks, days, seconds. lia. }
  assert (Hma : total "month" <= total "all").
  { apply Hmono. intros d _. reflexivity. }
  split; [exact Hdw|]. split; [exact Hwm|]. split; [exact Hma|].
  intros narrow wide stats g' Hpair Hrun.
  assert (Hle : total narrow <= total wide).
  { destruct Hpair as [H|[H|H]]; injection H as -> ->; assumption. }
  assert (Hne : List.filter
            (user_in_period uname (get_date_filter narrow (st_now_filter io))) c <> []).
  { intros Hnil. rewrite (get_user_stats_none uname narrow io g c Hnil) in Hrun.
    discriminate Hrun. }
  destruct (get_user_stats_fields uname narrow io g c Hne)
    as (stats0 & g0 & Hrun0 & _ & Htn & _).
  rewrite Hrun in Hrun0. injection Hrun0 as <- <-.
  fold (total narrow) in Htn.
  assert (Hnz : total narrow <> 0).
  { unfold total, count_of. destruct (List.filter _ c); [congruence | cbn [length]; lia]. }
  destruct (get_user_stats_fields uname wide io g c) as (stats' & g'' & Hrun' & _ & Ht & _).
  { fold (total wide) in *. intros Hnil.
    assert (total wide = 0) by (unfold total; rewrite Hnil; reflexivity).
    assert (0 <= total narrow) by (unfold total, count_of; lia).
    lia. }
  exists stats', g''. split; [exact Hrun'|]. rewrite Htn, Ht. exact Hle.
Qed.

(** The theorem at a chat with an old and a new message. *)
Lemma wider_period_more_messages_witness :
  exists stats g' stats' g'',
    get_user_stats "alice" "day" sample_io no_cache sparse_chat
    = (Returns (Some stats), g') /\
    get_user_stats "alice" "week" sample_io no_cache sparse_chat
    = (Returns (Some stats'), g'') /\
    total_messages stats <= total_messages stats'.
Proof.
  destruct (get_user_stats_fields "alice" "day" sample_io no_cache sparse_chat)
    as (stats & g' & Hrun & _).
  { vm_compute. discriminate. }
  destruct (wider_period_more_messages "alice" sample_io no_cache sparse_chat)
    as (_ & _ & _ & Hwide).
  destruct (Hwide "day"%string "week"%string stats g' (or_introl eq_refl) Hrun)
    as (stats' & g'' & Hrun' & Hle).
  exists stats, g', stats', g''. repeat split; assumption.
Defined.

(** ** Peak hours on lists of other lengths *)

Lemma index_short {A} (l : list A) (i : Z) :
  Z.of_nat (length l) <= i -> index l i = Raises IndexError.
Proof.
  intros Hi. unfold index.
  destruct (nth_error l (Z.to_nat i)) eqn:Hn; [|reflexivity].
  assert (Hlt : (Z.to_nat i < length l)%nat) by (apply nth_error_Some; congruence).
  lia.
Qed.

Lemma window_sum_raises_only_IndexError (counts : list Z) (s : Z) (e : exn) :
  window_sum counts s = Raises e -> e = IndexError.
Proof.
  unfold window_sum, index.
  destruct (nth_error counts _); cbn [bind]; [|congruence].
  destruct (nth_error counts _); cbn [bind]; [|congruence].
  destruct (nth_error counts _); cbn [bind]; congruence.
Qed.

Lemma peak_loop_raises (counts starts : list Z) (best : Z * Z) (s : Z) (e : exn) :
  In s starts -> window_sum counts s = Raises e ->
  peak_loop counts starts best = Raises IndexError.
Proof.
  revert best. induction starts as [|s0 rest IH]; intros best Hin Hs; [destruct Hin|].
  cbn [peak_loop]. destruct (window_sum counts s0) as [w|e0] eqn:Hw; cbn [bind].
  - destruct Hin as [->|Hin]; [congruence|].
    destruct (fst best <? w); apply IH; assumption.
  - apply window_sum_raises_only_IndexError in Hw. subst e0. reflexivity.
Qed.

Lemma peak_loop_firstn (counts starts : list Z) (best : Z * Z) :
  (24 <= length counts)%nat ->
  peak_loop counts starts best = peak_loop (firstn 24 counts) starts best.
Proof.
  intros Hlen. revert best. induction starts as [|s rest IH]; intros best; [reflexivity|].
  cbn [peak_loop].
  assert (Hw : window_sum counts s = window_sum (firstn 24 counts) s).
  { unfold window_sum, index.
    assert (Hi : forall i, 0 <= i < 24 ->
              nth_error (firstn 24 counts) (Z.to_nat i) = nth_error counts (Z.to_nat i)).
    { intros i Hi. rewrite nth_error_firstn.
      destruct (Nat.ltb_spec (Z.to_nat i) 24); [reflexivity | lia]. }
    rewrite !Hi by (apply Z.mod_pos_bound; lia). reflexivity. }
  rewrite <- Hw. destruct (window_sum counts s) as [w|e]; cbn [bind]; [|reflexivity].
  destruct (fst best <? w); apply IH.
Qed.

(** X5.  [get_peak_hours] returns the empty list for the empty list,
    raises [IndexError] for a non-empty list of fewer than 24 items, and for
    a list of 24 items or more returns what it returns for the first 24.
    What it returns is empty or three hours of the day, each the successor
    of the one before it modulo 24. *)
Theorem peak_hours_by_length (hourly_activity : list HourlyActivity) :
  get_peak_hours [] = Returns [] /\
  ((0 < length hourly_activity < 24)%nat ->
   get_peak_hours hourly_activity = Raises IndexError) /\
  ((24 <= length hourly_activity)%nat ->
   get_peak_hours hourly_activity = get_peak_hours (firstn 24 hourly_activity) /\
   exists l, get_peak_hours hourly_activity = Returns l) /\
  (forall l, get_peak_hours hourly_activity = Returns l ->
     l = [] \/ exists s, 0 <= s < 24 /\ l = [s; (s + 1) mod 24; (s + 2) mod 24]).
Proof.
  split; [reflexivity|]. split; [|split].
  - intros Hlen. unfold get_peak_hours.
    destruct hourly_activity as [|h0 rest]; [cbn in Hlen; lia|].
    rewrite (peak_loop_raises _ _ _ 23 IndexError); [reflexivity | |].
    + unfold range. apply in_map_iff. exists 23%nat. split; [reflexivity|].
      apply in_seq. lia.
    + unfold window_sum. rewrite index_short; [reflexivity|].
      rewrite length_map. change ((23 + 0) mod 24) with 23. lia.
  - intros Hlen.
    assert (Heq : get_peak_hours hourly_activity
                  = get_peak_hours (firstn 24 hourly_activity)).
    { unfold get_peak_hours. destruct hourly_activity as [|h0 rest]; [reflexivity|].
      rewrite peak_loop_firstn by (rewrite length_map; exact Hlen).
      rewrite firstn_map.
      change (firstn 24 (h0 :: rest)) with (h0 :: firstn 23 rest).
      cbv beta iota zeta. reflexivity. }
    split; [exact Heq|]. rewrite Heq. apply get_peak_hours_returns.
    rewrite length_firstn. lia.
  - intros l Hl. unfold get_peak_hours in Hl.
    destruct hourly_activity as [|h0 rest]; [injection Hl as <-; left; reflexivity|].
    destruct (peak_loop _ _ _) as [[bs bst]|e] eqn:Hloop; cbn [bind] in Hl; [|discriminate].
    destruct (bs =? 0); injection Hl as <-; [left; reflexivity|].
    right. exists (bst mod 24). split; [apply Z.mod_pos_bound; lia|].
    cbn [range seq map Z.of_nat]. rewrite Z.add_0_r.
    rewrite !Zplus_mod_idemp_l. reflexivity.
Qed.

(** The theorem at a list of three items. *)
Lemma peak_hours_by_length_witness :
  get_peak_hours [ {| h_hour := 0; h_count := 5 |}; {| h_hour := 1; h_count := 1 |};
                   {| h_hour := 2; h_count := 7 |} ]
  = Raises IndexError.
Proof.
  apply (proj1 (proj2 (peak_hours_by_length _))). cbn. lia.
Defined.

(** ** The rival is another user *)

Lemma best_step_from_candidates (u : list Z) (all l : list pattern_row)
  (st : option RivalInfo * Q) :
  (forall y, In y l -> In y all) ->
  (forall r, fst st = Some r -> exists x, In x all /\ rv_username r = pr_id x) ->
  forall r, fst (fold_left (best_step u) l st) = Some r ->
            exists x, In x all /\ rv_username r = pr_id x.
Proof.
  revert st. induction l as [|y l IH]; intros st Hsub Hst; [exact Hst|].
  cbn [fold_left]. apply IH.
  - intros z Hz. apply Hsub. right. exact Hz.
  - unfold best_step. destruct (Qltb (snd st) (score u y)); [|exact Hst].
    cbn [fst]. intros r Hr. injection Hr as <-.
    exists y. split; [apply Hsub; left; reflexivity | reflexivity].
Qed.

(** X6.  A rival is never the subject: the user named by a result of
    [get_rival] has a row in the pool of the period, so wrote in it, and
    differs from the lower-cased name asked for. *)
Theorem rival_is_another_user
  (uname : string) (hourly_pattern : list HourlyActivity) (period : string)
  (now : datetime) (c : collection) (r : RivalInfo) :
  get_rival uname hourly_pattern period now c = Some r ->
  rv_username r <> lower uname /\
  exists d, In d c /\ matches_date (get_date_filter period now) d = true /\
            username d = rv_username r.
Proof.
  unfold get_rival.
  set (matching := matches_date (get_date_filter period now)).
  set (pool := rival_pool matching c). intros Hr.
  destruct (Z.eq_dec (sum_squares (map h_count hourly_pattern)) 0) as [Hz|Hnz].
  { rewrite rival_in_zero in Hr by exact Hz. discriminate. }
  rewrite rival_in_fold in Hr by exact Hnz.
  apply (best_step_from_candidates _ (candidates (lower uname) pool)) in Hr
    as (x & Hx & Hid); [|tauto|discriminate].
  apply candidates_In in Hx as (Hin & Hne & _). rewrite Hid.
  split; [exact Hne|].
  unfold pool, rival_pool in Hin. do 2 apply limit_In in Hin.
  apply sort_by_In in Hin. apply in_map_iff in Hin as ([k rows] & <- & Hin).
  cbn [pattern_of pr_id fst].
  assert (Hk : In k (map fst (group_by uh_username (user_hour_rows (List.filter matching c)))))
    by (apply in_map_iff; exists (k, rows); split; [reflexivity | exact Hin]).
  apply group_by_key_In in Hk as (row & Hrow & <-).
  unfold user_hour_rows in Hrow. apply in_map_iff in Hrow as ([[name h] ds] & <- & Hg).
  cbn [uh_username fst].
  assert (Hk : In (name, h) (map fst (group_by (fun d => (username d, hour d))
                                               (List.filter matching c))))
    by (apply in_map_iff; exists ((name, h), ds); split; [reflexivity | exact Hg]).
  apply group_by_key_In in Hk as (d & Hd & Hkey). injection Hkey as Hn _.
  apply List.filter_In in Hd as [Hd Hm]. exists d. tauto.
Qed.

(** The theorem at two users with the same histogram. *)
Lemma rival_is_another_user_witness :
  get_rival "alice" twin_pattern "all" (seconds 100) twin_chat
  = Some {| rv_username := "bob"; rv_display_name := "bob";
            similarity_score := 100 |} /\
  "bob"%string <> lower "alice".
Proof.
  assert (Hrun : get_rival "alice" twin_pattern "all" (seconds 100) twin_chat
                 = Some {| rv_username := "bob"; rv_display_name := "bob";
                           similarity_score := 100 |})
    by (vm_compute; reflexivity).
  split; [exact Hrun|].
  exact (proj1 (rival_is_another_user "alice" twin_pattern "all" (seconds 100)
                  twin_chat _ Hrun)).
Defined.

(** ** The list of reply targets *)

Lemma odict_set_In {V} (d : list (string * V)) (k0 : string) (v0 : V)
  (k : string) (v : V) :
  List.NoDup (map fst d) -> In (k, v) (odict_set d k0 v0) ->
  (k = k0 /\ v = v0) \/ (k <> k0 /\ In (k, v) d).
Proof.
  induction d as [|[k1 v1] d IH]; intros Hnd Hin; cbn [odict_set] in Hin.
  - destruct Hin as [Heq|[]]. injection Heq as <- <-. left. split; reflexivity.
  - cbn [map fst] in Hnd. apply List.NoDup_cons_iff in Hnd as [Hk1 Hnd].
    destruct (String.eqb_spec k0 k1) as [->|Hne].
    + destruct Hin as [Heq|Hin].
      * injection Heq as <- <-. left. split; reflexivity.
      * right. split; [|right; exact Hin].
        intros ->. apply Hk1. apply (in_map fst) in Hin. exact Hin.
    + destruct Hin as [Heq|Hin].
      * injection Heq as <- <-. right. split; [congruence | left; reflexivity].
      * destruct (IH Hnd Hin) as [Hl|[Hr1 Hr2]]; [left; exact Hl|].
        right. split; [exact Hr1 | right; exact Hr2].
Qed.

Lemma credit_entries (P : string -> Prop) (rc : list (string * (string * Z)))
  (prev : doc) :
  List.NoDup (map fst rc) ->
  (forall k dn n, In (k, (dn, n)) rc -> 1 <= n /\ P k) ->
  P (username prev) ->
  forall k dn n, In (k, (dn, n)) (credit rc prev) -> 1 <= n /\ P k.
Proof.
  intros Hnd Hrc Hp k dn n Hin. unfold credit in Hin.
  destruct (odict_get rc (username prev)) as [[dn0 n0]|] eqn:Hget.
  - rewrite Hget in Hin. apply odict_set_In in Hin as [[-> Hv]|[_ Hin]]; [| |exact Hnd].
    + injection Hv as -> ->. split; [|exact Hp].
      assert (Hin0 : In (username prev, (dn0, n0)) rc).
      { clear - Hget. induction rc as [|[k1 v1] rc IH]; [discriminate|].
        cbn [odict_get] in Hget. destruct (String.eqb_spec (username prev) k1) as [->|_].
        - injection Hget as ->. left. reflexivity.
        - right. apply IH, Hget. }
      destruct (Hrc _ _ _ Hin0). cbn [snd]. lia.
    + apply (Hrc _ _ _ Hin).
  - rewrite odict_get_set, String.eqb_refl in Hin.
    apply odict_set_In in Hin as [[-> Hv]|[Hne Hin]].
    + injection Hv as -> ->. cbn [snd]. split; [lia | exact Hp].
    + apply odict_set_In in Hin as [[-> _]|[_ Hin]]; [congruence | | exact Hnd].
      apply (Hrc _ _ _ Hin).
    + apply odict_set_NoDup, Hnd.
Qed.

Lemma fold_credit_entries (P : string -> Prop) (prevs : list doc)
  (rc : list (string * (string * Z))) :
  List.NoDup (map fst rc) ->
  (forall k dn n, In (k, (dn, n)) rc -> 1 <= n /\ P k) ->
  (forall p, In p prevs -> P (username p)) ->
  List.NoDup (map fst (fold_left credit prevs rc)) /\
  forall k dn n, In (k, (dn, n)) (fold_left credit prevs rc) -> 1 <= n /\ P k.
Proof.
  revert rc. induction prevs as [|p prevs IH]; intros rc Hnd Hrc Hp; cbn [fold_left].
  - split; assumption.
  - apply IH.
    + apply credit_NoDup, Hnd.
    + apply credit_entries; [exact Hnd | exact Hrc | apply Hp; left; reflexivity].
    + intros q Hq. apply Hp. right. exact Hq.
Qed.

(** X7.  The list of reply targets has at most [lim] entries, in order of
    decreasing reply count; no user appears twice and none is the subject;
    every entry has a count of at least 1 and names the author of a
    message of the collection. *)
Theorem reply_targets_shape
  (uname period : string) (lim : Z) (now : datetime) (c : collection) :
  0 <= lim ->
  let targets := get_top_replies uname period lim now c in
  Z.of_nat (length targets) <= lim /\
  (forall t, In t targets ->
     rt_username t <> lower uname /\ 1 <= reply_count t /\
     exists d, In d c /\ username d = rt_username t) /\
  (forall i j t t', (i < j)%nat ->
     nth_error targets i = Some t -> nth_error targets j = Some t' ->
     reply_count t' <= reply_count t /\ rt_username t <> rt_username t').
Proof.
  intros Hlim targets. unfold targets, get_top_replies.
  set (ums := user_messages_of uname period now c).
  destruct ums as [|m0 ms] eqn:Hums.
  { split; [cbn; lia|]. split; [intros t []|]. intros i j t t' _ Ht. destruct i; discriminate. }
  rewrite <- Hums. clear Hums m0 ms.
  set (rc := reply_counts_of uname ums c).
  set (P := fun k : string => k <> lower uname /\ exists d, In d c /\ username d = k).
  assert (Hrc : forall k dn n, In (k, (dn, n)) rc -> 1 <= n /\ P k).
  { unfold rc, reply_counts_of.
    assert (Hgen : forall msgs acc, List.NoDup (map fst acc) ->
              (forall k dn n, In (k, (dn, n)) acc -> 1 <= n /\ P k) ->
              forall k dn n,
                In (k, (dn, n)) (fold_left (fun rc m =>
                   fold_left credit (previous_messages (lower uname) m c) rc) msgs acc) ->
                1 <= n /\ P k).
    { induction msgs as [|m msgs IH]; intros acc Hnd Hacc; cbn [fold_left]; [exact Hacc|].
      destruct (fold_credit_entries P (previous_messages (lower uname) m c) acc Hnd Hacc)
        as [Hnd' Hacc'].
      - intros p Hp. unfold previous_messages in Hp. do 2 apply limit_In in Hp.
        apply List.filter_In in Hp as [Hin Hw]. unfold in_reply_window in Hw.
        split; [|exists p; split; [exact Hin | reflexivity]].
        destruct (String.eqb_spec (username p) (lower uname)); [discriminate Hw | assumption].
      - apply IH; assumption. }
    apply Hgen; [constructor | intros k dn n []]. }
  set (sorted := sort_desc (fun item : string * (string * Z) => snd (snd item)) rc).
  assert (Hperm : Permutation sorted rc) by apply sort_by_perm.
  split; [|split].
  - rewrite length_map. apply limit_length_Z, Hlim.
  - intros t Ht. apply in_map_iff in Ht as ([k [dn n]] & <- & Hin).
    apply limit_In in Hin. apply (Permutation_in _ Hperm) in Hin.
    destruct (Hrc _ _ _ Hin) as [Hn [Hne Hd]].
    cbn [rt_username reply_count fst snd]. repeat split; assumption.
  - intros i j t t' Hij Ht Ht'. rewrite nth_error_map in Ht, Ht'.
    destruct (nth_error (limit lim sorted) i) as [x|] eqn:Hx; [|discriminate].
    destruct (nth_error (limit lim sorted) j) as [y|] eqn:Hy; [|discriminate].
    cbn in Ht, Ht'. injection Ht as <-. injection Ht' as <-.
    apply limit_nth_error in Hx, Hy. cbn [reply_count rt_username]. split.
    + exact (sort_desc_ordered _ rc i j x y Hij Hx Hy).
    + apply (NoDup_nth_error_neq fst sorted i j); [| lia | exact Hx | exact Hy].
      eapply Permutation_NoDup; [apply Permutation_map; symmetry; exact Hperm|].
      apply reply_counts_NoDup.
Qed.

(** The theorem at the chat with 51 messages before one of [alice]. *)
Lemma reply_targets_shape_witness :
  Z.of_nat (length (get_top_replies "alice" "all" 5 (seconds 200) busy_chat)) <= 5.
Proof.
  apply (proj1 (reply_targets_shape "alice" "all" 5 (seconds 200) busy_chat
                  ltac:(lia))).
Defined.

(** ** The order of the growth ranking *)

Lemma Qltb_false (x y : Q) : Qltb x y = false <-> (y <= x)%Q.
Proof.
  unfold Qltb. destruct (Qcompare_spec x y) as [Heq|Hlt|Hgt].
  - split; [intros _; rewrite Heq; apply Qle_refl | reflexivity].
  - split; [discriminate|]. intros Hle. exfalso. apply (Qlt_not_le _ _ Hlt), Hle.
  - split; [intros _; apply Qlt_le_weak, Hgt | reflexivity].
Qed.

Lemma sort_desc_Q_ordered {A} (key : A -> Q) (l : list A) (i j : nat) (x y : A) :
  (i < j)%nat ->
  nth_error (sort_desc_Q key l) i = Some x ->
  nth_error (sort_desc_Q key l) j = Some y ->
  (key y <= key x)%Q.
Proof.
  intros Hij Hx Hy. apply Qltb_false.
  refine (sort_by_ordered (fun a b => Qltb (key a) (key b)) _ _ l i j x y Hij Hx Hy).
  - intros a b d Hab Hbd. apply Qltb_false in Hab, Hbd. apply Qltb_false.
    eapply Qle_trans; eassumption.
  - intros a b Hab. apply Qltb_false. unfold Qltb in Hab.
    destruct (Qcompare_spec (key a) (key b)); try discriminate.
    apply Qlt_le_weak. assumption.
Qed.

Lemma growth_percent_from_minus_100 (current previous : Z) :
  0 < current -> 0 <= previous ->
  (-(100) <= growth_percent current previous)%Q /\
  (previous < 2 ^ 53 -> (-(100) < growth_percent current previous)%Q).
Proof.
  intros Hc Hp. unfold growth_percent.
  destruct (Z.eqb_spec previous 0) as [->|Hnz].
  - assert (H : (0 < fmul (of_int current) 10)%Q).
    { unfold fmul. apply b64_pos. pose proof (of_int_pos current Hc). lra. }
    split; [|intros _]; lra.
  - unfold fmul, true_div.
    set (x := (inject_Z (current - previous) / inject_Z previous)%Q).
    assert (Hpq : (0 < inject_Z previous)%Q)
      by (change 0%Q with (inject_Z 0); rewrite <- Zlt_Qlt; lia).
    assert (Hcq : (1 <= inject_Z current)%Q)
      by (change 1%Q with (inject_Z 1); rewrite <- Zle_Qle; lia).
    assert (Hsub : (inject_Z (current - previous)
                    == inject_Z current - inject_Z previous)%Q).
    { unfold Z.sub. rewrite inject_Z_plus, inject_Z_opp. reflexivity. }
    split.
    + assert (Hx : (-(1) <= x)%Q).
      { unfold x. apply Qle_shift_div_l; [exact Hpq|]. lra. }
      apply b64_mono in Hx.
      assert (E1 : b64 (-(1)) = (-(1))%Q) by (vm_compute; reflexivity).
      rewrite E1 in Hx.
      assert (Hy : (-(100) <= b64 x * 100)%Q) by lra.
      apply b64_mono in Hy.
      assert (E2 : b64 (-(100)) = (-(100))%Q) by (vm_compute; reflexivity).
      rewrite E2 in Hy. exact Hy.
    + intros Hsmall.
      assert (Hps : (inject_Z previous <= 9007199254740992)%Q).
      { change 9007199254740992%Q with (inject_Z (2 ^ 53)). rewrite <- Zle_Qle. lia. }
      assert (Hx : (-(1) + (1 # 9007199254740992) <= x)%Q).
      { unfold x. apply Qle_shift_div_l; [exact Hpq|]. lra. }
      apply b64_mono in Hx.
      assert (E1 : b64 (-(1) + (1 # 9007199254740992))
                   = Qmake (-9007199254740991) 9007199254740992)
        by (vm_compute; reflexivity).
      rewrite E1 in Hx.
      assert (Hy : (Qmake (-9007199254740991) 9007199254740992 * 100 <= b64 x * 100)%Q)
        by lra.
      apply b64_mono in Hy.
      assert (E2 : b64 (Qmake (-9007199254740991) 9007199254740992 * 100)
                   = Qmake (-7036874417766399) 70368744177664)
        by (vm_compute; reflexivity).
      rewrite E2 in Hy. lra.
Qed.

(** X8.  The growth ranking has at most [lim] entries, numbered 1, 2,
    ... in order, ordered by decreasing growth before rounding, each user
    once.  Only users with a message in the current week are listed, so
    every current count is positive and every growth, as computed in
    binary64, is at least -100, and above -100 when the previous count is
    below 2^53. *)
Theorem rising_stars_ranked_by_growth
  (lim : Z) (now : datetime) (c : collection) :
  0 <= lim ->
  let stars := get_rising_stars lim now c in
  let growth := fun e => growth_percent (rs_current_count e) (rs_previous_count e) in
  Z.of_nat (length stars) <= lim /\
  (forall i e, nth_error stars i = Some e ->
     rs_rank e = Z.of_nat i + 1 /\ 0 < rs_current_count e /\
     0 <= rs_previous_count e /\ (-(100) <= growth e)%Q /\
     (rs_previous_count e < 2 ^ 53 -> (-(100) < growth e)%Q)) /\
  (forall i j e e', (i < j)%nat ->
     nth_error stars i = Some e -> nth_error stars j = Some e' ->
     (growth e' <= growth e)%Q /\ rs_username e <> rs_username e').
Proof.
  intros Hlim stars growth. unfold stars, get_rising_stars, rising_stars_of.
  rewrite current_map_of_rows by apply current_facet_NoDup. rewrite map_map.
  set (pm := dict_of (map (fun u => (uc_id u, uc_count u)) (previous_facet now c))).
  set (items := map (fun x => growth_item pm (cur_id x, x)) (current_facet now c)).
  set (sorted := sort_desc_Q g_growth_percent items).
  assert (Hperm : Permutation sorted items) by apply sort_by_perm.
  assert (Hitem : forall it, In it sorted ->
            0 < g_current_count it /\ 0 <= g_previous_count it /\
            g_growth_percent it
            = growth_percent (g_current_count it) (g_previous_count it)).
  { intros it Hit. apply (Permutation_in _ Hperm) in Hit.
    apply in_map_iff in Hit as (row & <- & Hrow).
    cbn [growth_item g_current_count g_previous_count g_growth_percent fst snd].
    unfold pm. rewrite previous_map_get. repeat split.
    - rewrite (current_facet_count now c row Hrow).
      unfold current_facet in Hrow. apply in_map_iff in Hrow as ([k ds] & <- & Hg).
      apply group_by_In in Hg as [-> Hne]. cbn [cur_id fst].
      unfold current_week_count, count_of.
      destruct (docs_with username k _); [congruence | cbn [length]; lia].
    - unfold previous_week_count, count_of. lia. }
  assert (Hnd : List.NoDup (map g_username sorted)).
  { eapply Permutation_NoDup; [apply Permutation_map; symmetry; exact Hperm|].
    unfold items. rewrite map_map. cbn [growth_item g_username fst].
    apply current_facet_NoDup. }
  split; [|split].
  - rewrite length_map, enumerate_length. apply limit_length_Z, Hlim.
  - intros i e He. apply ranked_nth_error in He as (it & Hit & ->).
    apply limit_nth_error in Hit.
    destruct (Hitem it (nth_error_In _ _ Hit)) as (Hc & Hp & _).
    unfold growth. cbn [rising_entry rs_rank rs_current_count rs_previous_count fst snd].
    destruct (growth_percent_from_minus_100 _ _ Hc Hp) as [Hge Hgt].
    repeat split; assumption.
  - intros i j e e' Hij He He'.
    apply ranked_nth_error in He as (it & Hit & ->).
    apply ranked_nth_error in He' as (it' & Hit' & ->).
    apply limit_nth_error in Hit, Hit'.
    unfold growth. cbn [rising_entry rs_current_count rs_previous_count rs_username fst snd].
    destruct (Hitem it (nth_error_In _ _ Hit)) as (_ & _ & <-).
    destruct (Hitem it' (nth_error_In _ _ Hit')) as (_ & _ & <-).
    split.
    + exact (sort_desc_Q_ordered g_growth_percent items i j it it' Hij Hit Hit').
    + apply (NoDup_nth_error_neq g_username sorted i j); [exact Hnd | lia | exact Hit | exact Hit'].
Qed.

(** The theorem at the chat with three and four messages. *)
Lemma rising_stars_ranked_by_growth_witness :
  Z.of_nat (length (get_rising_stars 10 (days 20) growth_chat)) <= 10.
Proof.
  apply (proj1 (rising_stars_ranked_by_growth 10 (days 20) growth_chat ltac:(lia))).
Defined.

(** ** Hour leaders *)

Lemma ordered_filter_head {A} (after : A -> A -> bool) (p : A -> bool)
  (l : list A) (x : A) (rest : list A) :
  (forall a, after a a = false) ->
  ordered after l -> List.filter p l = x :: rest ->
  forall y, In y (x :: rest) -> after x y = false.
Proof.
  intros Hirr. induction l as [|a l IH]; intros Hord Hf y Hy; [discriminate|].
  apply ordered_cons in Hord as [Ha Hord]. cbn [List.filter] in Hf.
  destruct (p a).
  - injection Hf as -> <-. destruct Hy as [<-|Hy]; [apply Hirr|].
    apply List.filter_In in Hy as [Hy _]. apply Ha, Hy.
  - apply (IH Hord Hf y Hy).
Qed.

Lemma sort_desc_filter_head {A} (key : A -> Z) (p : A -> bool) (l : list A)
  (x : A) (rest : list A) :
  List.filter p (sort_desc key l) = x :: rest ->
  forall y, In y (x :: rest) -> key y <= key x.
Proof.
  intros Hf y Hy.
  assert (H : (key x <? key y) = false); [|apply Z.ltb_ge in H; exact H].
  refine (ordered_filter_head (fun a b => key a <? key b) p _ x rest _ _ Hf y Hy).
  - intros a. apply Z.ltb_irrefl.
  - apply sort_by_ordered.
    + intros a b d Hab Hbd. apply Z.ltb_ge in Hab, Hbd. apply Z.ltb_ge. lia.
    + intros a b Hab. apply Z.ltb_lt in Hab. apply Z.ltb_ge. lia.
Qed.

Lemma sort_asc_ordered {A} (key : A -> Z) (l : list A) (i j : nat) (x y : A) :
  (i < j)%nat ->
  nth_error (sort_asc key l) i = Some x ->
  nth_error (sort_asc key l) j = Some y ->
  key x <= key y.
Proof.
  intros Hij Hx Hy.
  assert (H : (key y <? key x) = false); [|apply Z.ltb_ge in H; exact H].
  refine (sort_by_ordered (fun a b => key b <? key a) _ _ l i j x y Hij Hx Hy).
  - intros a b d Hab Hbd. apply Z.ltb_ge in Hab, Hbd. apply Z.ltb_ge. lia.
  - intros a b Hab. apply Z.ltb_lt in Hab. apply Z.ltb_ge. lia.
Qed.

Lemma hour_user_rows_In (c : collection) (row : hour_user_row) :
  In row (hour_user_rows c) ->
  hu_count row = count_user_hour (hu_username row) (hu_hour row) c /\
  0 < hu_count row.
Proof.
  unfold hour_user_rows. intros Hin. apply in_map_iff in Hin as ([[h name] ds] & <- & Hin).
  apply group_by_In in Hin as [-> Hne]. cbn [hu_count hu_username hu_hour fst snd].
  split.
  - unfold count_user_hour, docs_with. f_equal. apply List.filter_ext. intros d.
    destruct (String.eqb_spec (username d) name) as [<-|Hn];
      destruct (Z.eqb_spec (hour d) h) as [<-|Hh]; cbn [andb].
    + apply bool_decide_eq_true. reflexivity.
    + apply bool_decide_eq_false. congruence.
    + apply bool_decide_eq_false. congruence.
    + apply bool_decide_eq_false. congruence.
  - unfold count_of. destruct (docs_with _ _ c); [congruence | cbn [length]; lia].
Qed.

Lemma hour_user_rows_row (c : collection) (name : string) (h : Z) :
  count_user_hour name h c <> 0 ->
  exists row, In row (hour_user_rows c) /\ hu_username row = name /\ hu_hour row = h.
Proof.
  intros Hnz.
  assert (Hk : In (h, name) (map fst (group_by (fun d => (hour d, username d)) c))).
  { apply group_by_key_In. unfold count_user_hour, count_of in Hnz.
    destruct (List.filter _ c) as [|d r] eqn:Hf; [exfalso; apply Hnz; reflexivity|].
    assert (Hin : In d (List.filter (fun d => String.eqb (username d) name && (hour d =? h)) c))
      by (rewrite Hf; left; reflexivity).
    apply List.filter_In in Hin as [Hin Hp]. apply andb_true_iff in Hp as [Hn Hh].
    apply String.eqb_eq in Hn. apply Z.eqb_eq in Hh. exists d. split; [exact Hin | congruence]. }
  apply in_map_iff in Hk as ([k ds] & Hk & Hin). cbn in Hk. subst k.
  eexists. split; [unfold hour_user_rows; apply in_map_iff; eexists; split; [reflexivity | exact Hin]|].
  split; reflexivity.
Qed.

(** The entries before the hours are sorted and cut. *)
Lemma hour_leader_groups (c : collection) (e : HourLeaderEntry) :
  In e (map hour_leader (group_by hu_hour (sort_desc hu_count (hour_user_rows c)))) ->
  hl_message_count e = count_user_hour (hl_username e) (hl_hour e) c /\
  0 < hl_message_count e /\
  forall name, count_user_hour name (hl_hour e) c <= hl_message_count e.
Proof.
  set (sorted := sort_desc hu_count (hour_user_rows c)).
  intros He. apply in_map_iff in He as ([h rs] & <- & Hg).
  apply group_by_In in Hg as [Hrs Hne]. unfold docs_with in Hrs.
  destruct rs as [|r0 rest]; [congruence|].
  cbn [hour_leader hl_message_count hl_username hl_hour fst snd map hd].
  assert (Hr0 : In r0 (r0 :: rest)) by (left; reflexivity).
  rewrite Hrs in Hr0. apply List.filter_In in Hr0 as [Hr0 Hh0].
  apply bool_decide_eq_true in Hh0. apply sort_by_In in Hr0.
  destruct (hour_user_rows_In c r0 Hr0) as [Hc0 Hpos]. rewrite Hh0 in Hc0.
  split; [exact Hc0|]. split; [exact Hpos|]. intros name.
  destruct (Z.eq_dec (count_user_hour name h c) 0) as [Hz|Hnz]; [lia|].
  destruct (hour_user_rows_row c name h Hnz) as (row & Hrow & Hn & Hh).
  destruct (hour_user_rows_In c row Hrow) as [Hc _]. rewrite Hn, Hh in Hc. rewrite <- Hc.
  apply (sort_desc_filter_head hu_count _ (hour_user_rows c) r0 rest (eq_sym Hrs)).
  rewrite Hrs. apply List.filter_In. split; [apply sort_by_In, Hrow|].
  apply bool_decide_eq_true, Hh.
Qed.

(** X9.  Every entry of [get_hour_leaders] names a user who wrote at that
    hour, with the number of that user's messages at that hour, and no user
    wrote more at that hour; the hours of the entries increase strictly;
    when the stored hours are hours of the day every hour with a message
    has its entry.  The hours [get_user_rankings] reports as dominated are
    hours at which nobody wrote more than the user. *)
Theorem hour_leaders_wrote_most (c : collection) :
  let leaders := get_hour_leaders c in
  (forall e, In e leaders ->
     hl_message_count e = count_user_hour (hl_username e) (hl_hour e) c /\
     0 < hl_message_count e /\
     forall name, count_user_hour name (hl_hour e) c <= hl_message_count e) /\
  (forall i j e e', (i < j)%nat ->
     nth_error leaders i = Some e -> nth_error leaders j = Some e' ->
     hl_hour e < hl_hour e') /\
  (valid_hours c -> forall d, In d c -> exists e, In e leaders /\ hl_hour e = hour d) /\
  (forall uname period clk h,
     In h (hours_dominated (get_user_rankings uname period clk c)) ->
     0 < count_user_hour (lower uname) h c /\
     forall name, count_user_hour name h c <= count_user_hour (lower uname) h c).
Proof.
  intros leaders.
  set (groups := group_by hu_hour (sort_desc hu_count (hour_user_rows c))).
  set (entries := map hour_leader groups).
  assert (Hsub : forall e, In e leaders -> In e entries).
  { intros e He. unfold leaders, get_hour_leaders in He.
    apply limit_In, sort_by_In in He. exact He. }
  assert (Hlead : forall e, In e leaders ->
     hl_message_count e = count_user_hour (hl_username e) (hl_hour e) c /\
     0 < hl_message_count e /\
     forall name, count_user_hour name (hl_hour e) c <= hl_message_count e).
  { intros e He. apply hour_leader_groups, Hsub, He. }
  assert (Hhours : map hl_hour entries = map fst groups).
  { unfold entries. rewrite map_map. reflexivity. }
  split; [exact Hlead|]. split; [|split].
  - intros i j e e' Hij He He'. unfold leaders, get_hour_leaders in He, He'.
    apply limit_nth_error in He, He'.
    pose proof (sort_asc_ordered hl_hour entries i j e e' Hij He He') as Hle.
    assert (Hne : hl_hour e <> hl_hour e'); [|lia].
    apply (NoDup_nth_error_neq hl_hour (sort_asc hl_hour entries) i j);
      [| lia | exact He | exact He'].
    eapply Permutation_NoDup; [apply Permutation_map; symmetry; apply sort_by_perm|].
    rewrite Hhours. apply group_by_keys_NoDup.
  - intros Hv d Hd.
    assert (Hkey : In (hour d) (map fst groups)).
    { apply group_by_key_In.
      destruct (hour_user_rows_row c (username d) (hour d)) as (row & Hrow & _ & Hh).
      - unfold count_user_hour, count_of.
        assert (Hin : In d (List.filter
                  (fun d0 => String.eqb (username d0) (username d) && (hour d0 =? hour d)) c)).
        { apply List.filter_In. split; [exact Hd|].
          rewrite String.eqb_refl, Z.eqb_refl. reflexivity. }
        destruct (List.filter _ c); [destruct Hin | cbn [length]; lia].
      - exists row. split; [apply sort_by_In, Hrow | exact Hh]. }
    rewrite <- Hhours in Hkey. apply in_map_iff in Hkey as (e & He & Hin).
    exists e. split; [|exact He].
    unfold leaders, get_hour_leaders. fold groups. fold entries.
    rewrite limit_all; [apply sort_by_In, Hin|].
    unfold sort_asc. rewrite sort_by_length. rewrite <- (length_map hl_hour), Hhours.
    assert (Hle : (length (map fst groups) <= length (range 24))%nat); [|cbn in Hle; lia].
    apply List.NoDup_incl_length; [apply group_by_keys_NoDup|].
    intros h Hh. apply group_by_key_In in Hh as (row & Hrow & <-).
    apply sort_by_In in Hrow. unfold hour_user_rows in Hrow.
    apply in_map_iff in Hrow as ([[h name] ds] & <- & Hg). cbn [hu_hour fst].
    assert (Hk : In (h, name) (map fst (group_by (fun d => (hour d, username d)) c)))
      by (apply in_map_iff; exists ((h, name), ds); split; [reflexivity | exact Hg]).
    apply group_by_key_In in Hk as (d0 & Hd0 & Hkey). injection Hkey as <- _.
    unfold valid_hours in Hv. rewrite List.Forall_forall in Hv. specialize (Hv d0 Hd0).
    unfold range. apply in_map_iff. exists (Z.to_nat (hour d0)). split; [lia|].
    apply in_seq. lia.
  - intros uname period clk h Hh. cbn [get_user_rankings hours_dominated] in Hh.
    apply in_map_iff in Hh as (e & <- & He). apply List.filter_In in He as [He Hn].
    apply String.eqb_eq in Hn. destruct (Hlead e He) as (Hc & Hpos & Hmax).
    rewrite Hn in Hc. rewrite <- Hc. split; [exact Hpos | exact Hmax].
Qed.

(** The theorem on a chat written at valid hours. *)
Lemma hour_leaders_wrote_most_witness :
  exists e, In e (get_hour_leaders reply_chat) /\ hl_hour e = 9.
Proof.
  assert (Hv : valid_hours reply_chat).
  { repeat constructor; cbn; lia. }
  destruct (hour_leaders_wrote_most reply_chat) as (_ & _ & Hall & _).
  apply (Hall Hv (msg "alice" "c" (seconds 100) 9)). right. right. left. reflexivity.
Defined.

(** ** Top writers *)









(** ** Active chatters *)

Lemma user_rows_row (docs : list doc) (name : string) :
  count_of (docs_with username name docs) <> 0 ->
  exists row, In row (user_rows docs) /\ cur_id row = name.
Proof.
  intros Hnz.
  assert (Hin : In name (map cur_id (user_rows docs))).
  { apply user_rows_names. unfold count_of in Hnz.
    destruct (docs_with username name docs) as [|d r] eqn:Hd;
      [exfalso; apply Hnz; reflexivity|].
    assert (Hin : In d (docs_with username name docs)) by (rewrite Hd; left; reflexivity).
    unfold docs_with in Hin. apply List.filter_In in Hin as [Hin Hk].
    apply bool_decide_eq_true in Hk. exists d. tauto. }
  apply in_map_iff in Hin as (row & Hid & Hrow). exists row. tauto.
Qed.

(** X11.  For a threshold of at least 1, [get_active_chatters] lists
    exactly the users with at least [min_messages] messages since
    [minutes_back] minutes before now, without any cap, each once, with that
    number of messages, in order of decreasing count; [total_users] is the
    number of distinct authors of the collection, capped at 1000. *)
Theorem active_chatters_exact
  (min_messages minutes_back : Z) (now : datetime) (c : collection) :
  1 <= min_messages ->
  let chatters := fst (get_active_chatters min_messages minutes_back now c) in
  let total_users := snd (get_active_chatters min_messages minutes_back now c) in
  let recent := messages_of (fun d => now - minutes minutes_back <=? timestamp d) c in
  (forall name, (exists e, In e chatters /\ ac_username e = name)
                <-> min_messages <= recent name) /\
  (forall e, In e chatters -> ac_message_count e = recent (ac_username e)) /\
  (forall i j e e', (i < j)%nat ->
     nth_error chatters i = Some e -> nth_error chatters j = Some e' ->
     ac_message_count e' <= ac_message_count e /\ ac_username e <> ac_username e') /\
  (exists names, List.NoDup names /\
     (forall n, In n names <-> exists d, In d c /\ username d = n) /\
     total_users = Z.min 1000 (count_of names)).
Proof.
  intros Hmin chatters total_users recent.
  set (docs := List.filter (fun d => now - minutes minutes_back <=? timestamp d) c).
  set (rows := List.filter (fun r => min_messages <=? cur_count r) (user_rows docs)).
  set (entry := fun r => {| ac_username := cur_id r; ac_display_name := cur_display_name r;
                            ac_message_count := cur_count r |}).
  assert (Hch : chatters = map entry (sort_desc cur_count rows)) by reflexivity.
  assert (Hperm : Permutation (sort_desc cur_count rows) rows) by apply sort_by_perm.
  assert (Hrows : forall r, In r rows ->
            cur_count r = recent (cur_id r) /\ min_messages <= cur_count r).
  { intros r Hr. apply List.filter_In in Hr as [Hr Hm]. apply Z.leb_le in Hm.
    split; [apply (user_rows_In docs r Hr) | exact Hm]. }
  split; [|split; [|split]].
  - intros name. split.
    + intros (e & He & <-). rewrite Hch in He. apply in_map_iff in He as (r & <- & Hr).
      apply (Permutation_in _ Hperm) in Hr. destruct (Hrows r Hr) as [Hc Hm].
      cbn [entry ac_username]. lia.
    + intros Hm. destruct (user_rows_row docs name) as (row & Hrow & Hid).
      { unfold recent, messages_of in Hm. fold docs in Hm. lia. }
      exists (entry row). split; [|exact Hid].
      rewrite Hch. apply in_map. apply (Permutation_in _ (Permutation_sym Hperm)).
      apply List.filter_In. split; [exact Hrow|]. apply Z.leb_le.
      destruct (user_rows_In docs row Hrow) as [Hc _]. rewrite Hc, Hid. exact Hm.
  - intros e He. rewrite Hch in He. apply in_map_iff in He as (r & <- & Hr).
    apply (Permutation_in _ Hperm) in Hr. apply (Hrows r Hr).
  - intros i j e e' Hij He He'. rewrite Hch, nth_error_map in He, He'.
    destruct (nth_error (sort_desc cur_count rows) i) as [x|] eqn:Hx; [|discriminate].
    destruct (nth_error (sort_desc cur_count rows) j) as [y|] eqn:Hy; [|discriminate].
    cbn in He, He'. injection He as <-. injection He' as <-.
    cbn [entry ac_message_count ac_username]. split.
    + exact (sort_desc_ordered cur_count rows i j x y Hij Hx Hy).
    + apply (NoDup_nth_error_neq cur_id (sort_desc cur_count rows) i j);
        [| lia | exact Hx | exact Hy].
      eapply Permutation_NoDup; [apply Permutation_map; symmetry; exact Hperm|].
      unfold rows. pose proof (user_rows_NoDup docs) as Hnd.
      revert Hnd. generalize (user_rows docs). intros l.
      induction l as [|a l IH]; intros Hnd; cbn [List.filter]; [constructor|].
      cbn [map] in Hnd. apply List.NoDup_cons_iff in Hnd as [Ha Hnd].
      destruct (min_messages <=? cur_count a); [|apply IH, Hnd].
      cbn [map]. constructor; [|apply IH, Hnd].
      intros Hin. apply Ha. apply in_map_iff in Hin as (b & Hb & Hin).
      apply List.filter_In in Hin as [Hin _]. apply in_map_iff. exists b. tauto.
  - exists (map fst (group_by username c)). split; [apply group_by_keys_NoDup|].
    split; [apply group_by_key_In|].
    unfold total_users, get_active_chatters. cbn [snd].
    unfold top_users, count_of. rewrite limit_limit. unfold limit.
    rewrite length_firstn. rewrite List.filter_true.
    unfold sort_desc. rewrite sort_by_length, !length_map.
    unfold MAX_USERS_QUERY. lia.
Qed.

(** The theorem at a threshold of one message in the last five minutes. *)
Lemma active_chatters_exact_witness :
  exists e, In e (fst (get_active_chatters 1 5 (seconds 200) reply_chat)) /\
            ac_username e = "bob"%string.
Proof.
  apply (proj1 (active_chatters_exact 1 5 (seconds 200) reply_chat ltac:(lia))).
  vm_compute. discriminate.
Defined.

(** ** Search *)





(** ** The peak of an activity histogram *)

Lemma peak_of_acc (activity : list HourlyActivity) (best : Z * Z) :
  let r := fold_left (fun best a => if snd best <? h_count a
                                    then (h_hour a, h_count a) else best)
                     activity best in
  snd best <= snd r /\
  (forall a, In a activity -> h_count a <= snd r) /\
  (r = best /\ (forall a, In a activity -> h_count a <= snd best)
   \/ exists i a, nth_error activity i = Some a /\ r = (h_hour a, h_count a) /\
                  snd best < h_count a /\
                  forall j b, (j < i)%nat -> nth_error activity j = Some b ->
                              h_count b < h_count a).
Proof.
  revert best. induction activity as [|x l IH]; intros best; cbn [fold_left].
  - cbv zeta. split; [lia|]. split; [intros a []|]. left. split; [reflexivity | intros a []].
  - cbv zeta. destruct (Z.ltb_spec (snd best) (h_count x)) as [Hlt|Hge].
    + destruct (IH (h_hour x, h_count x)) as (Hle & Hall & Hcase). cbn [snd] in *.
      split; [lia|]. split.
      * intros a [<-|Ha]; [exact Hle | apply Hall, Ha].
      * right. destruct Hcase as [[Heq Hmax]|(i & a & Hi & Heq & Hgt & Hfirst)].
        -- exists 0%nat, x. repeat split; [exact Heq | exact Hlt |]. intros j b Hj. lia.
        -- exists (S i), a. repeat split; [exact Hi | exact Heq | lia |].
           intros [|j] b Hj Hb; cbn in Hb.
           ++ injection Hb as <-. exact Hgt.
           ++ apply (Hfirst j); [lia | exact Hb].
    + destruct (IH best) as (Hle & Hall & Hcase).
      split; [exact Hle|]. split.
      * intros a [<-|Ha]; [lia | apply Hall, Ha].
      * destruct Hcase as [[Heq Hmax]|(i & a & Hi & Heq & Hgt & Hfirst)].
        -- left. split; [exact Heq|]. intros a [<-|Ha]; [exact Hge | apply Hmax, Ha].
        -- right. exists (S i), a. repeat split; [exact Hi | exact Heq | exact Hgt |].
           intros [|j] b Hj Hb; cbn in Hb.
           ++ injection Hb as <-. lia.
           ++ apply (Hfirst j); [lia | exact Hb].
Qed.

Lemma histogram_nth (rows : list (Z * Z)) (i : nat) (a : HourlyActivity) :
  nth_error (histogram rows) i = Some a ->
  (i < 24)%nat /\ h_hour a = Z.of_nat i /\
  h_count a = dict_get (dict_of rows) (Z.of_nat i) 0.
Proof.
  unfold histogram, range. rewrite nth_error_map, nth_error_map.
  destruct (nth_error (seq 0 24) i) as [k|] eqn:Hk; [|discriminate].
  assert (Hlt : (i < length (seq 0 24))%nat) by (apply nth_error_Some; congruence).
  rewrite length_seq in Hlt.
  apply nth_error_nth with (d := 0%nat) in Hk. rewrite seq_nth in Hk by exact Hlt.
  subst k. cbn [option_map]. intros H. injection H as <-. cbn [h_hour h_count].
  repeat split. exact Hlt.
Qed.

(** The peak of a histogram of non-negative bins: the highest count, and
    the first hour that has it. *)
Lemma peak_of_histogram (rows : list (Z * Z)) :
  let bins := fun h => dict_get (dict_of rows) h 0 in
  let '(peak_hour, peak_count) := peak_of (histogram rows) in
  (forall h, 0 <= h < 24 -> bins h <= peak_count) /\
  0 <= peak_hour < 24 /\
  ((forall h, 0 <= h < 24 -> bins h <= 0) -> peak_hour = 0 /\ peak_count = 0) /\
  ((exists h, 0 <= h < 24 /\ 0 < bins h) ->
   bins peak_hour = peak_count /\
   forall h, 0 <= h < peak_hour -> bins h < peak_count).
Proof.
  intros bins. unfold peak_of.
  destruct (peak_of_acc (histogram rows) (0, 0)) as (Hle & Hall & Hcase).
  cbv zeta in *. cbn [snd] in *.
  assert (Hbin : forall h, 0 <= h < 24 ->
            nth_error (histogram rows) (Z.to_nat h)
            = Some {| h_hour := h; h_count := bins h |}).
  { intros h Hh. unfold histogram, range. rewrite !nth_error_map.
    rewrite (nth_error_nth' (seq 0 24) 0%nat) by (rewrite length_seq; lia).
    rewrite seq_nth by lia. cbn [option_map]. rewrite Nat.add_0_l, Z2Nat.id by lia.
    reflexivity. }
  destruct (fold_left _ (histogram rows) (0, 0)) as [ph pc] eqn:Hfold. cbn [snd] in *.
  assert (Hmax : forall h, 0 <= h < 24 -> bins h <= pc).
  { intros h Hh. apply (Hall {| h_hour := h; h_count := bins h |}).
    eapply nth_error_In, Hbin, Hh. }
  split; [exact Hmax|].
  destruct Hcase as [[Heq Hzero]|(i & a & Hi & Heq & Hgt & Hfirst)].
  - injection Heq as -> ->. split; [lia|]. split; [intros _; split; reflexivity|].
    intros (h & Hh & Hpos). specialize (Hmax h Hh). lia.
  - injection Heq as -> ->. destruct (histogram_nth rows i a Hi) as (Hlt & Hhour & Hcount).
    fold (bins (Z.of_nat i)) in Hcount. rewrite Hhour.
    split; [lia|]. split.
    + intros Hzero. specialize (Hzero (Z.of_nat i)). lia.
    + intros _. split; [symmetry; exact Hcount|].
      intros h Hh. specialize (Hfirst (Z.to_nat h) _ ltac:(lia) (Hbin h ltac:(lia))).
      exact Hfirst.
Qed.

Section RowsOfAKey.

Context {A : Type} (key : A -> Z).

(** The rows [{"_id": key, "count": n}] of a [$group] with a count, sorted
    by key, looked up at a key. *)
Lemma count_rows_get (l : list A) (h : Z) :
  dict_get (dict_of (sort_asc fst (map (fun g => (fst g, count_of (snd g)))
                                       (group_by key l)))) h 0
  = count_of (docs_with key h l).
Proof.
  unfold dict_get.
  set (items := map (fun g : Z * list A => (fst g, count_of (snd g))) (group_by key l)).
  assert (Hkeys : map fst items = map fst (group_by key l))
    by (unfold items; rewrite map_map; reflexivity).
  assert (Hnd : List.NoDup (map fst items))
    by (rewrite Hkeys; apply group_by_keys_NoDup).
  rewrite (dict_of_perm items) by (try exact Hnd; symmetry; apply sort_by_perm).
  destruct (docs_with key h l) as [|d r] eqn:Hd.
  - rewrite dict_of_lookup_None; [reflexivity|].
    rewrite Hkeys. intros Hin. apply in_map_iff in Hin as ([k ds] & Hk & Hin).
    cbn in Hk. subst k. apply group_by_In in Hin as [-> Hne]. congruence.
  - rewrite (dict_of_lookup_In items h (count_of (d :: r)) Hnd); [reflexivity|].
    unfold items. apply in_map_iff. exists (h, d :: r). split; [reflexivity|].
    apply group_by_In. split; [congruence | discriminate].
Qed.

Lemma count_rows_length (l : list A) :
  List.Forall (fun x => 0 <= key x < 24) l ->
  (length (sort_asc fst (map (fun g => (fst g, count_of (snd g))) (group_by key l)))
   <= 24)%nat.
Proof.
  intros Hv. unfold sort_asc. rewrite sort_by_length, length_map.
  rewrite <- (length_map fst). change 24%nat with (length (range 24)).
  apply List.NoDup_incl_length; [apply group_by_keys_NoDup|].
  intros k Hk. apply group_by_key_In in Hk as (x & Hx & <-).
  rewrite List.Forall_forall in Hv. specialize (Hv x Hx).
  unfold range. apply in_map_iff. exists (Z.to_nat (key x)). split; [lia|].
  apply in_seq. lia.
Qed.

Lemma sum_counts_by_key (l : list A) :
  List.Forall (fun x => 0 <= key x < 24) l ->
  sum_Z (map (fun h => count_of (docs_with key h l)) (range 24)) = count_of l.
Proof.
  induction 1 as [|x l Hx _ IH].
  - vm_compute. reflexivity.
  - assert (Hcons : forall h, count_of (docs_with key h (x :: l))
              = (if bool_decide (key x = h) then 1 else 0) + count_of (docs_with key h l)).
    { intros h. unfold docs_with, count_of. cbn [List.filter].
      destruct (bool_decide (key x = h)); cbn [length]; lia. }
    rewrite (map_ext _ _ Hcons), sum_Z_map_add, IH, sum_indicator_24 by exact Hx.
    unfold count_of. cbn [length]. lia.
Qed.

End RowsOfAKey.

(** X13.  When the stored hours are hours of the day,
    [get_chat_activity_today] returns 24 bins for the hours 0 to 23, bin
    [h] counting the messages of the last 24 hours written at hour [h];
    [total_today] is the number of messages of the last 24 hours;
    [peak_count] is the highest bin and [peak_hour] the first hour that has
    it, and both are 0 when the last 24 hours hold no message. *)
Theorem chat_activity_today_peak (now : datetime) (c : collection) :
  valid_hours c ->
  let '(activity, total_today, peak_hour, peak_count) :=
    get_chat_activity_today now c in
  let bins := fun h => count_at_hour h (last_day now c) in
  map h_hour activity = range 24 /\
  map h_count activity = map bins (range 24) /\
  total_today = count_of (last_day now c) /\
  (forall h, 0 <= h < 24 -> bins h <= peak_count) /\
  0 <= peak_hour < 24 /\
  (last_day now c = [] -> peak_hour = 0 /\ peak_count = 0) /\
  (last_day now c <> [] ->
   0 < peak_count /\ bins peak_hour = peak_count /\
   forall h, 0 <= h < peak_hour -> bins h < peak_count).
Proof.
  intros Hv. unfold get_chat_activity_today. fold (last_day now c).
  assert (Hvd : valid_hours (last_day now c)) by apply valid_hours_filter, Hv.
  rewrite (limit_all 24) by (pose proof (hourly_rows_length _ Hvd); lia).
  pose proof (peak_of_histogram (hourly_rows (last_day now c))) as Hpeak.
  destruct (peak_of (histogram (hourly_rows (last_day now c)))) as [peak_hour peak_count].
  cbv zeta in Hpeak |- *.
  assert (Hbins : forall h, dict_get (dict_of (hourly_rows (last_day now c))) h 0
                            = count_at_hour h (last_day now c))
    by (intros h; apply hourly_rows_get).
  destruct Hpeak as (Hmax & Hrange & Hzero & Hpos).
  split; [apply histogram_hours|]. split; [apply histogram_counts|].
  split; [rewrite histogram_counts; apply sum_count_at_hour, Hvd|].
  split; [intros h Hh; rewrite <- Hbins; apply Hmax, Hh|].
  split; [exact Hrange|]. split.
  - intros Hnil. apply Hzero. intros h _. rewrite Hbins, Hnil. reflexivity.
  - intros Hne.
    assert (Hex : exists h, 0 <= h < 24 /\
                    0 < dict_get (dict_of (hourly_rows (last_day now c))) h 0).
    { destruct (last_day now c) as [|d r] eqn:Hd; [congruence|].
      inversion Hvd as [|? ? Hh _]; subst. exists (hour d). split; [exact Hh|].
      rewrite Hbins, count_at_hour_cons, bool_decide_true by reflexivity.
      unfold count_at_hour, count_of. lia. }
    destruct (Hpos Hex) as [Hat Hfirst]. rewrite Hbins in Hat.
    destruct Hex as (h & Hh & Hp). specialize (Hmax h Hh).
    split; [lia|]. split; [exact Hat|].
    intros h' Hh'. rewrite <- Hbins. apply Hfirst, Hh'.
Qed.

(** The theorem on a chat written at valid hours. *)
Lemma chat_activity_today_peak_witness :
  snd (fst (fst (get_chat_activity_today (seconds 200) reply_chat))) = 3.
Proof.
  assert (Hv : valid_hours reply_chat) by (repeat constructor; cbn; lia).
  pose proof (chat_activity_today_peak (seconds 200) reply_chat Hv) as H.
  destruct (get_chat_activity_today (seconds 200) reply_chat) as [[[a t] ph] pc].
  destruct H as (_ & _ & -> & _). reflexivity.
Defined.

(** ** Unique chatters by hour *)

Lemma NoDup_map_on {A B} (f : A -> B) (l : list A) :
  List.NoDup l -> (forall x y, In x l -> In y l -> f x = f y -> x = y) ->
  List.NoDup (map f l).
Proof.
  induction 1 as [|x l Hx Hnd IH]; intros Hinj; cbn [map]; constructor.
  - intros Hin. apply in_map_iff in Hin as (y & Hy & Hin).
    apply Hx. rewrite (Hinj x y); [exact Hin | left; reflexivity | right; exact Hin | congruence].
  - apply IH. intros a b Ha Hb. apply Hinj; right; assumption.
Qed.

Lemma hour_user_pairs (docs : list doc) (h : Z) (u : string) :
  In (h, u) (map fst (group_by (fun d => (hour d, username d)) docs))
  <-> exists d, In d docs /\ hour d = h /\ username d = u.
Proof.
  rewrite group_by_key_In. split.
  - intros (d & Hd & Hk). injection Hk as <- <-. exists d. tauto.
  - intros (d & Hd & <- & <-). exists d. tauto.
Qed.

(** The number of pairs of an hour is the number of authors at that hour. *)
Lemma pairs_at_hour (docs : list doc) (h : Z) :
  count_of (docs_with fst h (map fst (group_by (fun d => (hour d, username d)) docs)))
  = distinct_authors (docs_with hour h docs).
Proof.
  set (pairs := map fst (group_by (fun d => (hour d, username d)) docs)).
  unfold distinct_authors. rewrite set_of_group_keys. unfold count_of. f_equal.
  rewrite <- (length_map snd). apply Permutation_length, Permutation.NoDup_Permutation.
  - apply NoDup_map_on.
    + apply List.NoDup_filter. apply group_by_keys_NoDup.
    + intros [h1 u1] [h2 u2] H1 H2 Hs. cbn in Hs. subst u2.
      apply List.filter_In in H1 as [_ H1]. apply List.filter_In in H2 as [_ H2].
      apply bool_decide_eq_true in H1, H2. cbn in H1, H2. congruence.
  - apply group_by_keys_NoDup.
  - intros u. rewrite group_by_key_In. split.
    + intros Hin. apply in_map_iff in Hin as ([h0 u0] & Hu & Hin). cbn in Hu. subst u0.
      apply List.filter_In in Hin as [Hin Hh]. apply bool_decide_eq_true in Hh.
      cbn in Hh. subst h0. apply hour_user_pairs in Hin as (d & Hd & Hh & Hu).
      exists d. split; [|exact Hu]. apply List.filter_In. split; [exact Hd|].
      apply bool_decide_eq_true, Hh.
    + intros (d & Hd & Hu). apply List.filter_In in Hd as [Hd Hh].
      apply bool_decide_eq_true in Hh. apply in_map_iff. exists (h, u).
      split; [reflexivity|]. apply List.filter_In. split.
      * apply hour_user_pairs. exists d. tauto.
      * apply bool_decide_eq_true. reflexivity.
Qed.

(** X14.  When the stored hours are hours of the day,
    [get_unique_chatters_by_hour] returns 24 bins, bin [h] holding the
    number of distinct authors of the last 24 hours at hour [h].
    [total_unique] is the sum of the bins: an author counts once for every
    hour they wrote at, so the total is at least the number of distinct
    authors, and it is 2 for a single author who wrote at two hours. *)
Theorem unique_chatters_sum_over_hours (now : datetime) (c : collection) :
  valid_hours c ->
  (let '(activity, total_unique, _, _) := get_unique_chatters_by_hour now c in
   map h_hour activity = range 24 /\
   map h_count activity
   = map (fun h => distinct_authors (docs_with hour h (last_day now c))) (range 24) /\
   total_unique = sum_Z (map h_count activity) /\
   distinct_authors (last_day now c) <= total_unique) /\
  (let '(_, total_unique, _, _) := get_unique_chatters_by_hour (seconds 5000) two_hour_chat in
   total_unique = 2 /\ distinct_authors (last_day (seconds 5000) two_hour_chat) = 1).
Proof.
  intros Hv. split; [|vm_compute; split; reflexivity].
  unfold get_unique_chatters_by_hour. fold (last_day now c).
  set (docs := last_day now c).
  assert (Hvd : valid_hours docs) by apply valid_hours_filter, Hv.
  set (pairs := map fst (group_by (fun d => (hour d, username d)) docs)).
  assert (Hvp : List.Forall (fun x : Z * string => 0 <= fst x < 24) pairs).
  { apply List.Forall_forall. intros [h u] Hin. apply hour_user_pairs in Hin as (d & Hd & <- & _).
    unfold valid_hours in Hvd. rewrite List.Forall_forall in Hvd. apply Hvd, Hd. }
  change (unique_rows docs)
    with (sort_asc fst (map (fun g : Z * list (Z * string) => (fst g, count_of (snd g)))
                            (group_by fst pairs))).
  rewrite (limit_all 24) by (pose proof (count_rows_length fst pairs Hvp); lia).
  destruct (peak_of _) as [peak_hour peak_count].
  assert (Hcounts : map h_count (histogram
            (sort_asc fst (map (fun g : Z * list (Z * string) => (fst g, count_of (snd g)))
                               (group_by fst pairs))))
          = map (fun h => distinct_authors (docs_with hour h docs)) (range 24)).
  { unfold histogram. rewrite map_map. cbn [h_count]. apply map_ext. intros h.
    rewrite (count_rows_get fst pairs h). apply pairs_at_hour. }
  split; [apply histogram_hours|]. split; [exact Hcounts|]. split; [reflexivity|].
  rewrite Hcounts.
  rewrite <- (map_ext _ _ (fun h => pairs_at_hour docs h)). fold pairs.
  rewrite (sum_counts_by_key fst pairs Hvp).
  unfold distinct_authors. rewrite set_of_group_keys. unfold count_of.
  apply inj_le. rewrite <- (length_map snd pairs).
  apply List.NoDup_incl_length; [apply group_by_keys_NoDup|].
  intros u Hu. apply group_by_key_In in Hu as (d & Hd & <-).
  apply in_map_iff. exists (hour d, username d). split; [reflexivity|].
  apply hour_user_pairs. exists d. tauto.
Qed.

(** The theorem on a chat written at valid hours. *)
Lemma unique_chatters_sum_over_hours_witness :
  distinct_authors (last_day (seconds 200) reply_chat)
  <= snd (fst (fst (get_unique_chatters_by_hour (seconds 200) reply_chat))).
Proof.
  assert (Hv : valid_hours reply_chat) by (repeat constructor; cbn; lia).
  destruct (unique_chatters_sum_over_hours (seconds 200) reply_chat Hv) as [H _].
  destruct (get_unique_chatters_by_hour (seconds 200) reply_chat) as [[[a t] ph] pc].
  destruct H as (_ & _ & _ & H). exact H.
Defined.

(** ** Emote counts *)

Lemma fold_left_concat {A B} (f : A -> B -> A) (ls : list (list B)) (a : A) :
  fold_left f (concat ls) a = fold_left (fun acc l => fold_left f l acc) ls a.
Proof.
  revert a. induction ls as [|l ls IH]; intros a; cbn [concat fold_left]; [reflexivity|].
  rewrite fold_left_app. apply IH.
Qed.

Lemma emote_counts_tokens (emotes : gmap string string) (messages : list string) :
  emote_counts emotes messages = fold_left (count_word emotes) (tokens messages) [].
Proof.
  unfold emote_counts, tokens. rewrite fold_left_concat.
  generalize (@nil (string * Z)). induction messages as [|m ms IH]; intros acc; [reflexivity|].
  cbn [map fold_left]. apply IH.
Qed.

Lemma occurrences_snoc (w w' : string) (l : list string) :
  occurrences w (l ++ [w']) = occurrences w l + (if String.eqb w w' then 1 else 0).
Proof.
  unfold occurrences, count_of. rewrite List.filter_app, length_app. cbn [List.filter].
  destruct (String.eqb w w'); cbn [length]; lia.
Qed.

Lemma odict_get_Some_In {V} (d : list (string * V)) (k : string) (v : V) :
  odict_get d k = Some v -> In (k, v) d.
Proof.
  induction d as [|[k1 v1] d IH]; cbn [odict_get]; [discriminate|].
  destruct (String.eqb_spec k k1) as [->|_].
  - intros H. injection H as ->. left. reflexivity.
  - intros H. right. apply IH, H.
Qed.

(** What the dict of counts holds after the words [toks]. *)
Lemma count_words_inv (emotes : gmap string string) (toks : list string) :
  let counts := fold_left (count_word emotes) toks [] in
  List.NoDup (map fst counts) /\
  (forall w, tally counts w = if is_emote emotes w then occurrences w toks else 0) /\
  (forall w n, In (w, n) counts -> is_emote emotes w = true /\ 1 <= n).
Proof.
  induction toks as [|t toks IH] using rev_ind.
  - cbv zeta. cbn [fold_left]. split; [constructor|]. split; [|intros w n []].
    intros w. unfold tally, occurrences. cbn. destruct (is_emote emotes w); reflexivity.
  - cbv zeta in *. rewrite fold_left_app. cbn [fold_left].
    set (counts := fold_left (count_word emotes) toks []) in *.
    destruct IH as (Hnd & Htally & Hent). unfold count_word.
    assert (Ht : is_emote emotes t = match emotes !! t with Some _ => true | None => false end)
      by reflexivity.
    destruct (emotes !! t) as [id|] eqn:Hl.
    + split; [apply odict_set_NoDup, Hnd|]. split.
      * intros w. unfold tally at 1. rewrite odict_get_set, occurrences_snoc.
        destruct (String.eqb_spec w t) as [->|Hne].
        -- fold (tally counts t). rewrite Htally, Ht. reflexivity.
        -- fold (tally counts w). rewrite Htally. destruct (is_emote emotes w); lia.
      * intros w n Hin. apply odict_set_In in Hin as [[-> ->]|[_ Hin]]; [| |exact Hnd].
        -- split; [exact Ht|]. fold (tally counts t). rewrite Htally, Ht.
           unfold occurrences, count_of. lia.
        -- apply Hent, Hin.
    + split; [exact Hnd|]. split; [|exact Hent].
      intros w. rewrite Htally, occurrences_snoc.
      destruct (is_emote emotes w) eqn:Hw; [|reflexivity].
      destruct (String.eqb_spec w t) as [->|_]; [congruence | lia].
Qed.

(** The entries of the list [count_emotes_with] returns. *)
Lemma count_emotes_with_In (emotes : gmap string string) (messages : list string)
  (lim : Z) (u : EmoteUsage) :
  In u (count_emotes_with emotes messages lim) ->
  emotes !! emote_name u = Some (emote_id u) /\
  eu_count u = occurrences (emote_name u) (tokens messages) /\
  1 <= eu_count u.
Proof.
  unfold count_emotes_with. destruct (decide (emotes = ∅)) as [He|Hne]; [intros []|].
  rewrite emote_counts_tokens.
  destruct (count_words_inv emotes (tokens messages)) as (Hnd & Htally & Hent).
  set (counts := fold_left (count_word emotes) (tokens messages) []) in *.
  intros Hin. apply in_map_iff in Hin as ([w n] & <- & Hin).
  apply limit_In in Hin.
  apply (Permutation_in _ (sort_by_perm _ counts)) in Hin.
  destruct (Hent w n Hin) as [Hw Hn]. cbn [emote_name emote_id eu_count fst snd].
  unfold is_emote in Hw. unfold dict_get.
  destruct (emotes !! w) as [id|] eqn:Hl; [|discriminate].
  split; [reflexivity|]. split; [|exact Hn].
  pose proof (Htally w) as Ht. unfold tally in Ht.
  rewrite (odict_get_In counts w n Hnd Hin) in Ht. unfold is_emote in Ht.
  rewrite Hl in Ht. exact Ht.
Qed.

(** X15.  [count_emotes_in_messages] returns nothing when the emote map
    it gets is empty.  Otherwise it returns at most [lim] usages, each emote
    once, in order of decreasing count; every usage names a key of the map
    with the id stored under it, and its count is the number of words of the
    messages, split at white space as [str.split] does, that are equal to
    the name, which is at least 1.  A no-break space and an ideographic
    space separate words as a blank does. *)
Theorem emote_usage_counts_words
  (messages : list string) (lim : Z) (io : emote_io) (g : emote_globals) :
  let usages := fst (count_emotes_in_messages messages lim io g) in
  let emotes := fst (get_7tv_emotes (io_now io) (io_channel io) (io_global io) g) in
  (emotes = ∅ -> usages = []) /\
  (0 <= lim -> Z.of_nat (length usages) <= lim) /\
  (forall u, In u usages ->
     emotes !! emote_name u = Some (emote_id u) /\
     eu_count u = occurrences (emote_name u) (tokens messages) /\
     1 <= eu_count u) /\
  (forall i j u u', (i < j)%nat ->
     nth_error usages i = Some u -> nth_error usages j = Some u' ->
     eu_count u' <= eu_count u /\ emote_name u <> emote_name u') /\
  (split ("Kappa" ++ nbsp ++ "Kappa Pog") = ["Kappa"; "Kappa"; "Pog"]%string /\
   split (" Kappa" ++ ideographic_space ++ tab ++ "oi  ") = ["Kappa"; "oi"]%string /\
   split "KappaKappa" = ["KappaKappa"]%string).
Proof.
  intros usages emotes.
  assert (Hex : split ("Kappa" ++ nbsp ++ "Kappa Pog") = ["Kappa"; "Kappa"; "Pog"]%string /\
                split (" Kappa" ++ ideographic_space ++ tab ++ "oi  ")
                = ["Kappa"; "oi"]%string /\
                split "KappaKappa" = ["KappaKappa"]%string)
    by (repeat split; vm_compute; reflexivity).
  assert (Hu : usages = count_emotes_with emotes messages lim).
  { unfold usages, emotes, count_emotes_in_messages.
    destruct (get_7tv_emotes _ _ _ g) as [em g']. reflexivity. }
  rewrite Hu. clear Hu usages.
  pose proof (count_emotes_with_In emotes messages lim) as Husage.
  unfold count_emotes_with in *.
  destruct (decide (emotes = ∅)) as [He|Hne].
  { split; [reflexivity|]. split; [cbn; lia|]. split; [intros u []|].
    split; [|exact Hex]. intros i j u u' _ H. destruct i; discriminate. }
  rewrite emote_counts_tokens in *.
  destruct (count_words_inv emotes (tokens messages)) as (Hnd & Htally & Hent).
  set (counts := fold_left (count_word emotes) (tokens messages) []) in *.
  set (sorted := sort_desc snd counts).
  assert (Hperm : Permutation sorted counts) by apply sort_by_perm.
  split; [intros He; contradiction|]. split; [|split; [|split; [|exact Hex]]].
  - intros Hlim. rewrite length_map. apply limit_length_Z, Hlim.
  - exact Husage.
  - intros i j u u' Hij Hi Hj. rewrite nth_error_map in Hi, Hj.
    destruct (nth_error (limit lim sorted) i) as [x|] eqn:Hx; [|discriminate].
    destruct (nth_error (limit lim sorted) j) as [y|] eqn:Hy; [|discriminate].
    cbn in Hi, Hj. injection Hi as <-. injection Hj as <-.
    apply limit_nth_error in Hx, Hy. cbn [eu_count emote_name]. split.
    + exact (sort_desc_ordered snd counts i j x y Hij Hx Hy).
    + apply (NoDup_nth_error_neq fst sorted i j); [| lia | exact Hx | exact Hy].
      eapply Permutation_NoDup; [apply Permutation_map; symmetry; exact Hperm | exact Hnd].
Qed.

(** The theorem with a cached map of one emote, at messages with a
    no-break space. *)
Lemma emote_usage_counts_words_witness :
  let g := {| _7tv_emotes_cache := Some {[ "Kappa"%string := "60ae"%string ]};
              _7tv_cache_time := Some 0 |} in
  let io := {| io_now := seconds 10; io_channel := HttpTimeout;
               io_global := HttpTimeout |} in
  let messages := ["Kappa" ++ nbsp ++ "Kappa Pog"; "kappa Kappa"]%string in
  map (fun u => (emote_name u, emote_id u, eu_count u))
      (fst (count_emotes_in_messages messages 5 io g))
  = [("Kappa"%string, "60ae"%string, 3)] /\
  Z.of_nat (length (fst (count_emotes_in_messages messages 5 io g))) <= 5.
Proof.
  cbv zeta. split; [vm_compute; reflexivity|].
  apply (proj1 (proj2 (emote_usage_counts_words _ 5 _ _))). lia.
Defined.

(** ** Global emotes over channel emotes *)

Lemma store_emotes_lookup (entries : list emote_json) (emotes : gmap string string)
  (name : string) :
  fst (store_emotes entries emotes) !! name
  = match last_id name (before_malformed entries) with
    | Some i => Some i
    | None => emotes !! name
    end.
Proof.
  revert emotes. induction entries as [|[n i|] r IH]; intros emotes;
    cbn [store_emotes before_malformed last_id fst]; try reflexivity.
  rewrite IH. destruct (last_id name (before_malformed r)); [reflexivity|].
  destruct (String.eqb_spec n name) as [->|Hne].
  - apply lookup_insert_eq.
  - apply lookup_insert_ne, Hne.
Qed.

Lemma store_emotes_outcome (entries : list emote_json) (emotes : gmap string string) :
  (before_malformed entries = entries -> snd (store_emotes entries emotes) = Returns tt) /\
  (before_malformed entries <> entries ->
   snd (store_emotes entries emotes) = Raises KeyError).
Proof.
  revert emotes. induction entries as [|[n i|] r IH]; intros emotes;
    cbn [store_emotes before_malformed snd].
  - split; [reflexivity | congruence].
  - destruct (IH (<[n:=i]> emotes)) as [Hok Hbad]. split.
    + intros H. apply Hok. congruence.
    + intros H. apply Hbad. congruence.
  - split; [discriminate | reflexivity].
Qed.

(** X16.  When both 7TV requests answer 200 with well-formed arrays, the
    refreshed map gives a name the id of its last entry in the global set
    and, for a name the global set does not have, of its last entry in the
    channel set: a global emote replaces a channel emote of the same name.
    When the channel array holds a malformed entry, the map keeps only the
    channel entries before it, whatever the global request would return. *)
Theorem global_emotes_replace_channel_emotes
  (now : datetime) (channel global : list emote_json) (g : emote_globals)
  (name : string) :
  cache_fresh g now = None ->
  (well_formed channel -> well_formed global ->
   fst (get_7tv_emotes now (HttpResponse 200 (Some channel))
                       (HttpResponse 200 (Some global)) g) !! name
   = match last_id name global with
     | Some i => Some i
     | None => last_id name channel
     end) /\
  (~ well_formed channel ->
   forall global_resp,
     fst (get_7tv_emotes now (HttpResponse 200 (Some channel)) global_resp g) !! name
     = last_id name (before_malformed channel)).
Proof.
  intros Hstale. unfold get_7tv_emotes. rewrite Hstale. cbn [fst].
  unfold try_fetch, fetch_into. cbn [Z.eqb Pos.eqb].
  pose proof (store_emotes_lookup channel ∅ name) as Hch.
  destruct (store_emotes_outcome channel ∅) as [Hok Hraise].
  destruct (store_emotes channel ∅) as [m r]. cbn [fst snd] in *.
  split.
  - intros Hwc Hwg. unfold well_formed in Hwc, Hwg.
    rewrite (Hok Hwc), store_emotes_lookup, Hwg, Hch, Hwc, lookup_empty.
    destruct (last_id name global); [reflexivity|].
    destruct (last_id name channel); reflexivity.
  - intros Hbad global_resp. unfold well_formed in Hbad.
    rewrite (Hraise Hbad). cbn [fst]. rewrite Hch, lookup_empty.
    destruct (last_id name (before_malformed channel)); reflexivity.
Qed.

(** The theorem at an emote that both sets define. *)
Lemma global_emotes_replace_channel_emotes_witness :
  fst (get_7tv_emotes 0 (HttpResponse 200 (Some [Emote "Kappa" "c1"; Emote "Pog" "c2"]))
                      (HttpResponse 200 (Some [Emote "Kappa" "g1"])) no_cache)
  !! "Kappa"%string = Some "g1"%string.
Proof.
  apply (proj1 (global_emotes_replace_channel_emotes 0
                  [Emote "Kappa" "c1"; Emote "Pog" "c2"] [Emote "Kappa" "g1"]
                  no_cache "Kappa" eq_refl)); reflexivity.
Defined.

(** ** The remaining fields of [get_user_stats] *)

Lemma get_user_stats_record
  (uname period : string) (io : stats_io) (g : emote_globals) (c : collection) :
  let matched :=
    List.filter (user_in_period uname (get_date_filter period (st_now_filter io))) c in
  matched <> [] ->
  exists stats g',
    get_user_stats uname period io g c = (Returns (Some stats), g') /\
    us_username stats = lower uname /\
    us_display_name stats = last_of display_name matched /\
    us_period stats = period /\
    total_messages stats = count_of matched /\
    hourly_activity stats = histogram (hourly_rows matched) /\
    first_message_date stats = min_timestamp matched /\
    last_message_date stats = max_timestamp matched /\
    get_peak_hours (histogram (hourly_rows matched)) = Returns (peak_hours stats) /\
    favorite_hour stats
    = favorite_hour_of (count_of matched) (histogram (hourly_rows matched)) /\
    (top_emotes stats, g')
    = get_user_top_emotes uname 10 (st_now_emotes io) (st_emote_io io) g c /\
    recent_messages stats
    = map (fun d => {| rm_message := message d; rm_timestamp := timestamp d |})
          (recent_docs_of uname c).
Proof.
  intros matched Hm. unfold get_user_stats. fold matched.
  destruct (Z.eqb_spec (count_of matched) 0) as [H0|_].
  { destruct matched; [congruence|]. unfold count_of in H0. cbn in H0. lia. }
  destruct (get_peak_hours_returns (histogram (hourly_rows matched))
              (histogram_length _)) as [peak ->].
  destruct (get_user_top_emotes uname 10 (st_now_emotes io) (st_emote_io io) g c)
    as [emotes g'].
  eexists. exists g'. split; [reflexivity|].
  cbn [us_username us_display_name us_period total_messages hourly_activity
       first_message_date last_message_date peak_hours favorite_hour top_emotes
       recent_messages].
  repeat split.
Qed.

(** ** The favourite hour *)

Lemma max_by_count_first (best : HourlyActivity) (l : list HourlyActivity) :
  exists i,
    nth_error (best :: l) i = Some (max_by_count best l) /\
    (forall j x, nth_error (best :: l) j = Some x ->
                 h_count x <= h_count (max_by_count best l)) /\
    (forall j x, (j < i)%nat -> nth_error (best :: l) j = Some x ->
                 h_count x < h_count (max_by_count best l)).
Proof.
  revert best. induction l as [|h r IH]; intros best; cbn [max_by_count].
  - exists 0%nat. split; [reflexivity|]. split; [|intros j x Hj; lia].
    intros [|j] x Hx; [injection Hx as <-; lia|]. destruct j; discriminate.
  - destruct (Z.ltb_spec (h_count best) (h_count h)) as [Hlt|Hge].
    + destruct (IH h) as (i & Hi & Hall & Hbefore).
      assert (Hh : h_count h <= h_count (max_by_count h r))
        by (apply (Hall 0%nat); reflexivity).
      exists (S i). split; [exact Hi|]. split.
      * intros [|j] x Hx; [injection Hx as <-; lia|]. apply (Hall j), Hx.
      * intros [|j] x Hj Hx; [injection Hx as <-; lia|].
        apply (Hbefore j); [lia | exact Hx].
    + destruct (IH best) as (i & Hi & Hall & Hbefore).
      assert (Hb : h_count best <= h_count (max_by_count best r))
        by (apply (Hall 0%nat); reflexivity).
      destruct i as [|i].
      * exists 0%nat. split; [exact Hi|]. split; [|intros j x Hj; lia].
        intros [|[|j]] x Hx.
        -- injection Hx as <-. lia.
        -- injection Hx as <-. lia.
        -- apply (Hall (S j)), Hx.
      * assert (Hb' : h_count best < h_count (max_by_count best r))
          by (apply (Hbefore 0%nat); [lia | reflexivity]).
        exists (S (S i)). split; [exact Hi|]. split.
        -- intros [|[|j]] x Hx.
           ++ injection Hx as <-. lia.
           ++ injection Hx as <-. lia.
           ++ apply (Hall (S j)), Hx.
        -- intros [|[|j]] x Hj Hx.
           ++ injection Hx as <-. lia.
           ++ injection Hx as <-. lia.
           ++ apply (Hbefore (S j)); [lia | exact Hx].
Qed.

Lemma histogram_at (docs : list doc) (h : Z) :
  0 <= h < 24 ->
  exists a, nth_error (histogram (hourly_rows docs)) (Z.to_nat h) = Some a /\
            h_hour a = h /\ h_count a = count_at_hour h docs.
Proof.
  intros Hh.
  destruct (nth_error (histogram (hourly_rows docs)) (Z.to_nat h)) as [a|] eqn:Ha.
  - exists a. split; [reflexivity|].
    apply histogram_nth in Ha as (_ & Hhour & Hcount).
    rewrite Z2Nat.id in Hhour, Hcount by lia.
    split; [exact Hhour|]. rewrite Hcount. apply hourly_rows_get.
  - apply nth_error_None in Ha. rewrite histogram_length in Ha. lia.
Qed.

Lemma bin_histogram (docs : list doc) (h : Z) :
  0 <= h < 24 ->
  bin (map h_count (histogram (hourly_rows docs))) h = count_at_hour h docs.
Proof.
  intros Hh. destruct (histogram_at docs h Hh) as (a & Ha & _ & Hc).
  unfold bin. rewrite <- Hc.
  apply nth_error_nth. rewrite nth_error_map, Ha. reflexivity.
Qed.

Lemma count_at_hour_bounds (h : Z) (docs : list doc) :
  0 <= count_at_hour h docs <= count_of docs.
Proof.
  unfold count_at_hour, count_of, docs_with.
  pose proof (List.filter_length_le (fun d => bool_decide (hour d = h)) docs). lia.
Qed.

(** [get_peak_hours] on 24 bins, with the loop run to its end. *)
Lemma get_peak_hours_fold (ha : list HourlyActivity) :
  length ha = 24%nat ->
  let w := circular_sum3 (map h_count ha) in
  get_peak_hours ha
  = (let best := peak_fold w (range 24) (0, 0) in
     if fst best =? 0 then Returns []
     else Returns (map (fun i => (snd best + i) mod 24) (range 3))) /\
  peak_inv w 24 (peak_fold w (range 24) (0, 0)).
Proof.
  intros Hlen w. split.
  - unfold get_peak_hours. destruct ha as [|h0 rest]; [discriminate|].
    rewrite (peak_loop_fold (map h_count (h0 :: rest))).
    + cbn [bind]. fold w. destruct (peak_fold w (range 24) (0, 0)); reflexivity.
    + rewrite length_map. exact Hlen.
    + unfold range. apply List.Forall_forall. intros s Hs.
      apply in_map_iff in Hs as (k & <- & Hk). apply in_seq in Hk. lia.
  - apply (peak_fold_inv w 24 0 (0, 0)). left. cbn. repeat split; lia.
Qed.

(** X17.  When every stored hour is in 0..23, a result of
    [get_user_stats] always has a favourite hour: the first hour of the day
    at which the user wrote the most messages of the period, with that
    number of messages, which is at least 1 and at most [total_messages],
    and as percentage the share of these messages in the total, count /
    total * 100 computed in binary64 and rounded to one decimal by [round],
    which lies between 0 and 100: 23 messages of 80 give 28.7, although
    the exact share is 28.75.  Its [peak_hours] are then
    three consecutive hours modulo 24 that hold together at least as many
    messages as the favourite hour. *)
Theorem favorite_hour_is_first_busiest
  (uname period : string) (io : stats_io) (g : emote_globals) (c : collection) :
  let matched :=
    List.filter (user_in_period uname (get_date_filter period (st_now_filter io))) c in
  valid_hours c ->
  matched <> [] ->
  exists stats g' fh,
    get_user_stats uname period io g c = (Returns (Some stats), g') /\
    favorite_hour stats = Some fh /\
    0 <= fh_hour fh < 24 /\
    fh_count fh = count_at_hour (fh_hour fh) matched /\
    1 <= fh_count fh <= total_messages stats /\
    (forall h, 0 <= h < 24 -> count_at_hour h matched <= fh_count fh) /\
    (forall h, 0 <= h < fh_hour fh -> count_at_hour h matched < fh_count fh) /\
    fh_percentage fh
    = round1 (percent_of (fh_count fh) (total_messages stats)) /\
    (0 <= fh_percentage fh /\ fh_percentage fh <= 100)%Q /\
    (round1 (percent_of 23 80) = b64 (287 # 10) /\
     round1 (percent_of 1 3) = b64 (333 # 10) /\
     round1 (percent_of 2 3) = b64 (667 # 10) /\
     round1 (percent_of 5 5) = 100%Q) /\
    exists m, 0 <= m < 24 /\
      peak_hours stats = [m; (m + 1) mod 24; (m + 2) mod 24] /\
      fh_count fh <= count_at_hour m matched + count_at_hour ((m + 1) mod 24) matched
                     + count_at_hour ((m + 2) mod 24) matched.
Proof.
  intros matched Hv Hne.
  destruct (get_user_stats_record uname period io g c Hne)
    as (stats & g' & Hrun & _ & _ & _ & Ht & _ & _ & _ & Hpeak & Hfav & _ & _).
  fold matched in Ht, Hpeak, Hfav.
  assert (Hvm : valid_hours matched) by (apply valid_hours_filter, Hv).
  set (ha := histogram (hourly_rows matched)) in *.
  assert (Hlen : length ha = 24%nat) by apply histogram_length.
  (* some hour has a message *)
  assert (Hsome : exists h0, 0 <= h0 < 24 /\ 1 <= count_at_hour h0 matched).
  { destruct matched as [|d r] eqn:Hm; [congruence|].
    exists (hour d). split; [exact (Forall_inv Hvm)|].
    unfold count_at_hour, docs_with, count_of. cbn [List.filter].
    rewrite bool_decide_true by reflexivity. cbn [length]. lia. }
  destruct Hsome as (h0 & Hh0 & Hc0).
  destruct ha as [|a0 rest] eqn:Hha; [discriminate|].
  destruct (max_by_count_first a0 rest) as (i & Hi & Hall & Hbefore).
  set (mx := max_by_count a0 rest) in *.
  rewrite <- Hha in Hi, Hall, Hbefore.
  pose proof Hi as Hi'. apply histogram_nth in Hi' as (Hlt & Hhour & Hcnt).
  rewrite hourly_rows_get in Hcnt.
  assert (Hmax : forall h, 0 <= h < 24 -> count_at_hour h matched <= h_count mx).
  { intros h Hh. destruct (histogram_at matched h Hh) as (a & Ha & _ & Hc).
    rewrite <- Hc. apply (Hall (Z.to_nat h)), Ha. }
  assert (Hfirst : forall h, 0 <= h < h_hour mx -> count_at_hour h matched < h_count mx).
  { intros h Hh. destruct (histogram_at matched h) as (a & Ha & _ & Hc); [lia|].
    rewrite <- Hc. apply (Hbefore (Z.to_nat h)); [lia | exact Ha]. }
  assert (Hpos : 1 <= h_count mx) by (specialize (Hmax h0 Hh0); lia).
  assert (Htot : 0 < count_of matched).
  { pose proof (count_at_hour_bounds h0 matched). lia. }
  assert (Hfh : favorite_hour stats
                = Some {| fh_hour := h_hour mx; fh_count := h_count mx;
                          fh_percentage :=
                            round1 (percent_of (h_count mx) (count_of matched)) |}).
  { rewrite Hfav. unfold favorite_hour_of. fold mx.
    destruct (Z.ltb_spec 0 (count_of matched)) as [_|]; [|lia].
    destruct (Z.ltb_spec 0 (h_count mx)) as [_|]; [reflexivity | lia]. }
  eexists stats, g', _. split; [exact Hrun|]. split; [exact Hfh|].
  cbn [fh_hour fh_count fh_percentage]. rewrite Ht.
  split; [lia|]. split; [rewrite Hcnt, Hhour; reflexivity|].
  split. { rewrite Hcnt. pose proof (count_at_hour_bounds (Z.of_nat i) matched). lia. }
  split; [exact Hmax|]. split; [exact Hfirst|]. split; [reflexivity|].
  split.
  { destruct (percent_of_bounds (h_count mx) (count_of matched)) as [H0 H1].
    - rewrite Hcnt. pose proof (count_at_hour_bounds (Z.of_nat i) matched). lia.
    - exact Htot.
    - apply round1_range; lra. }
  split; [repeat split; vm_compute; reflexivity|].
  (* the peak window *)
  rewrite <- Hha in Hpeak.
  destruct (get_peak_hours_fold ha (histogram_length _)) as [Hfold Hinv].
  cbv zeta in Hfold, Hinv.
  set (w := circular_sum3 (map h_count ha)) in *.
  assert (Hw : forall s, 0 <= s < 24 ->
                 w s = count_at_hour s matched + count_at_hour ((s + 1) mod 24) matched
                       + count_at_hour ((s + 2) mod 24) matched).
  { intros s Hs. unfold w, circular_sum3, ha.
    rewrite !bin_histogram by (apply Z.mod_pos_bound; lia).
    rewrite (Z.mod_small s 24) by lia. reflexivity. }
  assert (Hwmx : h_count mx <= w (h_hour mx)).
  { rewrite Hw by lia. rewrite Hcnt, Hhour.
    pose proof (count_at_hour_bounds ((Z.of_nat i + 1) mod 24) matched).
    pose proof (count_at_hour_bounds ((Z.of_nat i + 2) mod 24) matched). lia. }
  rewrite Hfold in Hpeak.
  destruct Hinv as [(_ & _ & Hzero)|(Hbpos & Hb & Hr & Hbmax & _)].
  { specialize (Hzero (h_hour mx)). lia. }
  destruct (Z.eqb_spec (fst (peak_fold w (range 24) (0, 0))) 0) as [H0|_]; [lia|].
  set (b := snd (peak_fold w (range 24) (0, 0))) in *.
  exists b. split; [lia|]. split.
  - assert (Hp : peak_hours stats = map (fun i => (b + i) mod 24) (range 3))
      by congruence.
    rewrite Hp. change (range 3) with [0; 1; 2]. cbn [map]. rewrite Z.add_0_r.
    rewrite (Z.mod_small b 24) by lia. reflexivity.
  - rewrite <- Hw by lia. specialize (Hbmax (h_hour mx)). lia.
Qed.

(** The theorem at a chat in which [alice] writes once at each of the
    hours 9, 10 and 11: the favourite hour is 9, with a third of the
    messages. *)
Lemma favorite_hour_is_first_busiest_witness :
  exists stats g',
    get_user_stats "alice" "all" sample_io no_cache tie_chat
    = (Returns (Some stats), g') /\
    favorite_hour stats
    = Some {| fh_hour := 9; fh_count := 1; fh_percentage := b64 (333 # 10) |} /\
    b64 (333 # 10) = round1 (percent_of 1 (total_messages stats)).
Proof.
  assert (Hv : valid_hours tie_chat).
  { repeat constructor; cbn; lia. }
  destruct (favorite_hour_is_first_busiest "alice" "all" sample_io no_cache tie_chat Hv)
    as (stats & g' & fh & Hrun & Hfav & _ & _ & _ & _ & _ & Hpct & _).
  - discriminate.
  - exists stats, g'. split; [exact Hrun|].
    assert (Hfh : favorite_hour stats
                  = Some {| fh_hour := 9; fh_count := 1;
                            fh_percentage := b64 (333 # 10) |}).
    { assert (E : option_map (fun s => favorite_hour s)
                    (match fst (get_user_stats "alice" "all" sample_io no_cache tie_chat)
                     with Returns r => r | Raises _ => None end)
                  = Some (Some {| fh_hour := 9; fh_count := 1;
                                  fh_percentage := b64 (333 # 10) |}))
        by (vm_compute; reflexivity).
      rewrite Hrun in E. cbn [fst option_map] in E. congruence. }
    split; [exact Hfh|].
    rewrite Hfh in Hfav. injection Hfav as <-. exact Hpct.
Defined.

(** ** First and last message, display name *)

Lemma fold_min_spec (l : list Z) (a : Z) :
  let m := fold_left Z.min l a in
  m <= a /\ (forall x, In x l -> m <= x) /\ (m = a \/ In m l).
Proof.
  revert a. induction l as [|x l IH]; intros a; cbn [fold_left]; cbv zeta.
  - split; [lia|]. split; [intros x []|]. left. reflexivity.
  - destruct (IH (Z.min a x)) as (Hle & Hall & Hin). split; [lia|]. split.
    + intros y [<-|Hy]; [lia | apply Hall, Hy].
    + destruct Hin as [Heq|Hin]; [|right; right; exact Hin].
      destruct (Z.min_spec a x) as [[_ Hm]|[_ Hm]].
      * left. congruence.
      * right. left. congruence.
Qed.

Lemma fold_max_spec (l : list Z) (a : Z) :
  let m := fold_left Z.max l a in
  a <= m /\ (forall x, In x l -> x <= m) /\ (m = a \/ In m l).
Proof.
  revert a. induction l as [|x l IH]; intros a; cbn [fold_left]; cbv zeta.
  - split; [lia|]. split; [intros x []|]. left. reflexivity.
  - destruct (IH (Z.max a x)) as (Hle & Hall & Hin). split; [lia|]. split.
    + intros y [<-|Hy]; [lia | apply Hall, Hy].
    + destruct Hin as [Heq|Hin]; [|right; right; exact Hin].
      destruct (Z.max_spec a x) as [[_ Hm]|[_ Hm]].
      * right. left. congruence.
      * left. congruence.
Qed.

Lemma min_timestamp_spec (docs : list doc) :
  docs <> [] ->
  exists t, min_timestamp docs = Some t /\
            (forall d, In d docs -> t <= timestamp d) /\
            (exists d, In d docs /\ timestamp d = t).
Proof.
  destruct docs as [|d r]; [congruence|]. intros _. cbn [min_timestamp].
  destruct (fold_min_spec (map timestamp r) (timestamp d)) as (Hle & Hall & Hin).
  eexists. split; [reflexivity|]. split.
  - intros x [<-|Hx]; [exact Hle|]. apply Hall, in_map, Hx.
  - destruct Hin as [Heq|Hin].
    + exists d. split; [left; reflexivity | symmetry; exact Heq].
    + apply in_map_iff in Hin as (x & Hx & Hin). exists x. split; [right; exact Hin | exact Hx].
Qed.

Lemma max_timestamp_spec (docs : list doc) :
  docs <> [] ->
  exists t, max_timestamp docs = Some t /\
            (forall d, In d docs -> timestamp d <= t) /\
            (exists d, In d docs /\ timestamp d = t).
Proof.
  destruct docs as [|d r]; [congruence|]. intros _. cbn [max_timestamp].
  destruct (fold_max_spec (map timestamp r) (timestamp d)) as (Hle & Hall & Hin).
  eexists. split; [reflexivity|]. split.
  - intros x [<-|Hx]; [exact Hle|]. apply Hall, in_map, Hx.
  - destruct Hin as [Heq|Hin].
    + exists d. split; [left; reflexivity | symmetry; exact Heq].
    + apply in_map_iff in Hin as (x & Hx & Hin). exists x. split; [right; exact Hin | exact Hx].
Qed.

(** X18.  In a result of [get_user_stats], [first_message_date] and
    [last_message_date] are the smallest and the largest timestamp of the
    user's messages of the period, both attained; the display name is the
    one of the user's last message of the period in store order; and the
    first of the recent messages, which ignore the period, is not older than
    [last_message_date]. *)
Theorem message_dates_span_the_period
  (uname period : string) (io : stats_io) (g : emote_globals) (c : collection) :
  let matched :=
    List.filter (user_in_period uname (get_date_filter period (st_now_filter io))) c in
  matched <> [] ->
  exists stats g' first last,
    get_user_stats uname period io g c = (Returns (Some stats), g') /\
    first_message_date stats = Some first /\
    last_message_date stats = Some last /\
    (forall d, In d matched -> first <= timestamp d <= last) /\
    (exists d, In d matched /\ timestamp d = first) /\
    (exists d, In d matched /\ timestamp d = last) /\
    (exists init d, matched = init ++ [d] /\ us_display_name stats = display_name d) /\
    (exists r rs, recent_messages stats = r :: rs /\ last <= rm_timestamp r).
Proof.
  intros matched Hne.
  destruct (get_user_stats_record uname period io g c Hne)
    as (stats & g' & Hrun & _ & Hdn & _ & _ & _ & Hfirst & Hlast & _ & _ & _ & Hrecent).
  fold matched in Hdn, Hfirst, Hlast.
  destruct (min_timestamp_spec matched Hne) as (first & Hmin & Hminall & Hminin).
  destruct (max_timestamp_spec matched Hne) as (last & Hmax & Hmaxall & Hmaxin).
  exists stats, g', first, last. split; [exact Hrun|].
  split; [congruence|]. split; [congruence|].
  split; [intros d Hd; split; [apply Hminall | apply Hmaxall]; exact Hd|].
  split; [exact Hminin|]. split; [exact Hmaxin|]. split.
  - destruct (exists_last Hne) as (init & d & Hm). exists init, d.
    split; [exact Hm|]. rewrite Hdn, Hm. unfold last_of.
    rewrite map_app. apply last_last.
  - rewrite Hrecent. unfold recent_docs_of. rewrite limit_limit.
    destruct Hmaxin as (dl & Hdl & Htl).
    set (mine := find (fun d => String.eqb (username d) (lower uname)) c).
    assert (Hin : In dl (sort_desc timestamp mine)).
    { apply (Permutation_in dl (Permutation_sym (sort_by_perm _ mine))).
      unfold mine, find. apply List.filter_In.
      apply List.filter_In in Hdl as [Hc Hp]. split; [exact Hc|].
      unfold user_in_period in Hp. apply andb_true_iff in Hp as [Hp _]. exact Hp. }
    destruct (sort_desc timestamp mine) as [|x rest] eqn:Hs; [destruct Hin|].
    unfold limit. change (Z.to_nat 10) with 10%nat. cbn [firstn map].
    eexists _, _. split; [reflexivity|]. cbn [rm_timestamp]. rewrite <- Htl.
    apply In_nth_error in Hin as [j Hj]. destruct j as [|j].
    + injection Hj as ->. lia.
    + pose proof (sort_desc_ordered timestamp mine 0 (S j) x dl) as Ho.
      rewrite Hs in Ho. apply Ho; [lia | reflexivity | exact Hj].
Qed.

(** The theorem at day 20 with the period [day]: the dates are those of
    the message of the last hour. *)
Lemma message_dates_span_the_period_witness :
  exists stats g' first last,
    get_user_stats "alice" "day" sample_io no_cache sparse_chat
    = (Returns (Some stats), g') /\
    first_message_date stats = Some first /\
    last_message_date stats = Some last /\
    first <= last.
Proof.
  destruct (message_dates_span_the_period "alice" "day" sample_io no_cache sparse_chat)
    as (stats & g' & first & last & Hrun & Hf & Hl & Hall & (d & Hd & _) & _).
  - vm_compute. discriminate.
  - exists stats, g', first, last. split; [exact Hrun|]. split; [exact Hf|].
    split; [exact Hl|]. specialize (Hall d Hd). lia.
Defined.

(** ** Upper and lower case in user names *)

(** X20.  [get_user_stats] reads the requested name only through its
    lower-cased form: two names that differ in the case of their letters get
    the same result, and leave the same emote cache. *)
Theorem user_stats_ignore_case
  (u1 u2 period : string) (io : stats_io) (g : emote_globals) (c : collection) :
  lower u1 = lower u2 ->
  get_user_stats u1 period io g c = get_user_stats u2 period io g c.
Proof.
  intros H.
  unfold get_user_stats, user_in_period, recent_docs_of, get_user_percentile,
    percentile_in, get_rival, rival_in, get_top_replies, user_messages_of,
    reply_counts_of, get_user_rankings, get_user_top_emotes.
  rewrite H. reflexivity.
Qed.

(** The theorem at [Alice] and [alice]. *)
Lemma user_stats_ignore_case_witness :
  get_user_stats "Alice" "all" sample_io no_cache solo_chat
  = get_user_stats "alice" "all" sample_io no_cache solo_chat.
Proof.
  apply (user_stats_ignore_case "Alice" "alice"). reflexivity.
Defined.

(** ** From a chat message to the statistics *)

(** X21.  [event_message] stores nothing for the bot's own echo or when
    the insert fails.  Otherwise it appends one document, whose hour is an
    hour of the day; a query for the author with the period [all], in any
    letter case, then finds one message more than before, under the
    lower-cased name and with the display name of the new message, and the
    messages matched for every other user are the same as before. *)
Theorem ingested_message_is_counted
  (author_id author_name dn text chan : string) (now : datetime)
  (io : stats_io) (g : emote_globals) (c : collection) :
  let ingest := fun echo insert_ok =>
    event_message echo insert_ok author_id author_name dn text chan now c in
  let mine := fun (name : string) (c : collection) =>
    List.filter (user_in_period name (get_date_filter "all" (st_now_filter io))) c in
  (forall insert_ok, ingest true insert_ok = c) /\
  ingest false false = c /\
  (valid_hours c -> valid_hours (ingest false true)) /\
  (exists stats g',
     get_user_stats author_name "all" io g (ingest false true)
     = (Returns (Some stats), g') /\
     total_messages stats = count_of (mine author_name c) + 1 /\
     us_username stats = lower author_name /\
     us_display_name stats = dn) /\
  (forall other, lower other <> lower author_name ->
     mine other (ingest false true) = mine other c).
Proof.
  intros ingest mine. unfold ingest.
  split; [reflexivity|]. split; [reflexivity|].
  split; [apply event_message_valid_hours|].
  cbn [event_message].
  set (d := {| user_id := author_id; username := lower author_name;
               display_name := dn; message := text; channel := chan;
               timestamp := now; hour := brt_hour now |}).
  assert (Hmine : forall name,
            mine name (c ++ [d])
            = mine name c ++ (if String.eqb (lower author_name) (lower name)
                              then [d] else [])).
  { intros name. unfold mine. rewrite List.filter_app. cbn [List.filter].
    unfold user_in_period at 2. cbn [username d get_date_filter String.eqb Ascii.eqb
      Bool.eqb matches_date]. rewrite andb_true_r. reflexivity. }
  split.
  - destruct (get_user_stats_record author_name "all" io g (c ++ [d]))
      as (stats & g' & Hrun & Hu & Hdn & _ & Ht & _).
    { fold (mine author_name (c ++ [d])). rewrite Hmine, String.eqb_refl.
      intros Hnil. apply app_eq_nil in Hnil as [_ Hnil]. discriminate Hnil. }
    fold (mine author_name (c ++ [d])) in Hdn, Ht.
    rewrite Hmine, String.eqb_refl in Hdn, Ht.
    exists stats, g'. split; [exact Hrun|]. split.
    + rewrite Ht. unfold count_of. rewrite length_app. cbn [length]. lia.
    + split; [exact Hu|]. rewrite Hdn. unfold last_of. rewrite map_app. apply last_last.
  - intros other Hother. rewrite Hmine.
    destruct (String.eqb_spec (lower author_name) (lower other)) as [Heq|_].
    + congruence.
    + apply app_nil_r.
Qed.

(** The theorem at a second message of [alice], written as [Alice]. *)
Lemma ingested_message_is_counted_witness :
  valid_hours (event_message false true "7" "Alice" "Alice" "oi" "pererecos"
                             (seconds 200) solo_chat) /\
  exists stats g',
    get_user_stats "Alice" "all" sample_io no_cache
      (event_message false true "7" "Alice" "Alice" "oi" "pererecos"
                     (seconds 200) solo_chat)
    = (Returns (Some stats), g') /\
    total_messages stats = 2 /\ us_display_name stats = "Alice"%string.
Proof.
  destruct (ingested_message_is_counted "7" "Alice" "Alice" "oi" "pererecos"
              (seconds 200) sample_io no_cache solo_chat)
    as (_ & _ & Hv & (stats & g' & Hrun & Ht & _ & Hdn) & _).
  split.
  - apply Hv. constructor; [cbn; lia | constructor].
  - exists stats, g'. split; [exact Hrun|]. split; [|exact Hdn].
    rewrite Ht. reflexivity.
Defined.

(** ** One emote table for both users of a comparison *)

Lemma get_user_top_emotes_stale (uname : string) (lim : Z) (now : datetime)
  (io : emote_io) (g : emote_globals) (c : collection) :
  cache_fresh g (io_now io) = None ->
  snd (get_user_top_emotes uname lim now io g c)
  = {| _7tv_emotes_cache := Some (fst (try_fetch (io_channel io) (io_global io)));
       _7tv_cache_time := Some (io_now io) |}.
Proof.
  intros Hstale.
  unfold get_user_top_emotes, count_emotes_in_messages, get_7tv_emotes.
  rewrite Hstale. reflexivity.
Qed.

Lemma get_user_top_emotes_fresh (uname : string) (lim : Z) (now : datetime)
  (io io' : emote_io) (g : emote_globals) (c : collection) (cache : gmap string string) :
  cache_fresh g (io_now io) = Some cache ->
  io_now io' = io_now io ->
  get_user_top_emotes uname lim now io' g c = get_user_top_emotes uname lim now io g c /\
  snd (get_user_top_emotes uname lim now io g c) = g.
Proof.
  intros Hfresh Hnow.
  unfold get_user_top_emotes, count_emotes_in_messages, get_7tv_emotes.
  rewrite Hnow, Hfresh. split; reflexivity.
Qed.

Lemma get_user_stats_globals
  (uname period : string) (io : stats_io) (g : emote_globals) (c : collection) :
  snd (get_user_stats uname period io g c) = g \/
  snd (get_user_stats uname period io g c)
  = snd (get_user_top_emotes uname 10 (st_now_emotes io) (st_emote_io io) g c).
Proof.
  unfold get_user_stats.
  destruct (count_of _ =? 0); [left; reflexivity|].
  destruct (get_peak_hours _); [|left; reflexivity].
  destruct (get_user_top_emotes uname 10 (st_now_emotes io) (st_emote_io io) g c).
  right. reflexivity.
Qed.

(** X22.  When the first user of a comparison has messages in the period
    and the emote cache is stale at the first call, the first call fetches
    the emote table and stores it; if the clock of the second call is less
    than one hour later, the second call reads that table: the result of the
    comparison does not depend on what the 7TV service would answer to the
    second call, and the cache left behind is the one the first call
    stored. *)
Theorem comparison_fetches_emotes_once
  (user1 user2 period : string) (io1 io2 : stats_io) (g : emote_globals)
  (c : collection) :
  let e1 := st_emote_io io1 in
  List.filter (user_in_period user1 (get_date_filter period (st_now_filter io1))) c
  <> [] ->
  cache_fresh g (io_now e1) = None ->
  io_now (st_emote_io io2) - io_now e1 < seconds 3600 ->
  snd (get_user_comparison user1 user2 period io1 io2 g c)
  = {| _7tv_emotes_cache := Some (fst (try_fetch (io_channel e1) (io_global e1)));
       _7tv_cache_time := Some (io_now e1) |} /\
  forall channel_resp global_resp,
    get_user_comparison user1 user2 period io1 (with_http io2 channel_resp global_resp) g c
    = get_user_comparison user1 user2 period io1 io2 g c.
Proof.
  intros e1 Hne Hstale Hsoon.
  destruct (get_user_stats_record user1 period io1 g c Hne)
    as (stats & g1 & Hrun & _ & _ & _ & _ & _ & _ & _ & _ & _ & Hem & _).
  assert (Hg1 : g1 = {| _7tv_emotes_cache :=
                          Some (fst (try_fetch (io_channel e1) (io_global e1)));
                        _7tv_cache_time := Some (io_now e1) |}).
  { rewrite <- (get_user_top_emotes_stale user1 10 (st_now_emotes io1) e1 g c Hstale).
    fold e1 in Hem. rewrite <- Hem. reflexivity. }
  assert (Hfresh : cache_fresh g1 (io_now (st_emote_io io2))
                   = Some (fst (try_fetch (io_channel e1) (io_global e1)))).
  { rewrite Hg1. unfold cache_fresh. cbn [_7tv_emotes_cache _7tv_cache_time].
    destruct (Z.ltb_spec (io_now (st_emote_io io2) - io_now e1) (seconds 3600));
      [reflexivity | lia]. }
  assert (Hsame : forall channel_resp global_resp,
            get_user_stats user2 period (with_http io2 channel_resp global_resp) g1 c
            = get_user_stats user2 period io2 g1 c).
  { intros channel_resp global_resp. unfold get_user_stats.
    cbn [with_http st_now_filter st_now_percentile st_now_rival st_now_replies
         st_rankings st_now_emotes st_emote_io].
    rewrite (proj1 (get_user_top_emotes_fresh user2 10 (st_now_emotes io2)
                      (st_emote_io io2)
                      {| io_now := io_now (st_emote_io io2);
                         io_channel := channel_resp; io_global := global_resp |}
                      g1 c _ Hfresh eq_refl)).
    reflexivity. }
  assert (Hkeep : snd (get_user_stats user2 period io2 g1 c) = g1).
  { destruct (get_user_stats_globals user2 period io2 g1 c) as [H|H]; [exact H|].
    rewrite H.
    apply (proj2 (get_user_top_emotes_fresh user2 10 (st_now_emotes io2)
                    (st_emote_io io2) (st_emote_io io2) g1 c _ Hfresh eq_refl)). }
  split.
  - unfold get_user_comparison. rewrite Hrun.
    destruct (get_user_stats user2 period io2 g1 c) as [[stats2|e] g2];
      cbn [snd] in *; congruence.
  - intros channel_resp global_resp. unfold get_user_comparison.
    rewrite Hrun, Hsame. reflexivity.
Qed.

(** The theorem at [alice] and [bob], with a 7TV service that answers
    the second call and is not asked. *)
Lemma comparison_fetches_emotes_once_witness :
  get_user_comparison "alice" "bob" "all" sample_io
    (with_http sample_io (HttpResponse 200 (Some [Emote "a" "1"])) HttpError)
    no_cache reply_chat
  = get_user_comparison "alice" "bob" "all" sample_io sample_io no_cache reply_chat.
Proof.
  apply (proj2 (comparison_fetches_emotes_once "alice" "bob" "all" sample_io sample_io
                  no_cache reply_chat ltac:(discriminate) eq_refl ltac:(vm_compute; reflexivity))).
Defined.

(** ** The busiest hour of all time *)

(** X23.  When the stored hours are hours of the day, the [peak_count]
    of [get_overall_hourly_activity] is the largest number of messages
    written at one hour of the day over all time and [peak_hour] the first
    hour that has it; both are 0 for an empty collection, and for a
    non-empty one the peak lies between 1 and [total_messages]. *)
Theorem overall_activity_peak (c : collection) :
  valid_hours c ->
  let '(activity, total_messages, peak_hour, peak_count) :=
    get_overall_hourly_activity c in
  let bins := fun h => count_at_hour h c in
  (forall h, 0 <= h < 24 -> bins h <= peak_count) /\
  0 <= peak_hour < 24 /\
  (c = [] -> peak_hour = 0 /\ peak_count = 0) /\
  (c <> [] ->
   1 <= peak_count <= total_messages /\ bins peak_hour = peak_count /\
   forall h, 0 <= h < peak_hour -> bins h < peak_count).
Proof.
  intros Hv. unfold get_overall_hourly_activity.
  rewrite (limit_all 24) by (pose proof (hourly_rows_length c Hv); lia).
  pose proof (peak_of_histogram (hourly_rows c)) as Hpeak.
  destruct (peak_of (histogram (hourly_rows c))) as [peak_hour peak_count].
  cbv zeta in Hpeak |- *.
  assert (Hbins : forall h, dict_get (dict_of (hourly_rows c)) h 0 = count_at_hour h c)
    by (intros h; apply hourly_rows_get).
  destruct Hpeak as (Hmax & Hrange & Hzero & Hpos).
  split; [intros h Hh; rewrite <- Hbins; apply Hmax, Hh|].
  split; [exact Hrange|]. split.
  - intros Hnil. apply Hzero. intros h _. rewrite Hbins, Hnil. reflexivity.
  - intros Hne.
    assert (Hex : exists h, 0 <= h < 24 /\ 0 < dict_get (dict_of (hourly_rows c)) h 0).
    { destruct c as [|d r]; [congruence|].
      exists (hour d). split; [exact (Forall_inv Hv)|].
      rewrite Hbins, count_at_hour_cons, bool_decide_true by reflexivity.
      pose proof (count_at_hour_bounds (hour d) r). lia. }
    destruct (Hpos Hex) as [Hat Hfirst]. rewrite Hbins in Hat.
    destruct Hex as (h & Hh & Hp). specialize (Hmax h Hh).
    split.
    + rewrite histogram_counts, (sum_count_at_hour c Hv), <- Hat.
      pose proof (count_at_hour_bounds peak_hour c). lia.
    + split; [exact Hat|]. intros k Hk. rewrite <- Hbins. apply Hfirst, Hk.
Qed.

(** The theorem at a chat of three messages, all at hour 9. *)
Lemma overall_activity_peak_witness :
  1 <= snd (get_overall_hourly_activity reply_chat).
Proof.
  assert (Hv : valid_hours reply_chat) by (repeat constructor; cbn; lia).
  pose proof (overall_activity_peak reply_chat Hv) as H.
  destruct (get_overall_hourly_activity reply_chat) as [[[a t] ph] pc].
  destruct H as (_ & _ & _ & Hpos). cbn [snd].
  destruct Hpos as [[H1 _] _]; [discriminate | exact H1].
Defined.

(** ** Emotes of a user and of the chat *)

Lemma occurrences_In (w : string) (l : list string) :
  1 <= occurrences w l -> In w l.
Proof.
  unfold occurrences, count_of. intros H.
  destruct (List.filter (String.eqb w) l) as [|x r] eqn:Hf; [cbn in H; lia|].
  assert (Hx : In x (List.filter (String.eqb w) l)) by (rewrite Hf; left; reflexivity).
  apply List.filter_In in Hx as [Hx Hw]. apply String.eqb_eq in Hw. subst x. exact Hx.
Qed.

Lemma tokens_In (w : string) (messages : list string) :
  In w (tokens messages) -> exists m, In m messages /\ In w (split m).
Proof.
  unfold tokens. intros H. apply in_concat in H as (ws & Hws & Hw).
  apply in_map_iff in Hws as (m & <- & Hm). exists m. split; assumption.
Qed.

Lemma sum_Z_ge_length (l : list Z) :
  (forall x, In x l -> 1 <= x) -> Z.of_nat (length l) <= sum_Z l.
Proof.
  induction l as [|x l IH]; intros H; [rewrite sum_Z_nil; cbn; lia|].
  rewrite sum_Z_cons. cbn [length].
  specialize (H x (or_introl eq_refl)) as Hx.
  specialize (IH (fun y Hy => H y (or_intror Hy))). lia.
Qed.

(** A listed emote is a word of one of the messages. *)
Lemma count_emotes_in_messages_word (messages : list string) (lim : Z)
  (io : emote_io) (g : emote_globals) (u : EmoteUsage) :
  In u (fst (count_emotes_in_messages messages lim io g)) ->
  1 <= eu_count u /\ exists m, In m messages /\ In (emote_name u) (split m).
Proof.
  unfold count_emotes_in_messages.
  destruct (get_7tv_emotes _ _ _ g) as [emotes g']. cbn [fst]. intros Hin.
  apply count_emotes_with_In in Hin as (_ & Hocc & Hone).
  split; [exact Hone|]. apply tokens_In, occurrences_In. rewrite <- Hocc. exact Hone.
Qed.

(** X24.  Every emote that [get_user_top_emotes] lists is a word of a
    message the user wrote in the 30 days before now, and every emote that
    [get_chat_top_emotes] lists is a word of a message of those 30 days.
    The total of [get_chat_top_emotes] is the sum of the counts it lists,
    not of all emote uses, and is at least the number of listed emotes. *)
Theorem top_emotes_from_last_30_days
  (uname : string) (lim : Z) (now : datetime) (io : emote_io) (g : emote_globals)
  (c : collection) :
  (forall u, In u (fst (get_user_top_emotes uname lim now io g c)) ->
     exists d, In d c /\ username d = lower uname /\ now - days 30 <= timestamp d /\
               In (emote_name u) (split (message d))) /\
  (let '(emotes, total) := fst (get_chat_top_emotes lim now io g c) in
   total = sum_Z (map eu_count emotes) /\
   Z.of_nat (length emotes) <= total /\
   forall u, In u emotes ->
     exists d, In d c /\ now - days 30 <= timestamp d /\
               In (emote_name u) (split (message d))).
Proof.
  split.
  - intros u Hin. unfold get_user_top_emotes in Hin.
    apply count_emotes_in_messages_word in Hin as (_ & m & Hm & Hw).
    apply in_map_iff in Hm as (d & <- & Hd). do 2 apply limit_In in Hd.
    apply List.filter_In in Hd as (Hd & Hp). apply andb_true_iff in Hp as [Hu Ht].
    apply String.eqb_eq in Hu. apply Z.leb_le in Ht.
    exists d. repeat split; assumption.
  - unfold get_chat_top_emotes.
    set (messages := limit MAX_MESSAGES_QUERY (limit MAX_MESSAGES_QUERY
                       (sort_desc timestamp
                          (find (fun d => now - days 30 <=? timestamp d) c)))).
    pose proof (count_emotes_in_messages_word (map message messages) lim io g) as Hword.
    destruct (count_emotes_in_messages (map message messages) lim io g) as [emotes g'].
    cbn [fst] in *. split; [reflexivity|]. split.
    + rewrite <- (length_map eu_count). apply sum_Z_ge_length.
      intros x Hx. apply in_map_iff in Hx as (u & <- & Hu). apply (Hword u Hu).
    + intros u Hu. destruct (Hword u Hu) as (_ & m & Hm & Hw).
      apply in_map_iff in Hm as (d & <- & Hd). do 2 apply limit_In in Hd.
      apply (Permutation_in _ (sort_by_perm _ _)) in Hd.
      apply List.filter_In in Hd as (Hd & Ht). apply Z.leb_le in Ht.
      exists d. repeat split; assumption.
Qed.

(** The theorem at a chat where [alice] and [bob] use [Kappa]. *)
Lemma top_emotes_from_last_30_days_witness :
  map emote_name (fst (get_user_top_emotes "alice" 5 (seconds 10) offline_io
                         kappa_cache kappa_chat)) = ["Kappa"%string] /\
  exists d, In d kappa_chat /\ username d = "alice"%string /\
            In "Kappa"%string (split (message d)).
Proof.
  assert (Hrun : map emote_name (fst (get_user_top_emotes "alice" 5 (seconds 10)
                   offline_io kappa_cache kappa_chat)) = ["Kappa"%string])
    by (vm_compute; reflexivity).
  split; [exact Hrun|].
  destruct (fst (get_user_top_emotes "alice" 5 (seconds 10) offline_io
                   kappa_cache kappa_chat)) as [|u r] eqn:Hl; [discriminate|].
  injection Hrun as Hname _.
  destruct (proj1 (top_emotes_from_last_30_days "alice" 5 (seconds 10) offline_io
                     kappa_cache kappa_chat) u) as (d & Hd & Hu & _ & Hw).
  - rewrite Hl. left. reflexivity.
  - exists d. rewrite <- Hname. repeat split; assumption.
Defined.
